(** * smtp-proxy: the SMTP session of [smtp_proxy/smtp/session.py]

    A shallow embedding of [SMTPSession] and of the configuration and
    [Email] records it uses, with the properties of the session state
    machine proved over it.

    Conventions of the model.
    - Python [int] is [Z]; [bytes] is [list byte]; [str] is a sequence of
      Unicode code points, [str] below.
    - [bytes.decode] is the UTF-8 decoder of CPython, strict or with
      [errors="replace"]; the white space of [str.strip] and [str.split]
      and the mapping of [str.upper] are those of CPython 3.11 (Unicode
      14.0).
    - The connection is a script of what each successive [readline()]
      gives: a line, a time-out or an exception; the end of the script is
      end of file, where [readline()] returns [b""] for ever.
    - [writer] is the sequence of the lines passed to [writer.write]; a
      transport that was closed drops what is written to it, and
      [writer.drain] returns or raises what [_send] swallows.
    - The building of the SSL context, [loop.start_tls] and
      [email_repo.create] answer from scripts of their own; the message
      parser of the [email] package is a parameter. *)

From Stdlib Require Import List NArith ZArith Lia Bool DecimalString.
From Stdlib Require Import Strings.Byte.
From Stdlib Require Strings.String.
Import ListNotations.
Open Scope Z_scope.

(** ** Python [str]: a sequence of code points *)

Inductive str : Set :=
| EmptyString
| String (c : N) (s : str).

(** String literals denote the [str] of their bytes, one code point per
    byte (the literals of this file are ASCII). *)
Fixpoint str_of_bytes (b : list byte) : str :=
  match b with
  | [] => EmptyString
  | x :: b' => String (Byte.to_N x) (str_of_bytes b')
  end.

Fixpoint bytes_of_str (s : str) : option (list byte) :=
  match s with
  | EmptyString => Some []
  | String c s' =>
      match Byte.of_N c, bytes_of_str s' with
      | Some x, Some b => Some (x :: b)
      | _, _ => None
      end
  end.

Declare Scope str_scope.
Delimit Scope str_scope with str.
Bind Scope str_scope with str.
String Notation str str_of_bytes bytes_of_str : str_scope.

(** [s + t]. *)
Fixpoint append (s t : str) : str :=
  match s with
  | EmptyString => t
  | String c s' => String c (append s' t)
  end.

Infix "++" := append (right associativity, at level 60) : str_scope.
Open Scope str_scope.

(** ** Python primitives used by the session *)

Module Py.

Definition CR : N := 13.
Definition LF : N := 10.
Definition NUL : N := 0.
Definition SPACE : N := 32.
Definition LT : N := 60.
Definition GT : N := 62.
Definition CRLF : str := String CR (String LF EmptyString).

(** [len] of a list and of a [str]. *)
Definition len {A} (l : list A) : Z := Z.of_nat (List.length l).

Fixpoint length (s : str) : nat :=
  match s with
  | EmptyString => O
  | String _ s' => S (length s')
  end.

Definition slen (s : str) : Z := Z.of_nat (length s).

(** [a == b] on [str]. *)
Fixpoint eqb (a b : str) : bool :=
  match a, b with
  | EmptyString, EmptyString => true
  | String x a', String y b' => (x =? y)%N && eqb a' b'
  | _, _ => false
  end.

Definition octet (n : N) : byte :=
  match Byte.of_N (N.land n 255) with Some b => b | None => x00 end.

(** The UTF-8 bytes of one code point. *)
Definition encode_char (c : N) : list byte :=
  (if c <? 128 then [octet c]
   else if c <? 2048 then [octet (192 + c / 64); octet (128 + c mod 64)]
   else if c <? 65536
   then [octet (224 + c / 4096); octet (128 + (c / 64) mod 64);
         octet (128 + c mod 64)]
   else [octet (240 + c / 262144); octet (128 + (c / 4096) mod 64);
         octet (128 + (c / 64) mod 64); octet (128 + c mod 64)])%N.

(** [s.encode()], for a [str] without lone surrogates (on which Python
    raises); it is applied to text that was decoded or written as a
    literal. *)
Fixpoint encode (s : str) : list byte :=
  match s with
  | EmptyString => []
  | String c s' => (encode_char c ++ encode s')%list
  end.

(** [s.encode("ascii")]: [None] for [UnicodeEncodeError]. *)
Fixpoint encode_ascii (s : str) : option (list byte) :=
  match s with
  | EmptyString => Some []
  | String c s' =>
      if (c <? 128)%N
      then option_map (cons (octet c)) (encode_ascii s')
      else None
  end.

(** What the first byte of a UTF-8 sequence announces: a code point of
    its own, [need] continuation bytes (the next of them within
    [lo, hi], which excludes overlong forms, surrogates and code points
    above U+10FFFF), or an invalid start byte. *)
Inductive utf8_lead :=
| LeadChar (c : N)
| LeadSeq (need : nat) (acc lo hi : N)
| LeadBad.

Definition utf8_lead_of (b : N) : utf8_lead :=
  (if b <? 128 then LeadChar b
   else if b <? 194 then LeadBad
   else if b <? 224 then LeadSeq 1 (b - 192) 128 191
   else if b =? 224 then LeadSeq 2 0 160 191
   else if b =? 237 then LeadSeq 2 13 128 159
   else if b <? 240 then LeadSeq 2 (b - 224) 128 191
   else if b =? 240 then LeadSeq 3 0 144 191
   else if b <? 244 then LeadSeq 3 (b - 240) 128 191
   else if b =? 244 then LeadSeq 3 4 128 143
   else LeadBad)%N.

(** U+FFFD, what [errors="replace"] puts for an undecodable part. *)
Definition REPLACEMENT : N := 65533.

(** The UTF-8 decoder of CPython.  [pending] is the sequence under way:
    the continuation bytes still needed, the bits read, and the bounds of
    the next byte.  An error is an invalid start byte (one byte), a
    sequence cut short by a byte that cannot continue it (the bytes of the
    sequence so far; the offending byte is looked at afresh), or a
    sequence cut short by the end of the input.  With [replace] each error
    gives one U+FFFD; without, the result is [None]
    ([UnicodeDecodeError]). *)
Fixpoint utf8_decode (replace : bool) (pending : option (nat * N * N * N))
    (b : list byte) : option str :=
  match b with
  | [] =>
      match pending with
      | None => Some EmptyString
      | Some _ => if replace then Some (String REPLACEMENT EmptyString)
                  else None
      end
  | x :: b' =>
      let n := Byte.to_N x in
      let afresh :=
        match utf8_lead_of n with
        | LeadChar c => option_map (String c) (utf8_decode replace None b')
        | LeadSeq need acc lo hi =>
            utf8_decode replace (Some (need, acc, lo, hi)) b'
        | LeadBad =>
            if replace
            then option_map (String REPLACEMENT) (utf8_decode replace None b')
            else None
        end in
      match pending with
      | None => afresh
      | Some (need, acc, lo, hi) =>
          if ((lo <=? n) && (n <=? hi))%N
          then
            let acc := (acc * 64 + (n - 128))%N in
            match need with
            | S (S need') =>
                utf8_decode replace (Some (S need', acc, 128, 191)%N) b'
            | _ => option_map (String acc) (utf8_decode replace None b')
            end
          else if replace then option_map (String REPLACEMENT) afresh
          else None
      end
  end.

(** [b.decode()]: strict, [None] for [UnicodeDecodeError]. *)
Definition decode (b : list byte) : option str := utf8_decode false None b.

(** [b.decode("utf-8", errors="replace")]. *)
Definition decode_replace (b : list byte) : str :=
  match utf8_decode true None b with
  | Some s => s
  | None => EmptyString
  end.

(** [str.isspace] of one character, which is also the white space of
    [str.strip] and [str.split]: TAB, LF, VT, FF, CR, FS, GS, RS, US,
    SPACE, U+0085, U+00A0, U+1680, U+2000 to U+200A, U+2028, U+2029,
    U+202F, U+205F and U+3000. *)
Definition isspace (c : N) : bool :=
  ((9 <=? c) && (c <=? 13) || (28 <=? c) && (c <=? 32)
   || (c =? 133) || (c =? 160) || (c =? 5760)
   || (8192 <=? c) && (c <=? 8202)
   || (c =? 8232) || (c =? 8233) || (c =? 8239) || (c =? 8287)
   || (c =? 12288))%N.

(** White space of [bytes.strip]: SPACE, TAB, LF, CR, VT, FF. *)
Definition isspace_b (b : byte) : bool :=
  let n := Byte.to_N b in
  ((9 <=? n) && (n <=? 13) || (n =? 32))%N.

Fixpoint lstrip (s : str) : str :=
  match s with
  | String c s' => if isspace c then lstrip s' else s
  | EmptyString => EmptyString
  end.

Fixpoint rstrip (s : str) : str :=
  match s with
  | String c s' =>
      match rstrip s' with
      | EmptyString => if isspace c then EmptyString else String c EmptyString
      | r => String c r
      end
  | EmptyString => EmptyString
  end.

Definition strip (s : str) : str := rstrip (lstrip s).

Fixpoint lstrip_b (b : list byte) : list byte :=
  match b with
  | c :: b' => if isspace_b c then lstrip_b b' else b
  | [] => []
  end.

Fixpoint rstrip_b (b : list byte) : list byte :=
  match b with
  | c :: b' =>
      match rstrip_b b' with
      | [] => if isspace_b c then [] else [c]
      | r => c :: r
      end
  | [] => []
  end.

Definition strip_b (b : list byte) : list byte := rstrip_b (lstrip_b b).

(** [s.split()]: the maximal runs of non-space characters. *)
Fixpoint words (cur : str) (s : str) : list str :=
  match s with
  | EmptyString => match cur with EmptyString => [] | _ => [cur] end
  | String c s' =>
      if isspace c
      then match cur with
           | EmptyString => words EmptyString s'
           | _ => cur :: words EmptyString s'
           end
      else words (cur ++ String c EmptyString) s'
  end.

Definition split (s : str) : list str := words EmptyString s.

(** The first run of non-space characters of [s] and what follows it. *)
Fixpoint break_space (s : str) : str * str :=
  match s with
  | EmptyString => (EmptyString, EmptyString)
  | String c s' =>
      if isspace c then (EmptyString, s)
      else let (w, r) := break_space s' in (String c w, r)
  end.

(** [s.split(None, 1)]: at most one split, the rest kept as it is but for
    its leading white space. *)
Definition split1 (s : str) : list str :=
  match lstrip s with
  | EmptyString => []
  | s0 =>
      let (w, r) := break_space s0 in
      match lstrip r with
      | EmptyString => [w]
      | r0 => [w; r0]
      end
  end.

(** [s.split(sep)] for a one-character separator: never empty. *)
Fixpoint split_on (sep : N) (cur : str) (s : str) : list str :=
  match s with
  | EmptyString => [cur]
  | String c s' =>
      if (c =? sep)%N then cur :: split_on sep EmptyString s'
      else split_on sep (cur ++ String c EmptyString) s'
  end.

(** The simple upper-case mappings of [str.upper]: every [stride]-th code
    point of [lo .. hi] maps to the code point at the same distance from
    [target], as [(lo, hi, stride, target)]. *)
Definition upper_runs : list (N * N * N * N) :=
  (
  [(97, 122, 1, 65); (181, 181, 1, 924); (224, 246, 1, 192);
   (248, 254, 1, 216); (255, 255, 1, 376); (257, 303, 2, 256);
   (305, 305, 1, 73); (307, 311, 2, 306); (314, 328, 2, 313);
   (331, 375, 2, 330); (378, 382, 2, 377); (383, 383, 1, 83);
   (384, 384, 1, 579); (387, 389, 2, 386); (392, 392, 1, 391);
   (396, 396, 1, 395); (402, 402, 1, 401); (405, 405, 1, 502);
   (409, 409, 1, 408); (410, 410, 1, 573); (414, 414, 1, 544);
   (417, 421, 2, 416); (424, 424, 1, 423); (429, 429, 1, 428);
   (432, 432, 1, 431); (436, 438, 2, 435); (441, 441, 1, 440);
   (445, 445, 1, 444); (447, 447, 1, 503); (453, 453, 1, 452);
   (454, 454, 1, 452); (456, 456, 1, 455); (457, 457, 1, 455);
   (459, 459, 1, 458); (460, 460, 1, 458); (462, 476, 2, 461);
   (477, 477, 1, 398); (479, 495, 2, 478); (498, 498, 1, 497);
   (499, 499, 1, 497); (501, 501, 1, 500); (505, 543, 2, 504);
   (547, 563, 2, 546); (572, 572, 1, 571); (575, 576, 1, 11390);
   (578, 578, 1, 577); (583, 591, 2, 582); (592, 592, 1, 11375);
   (593, 593, 1, 11373); (594, 594, 1, 11376); (595, 595, 1, 385);
   (596, 596, 1, 390); (598, 599, 1, 393); (601, 601, 1, 399);
   (603, 603, 1, 400); (604, 604, 1, 42923); (608, 608, 1, 403);
   (609, 609, 1, 42924); (611, 611, 1, 404); (613, 613, 1, 42893);
   (614, 614, 1, 42922); (616, 616, 1, 407); (617, 617, 1, 406);
   (618, 618, 1, 42926); (619, 619, 1, 11362); (620, 620, 1, 42925);
   (623, 623, 1, 412); (625, 625, 1, 11374); (626, 626, 1, 413);
   (629, 629, 1, 415); (637, 637, 1, 11364); (640, 640, 1, 422);
   (642, 642, 1, 42949); (643, 643, 1, 425); (647, 647, 1, 42929);
   (648, 648, 1, 430); (649, 649, 1, 580); (650, 651, 1, 433);
   (652, 652, 1, 581); (658, 658, 1, 439); (669, 669, 1, 42930);
   (670, 670, 1, 42928); (837, 837, 1, 921); (881, 883, 2, 880);
   (887, 887, 1, 886); (891, 893, 1, 1021); (940, 940, 1, 902);
   (941, 943, 1, 904); (945, 961, 1, 913); (962, 962, 1, 931);
   (963, 971, 1, 931); (972, 972, 1, 908); (973, 974, 1, 910);
   (976, 976, 1, 914); (977, 977, 1, 920); (981, 981, 1, 934);
   (982, 982, 1, 928); (983, 983, 1, 975); (985, 1007, 2, 984);
   (1008, 1008, 1, 922); (1009, 1009, 1, 929); (1010, 1010, 1, 1017);
   (1011, 1011, 1, 895); (1013, 1013, 1, 917); (1016, 1016, 1, 1015);
   (1019, 1019, 1, 1018); (1072, 1103, 1, 1040); (1104, 1119, 1, 1024);
   (1121, 1153, 2, 1120); (1163, 1215, 2, 1162); (1218, 1230, 2, 1217);
   (1231, 1231, 1, 1216); (1233, 1327, 2, 1232); (1377, 1414, 1, 1329);
   (4304, 4346, 1, 7312); (4349, 4351, 1, 7357); (5112, 5117, 1, 5104);
   (7296, 7296, 1, 1042); (7297, 7297, 1, 1044); (7298, 7298, 1, 1054);
   (7299, 7300, 1, 1057); (7301, 7301, 1, 1058); (7302, 7302, 1, 1066);
   (7303, 7303, 1, 1122); (7304, 7304, 1, 42570); (7545, 7545, 1, 42877);
   (7549, 7549, 1, 11363); (7566, 7566, 1, 42950); (7681, 7829, 2, 7680);
   (7835, 7835, 1, 7776); (7841, 7935, 2, 7840); (7936, 7943, 1, 7944);
   (7952, 7957, 1, 7960); (7968, 7975, 1, 7976); (7984, 7991, 1, 7992);
   (8000, 8005, 1, 8008); (8017, 8023, 2, 8025); (8032, 8039, 1, 8040);
   (8048, 8049, 1, 8122); (8050, 8053, 1, 8136); (8054, 8055, 1, 8154);
   (8056, 8057, 1, 8184); (8058, 8059, 1, 8170); (8060, 8061, 1, 8186);
   (8112, 8113, 1, 8120); (8126, 8126, 1, 921); (8144, 8145, 1, 8152);
   (8160, 8161, 1, 8168); (8165, 8165, 1, 8172); (8526, 8526, 1, 8498);
   (8560, 8575, 1, 8544); (8580, 8580, 1, 8579); (9424, 9449, 1, 9398);
   (11312, 11359, 1, 11264); (11361, 11361, 1, 11360);
   (11365, 11365, 1, 570); (11366, 11366, 1, 574); (11368, 11372, 2, 11367);
   (11379, 11379, 1, 11378); (11382, 11382, 1, 11381);
   (11393, 11491, 2, 11392); (11500, 11502, 2, 11499);
   (11507, 11507, 1, 11506); (11520, 11557, 1, 4256);
   (11559, 11559, 1, 4295); (11565, 11565, 1, 4301);
   (42561, 42605, 2, 42560); (42625, 42651, 2, 42624);
   (42787, 42799, 2, 42786); (42803, 42863, 2, 42802);
   (42874, 42876, 2, 42873); (42879, 42887, 2, 42878);
   (42892, 42892, 1, 42891); (42897, 42899, 2, 42896);
   (42900, 42900, 1, 42948); (42903, 42921, 2, 42902);
   (42933, 42947, 2, 42932); (42952, 42954, 2, 42951);
   (42961, 42961, 1, 42960); (42967, 42969, 2, 42966);
   (42998, 42998, 1, 42997); (43859, 43859, 1, 42931);
   (43888, 43967, 1, 5024); (65345, 65370, 1, 65313);
   (66600, 66639, 1, 66560); (66776, 66811, 1, 66736);
   (66967, 66977, 1, 66928); (66979, 66993, 1, 66940);
   (66995, 67001, 1, 66956); (67003, 67004, 1, 66964);
   (68800, 68850, 1, 68736); (71872, 71903, 1, 71840);
   (93792, 93823, 1, 93760); (125218, 125251, 1, 125184)])%N.

(** The code points that [str.upper] maps to more than one. *)
Definition upper_special : list (N * list N) :=
  (
  [(223, [83; 83]); (329, [700; 78]); (496, [74; 780]);
   (912, [921; 776; 769]); (944, [933; 776; 769]); (1415, [1333; 1362]);
   (7830, [72; 817]); (7831, [84; 776]); (7832, [87; 778]);
   (7833, [89; 778]); (7834, [65; 702]); (8016, [933; 787]);
   (8018, [933; 787; 768]); (8020, [933; 787; 769]); (8022, [933; 787; 834]);
   (8064, [7944; 921]); (8065, [7945; 921]); (8066, [7946; 921]);
   (8067, [7947; 921]); (8068, [7948; 921]); (8069, [7949; 921]);
   (8070, [7950; 921]); (8071, [7951; 921]); (8072, [7944; 921]);
   (8073, [7945; 921]); (8074, [7946; 921]); (8075, [7947; 921]);
   (8076, [7948; 921]); (8077, [7949; 921]); (8078, [7950; 921]);
   (8079, [7951; 921]); (8080, [7976; 921]); (8081, [7977; 921]);
   (8082, [7978; 921]); (8083, [7979; 921]); (8084, [7980; 921]);
   (8085, [7981; 921]); (8086, [7982; 921]); (8087, [7983; 921]);
   (8088, [7976; 921]); (8089, [7977; 921]); (8090, [7978; 921]);
   (8091, [7979; 921]); (8092, [7980; 921]); (8093, [7981; 921]);
   (8094, [7982; 921]); (8095, [7983; 921]); (8096, [8040; 921]);
   (8097, [8041; 921]); (8098, [8042; 921]); (8099, [8043; 921]);
   (8100, [8044; 921]); (8101, [8045; 921]); (8102, [8046; 921]);
   (8103, [8047; 921]); (8104, [8040; 921]); (8105, [8041; 921]);
   (8106, [8042; 921]); (8107, [8043; 921]); (8108, [8044; 921]);
   (8109, [8045; 921]); (8110, [8046; 921]); (8111, [8047; 921]);
   (8114, [8122; 921]); (8115, [913; 921]); (8116, [902; 921]);
   (8118, [913; 834]); (8119, [913; 834; 921]); (8124, [913; 921]);
   (8130, [8138; 921]); (8131, [919; 921]); (8132, [905; 921]);
   (8134, [919; 834]); (8135, [919; 834; 921]); (8140, [919; 921]);
   (8146, [921; 776; 768]); (8147, [921; 776; 769]); (8150, [921; 834]);
   (8151, [921; 776; 834]); (8162, [933; 776; 768]); (8163, [933; 776; 769]);
   (8164, [929; 787]); (8166, [933; 834]); (8167, [933; 776; 834]);
   (8178, [8186; 921]); (8179, [937; 921]); (8180, [911; 921]);
   (8182, [937; 834]); (8183, [937; 834; 921]); (8188, [937; 921]);
   (64256, [70; 70]); (64257, [70; 73]); (64258, [70; 76]);
   (64259, [70; 70; 73]); (64260, [70; 70; 76]); (64261, [83; 84]);
   (64262, [83; 84]); (64275, [1348; 1350]); (64276, [1348; 1333]);
   (64277, [1348; 1339]); (64278, [1358; 1350]); (64279, [1348; 1341])])%N.

Fixpoint upper_in_runs (runs : list (N * N * N * N)) (c : N) : option N :=
  match runs with
  | [] => None
  | (lo, hi, stride, target) :: runs' =>
      if ((lo <=? c) && (c <=? hi) && ((c - lo) mod stride =? 0))%N
      then Some (target + (c - lo))%N
      else upper_in_runs runs' c
  end.

Fixpoint upper_in_special (table : list (N * list N)) (c : N)
    : option (list N) :=
  match table with
  | [] => None
  | (k, v) :: table' =>
      if (k =? c)%N then Some v else upper_in_special table' c
  end.

(** [c.upper()] of one character, as code points. *)
Definition upper_char (c : N) : list N :=
  match upper_in_runs upper_runs c with
  | Some u => [u]
  | None =>
      match upper_in_special upper_special c with
      | Some v => v
      | None => [c]
      end
  end.

Definition str_of_list (l : list N) : str :=
  fold_right String EmptyString l.

(** [s.upper()]: character by character. *)
Fixpoint upper (s : str) : str :=
  match s with
  | EmptyString => EmptyString
  | String c s' => str_of_list (upper_char c) ++ upper s'
  end.

(** [s.startswith(p)]. *)
Fixpoint startswith (p s : str) : bool :=
  match p, s with
  | EmptyString, _ => true
  | String x p', String y s' => (x =? y)%N && startswith p' s'
  | String _ _, EmptyString => false
  end.

(** [s.find(sub)], [None] for -1. *)
Fixpoint find (sub s : str) : option nat :=
  if startswith sub s then Some 0%nat
  else match s with
       | EmptyString => None
       | String _ s' => option_map S (find sub s')
       end.

(** [sub in s]. *)
Definition contains (sub s : str) : bool :=
  match find sub s with Some _ => true | None => false end.

(** [s[n:]]. *)
Fixpoint drop (n : nat) (s : str) : str :=
  match n, s with
  | O, _ => s
  | S n', String _ s' => drop n' s'
  | S _, EmptyString => EmptyString
  end.

(** [s[:-1]]. *)
Fixpoint drop_last (s : str) : str :=
  match s with
  | EmptyString => EmptyString
  | String _ EmptyString => EmptyString
  | String c s' => String c (drop_last s')
  end.

Fixpoint last_char (s : str) : option N :=
  match s with
  | EmptyString => None
  | String c EmptyString => Some c
  | String _ s' => last_char s'
  end.

(** [s.endswith(c)] for a one-character suffix. *)
Definition endswith_char (c : N) (s : str) : bool :=
  match last_char s with Some d => (d =? c)%N | None => false end.

(** [f"{n}"] for an [int]. *)
Definition str_of_int (n : Z) : str :=
  str_of_bytes
    (Strings.String.list_byte_of_string
       (NilZero.string_of_int (Z.to_int n))).

(** [b.startswith(p)] on bytes. *)
Fixpoint startswith_b (p b : list byte) : bool :=
  match p, b with
  | [], _ => true
  | x :: p', y :: b' => Byte.eqb x y && startswith_b p' b'
  | _ :: _, [] => false
  end.

Fixpoint eqb_b (a b : list byte) : bool :=
  match a, b with
  | [], [] => true
  | x :: a', y :: b' => Byte.eqb x y && eqb_b a' b'
  | _, _ => false
  end.

End Py.

Arguments Py.upper_char : simpl never.
(** ** [base64.b64decode]

    The decoder of CPython's [binascii.a2b_base64] in its default (lenient)
    mode: bytes outside the alphabet are skipped, a complete pad sequence
    ends the input, and leftover characters of an unfinished quad are an
    error ([None] for [binascii.Error]). *)

Module Base64.

(** [table_a2b_base64]. *)
Definition value (b : byte) : option N :=
  let n := Byte.to_N b in
  (if (65 <=? n) && (n <=? 90) then Some (n - 65)
   else if (97 <=? n) && (n <=? 122) then Some (n - 71)
   else if (48 <=? n) && (n <=? 57) then Some (n + 4)
   else if n =? 43 then Some 62
   else if n =? 47 then Some 63
   else None)%N.

Definition octet (n : N) : byte :=
  match Byte.of_N (N.land n 255) with Some b => b | None => x00 end.

Fixpoint a2b (data : list byte) (quad_pos leftchar pads : N)
    (out : list byte) : option (list byte) :=
  match data with
  | [] => if (quad_pos =? 0)%N then Some out else None
  | c :: rest =>
      if Byte.eqb c "="%byte then
        if ((2 <=? quad_pos) && (4 <=? quad_pos + (pads + 1)))%N then Some out
        else a2b rest quad_pos leftchar
               (if (2 <=? quad_pos)%N then (pads + 1)%N else pads) out
      else
        match value c with
        | None => a2b rest quad_pos leftchar pads out
        | Some v =>
            match quad_pos with
            | 0%N => a2b rest 1%N v 0%N out
            | 1%N => a2b rest 2%N (N.land v 15) 0%N
                       (out ++ [octet (N.lor (N.shiftl leftchar 2) (N.shiftr v 4))])
            | 2%N => a2b rest 3%N (N.land v 3) 0%N
                       (out ++ [octet (N.lor (N.shiftl leftchar 4) (N.shiftr v 2))])
            | _ => a2b rest 0%N 0%N 0%N
                       (out ++ [octet (N.lor (N.shiftl leftchar 6) v)])
            end
        end
  end.

Definition b64decode (data : list byte) : option (list byte) :=
  a2b data 0%N 0%N 0%N [].

(** [base64.b64decode(s)] for a [str] argument, which is first encoded as
    ASCII ([ValueError] if it cannot be). *)
Definition b64decode_str (s : str) : option (list byte) :=
  match Py.encode_ascii s with
  | Some data => b64decode data
  | None => None
  end.

End Base64.


(** ** Configuration ([config.py]) and the stored record ([models.py]) *)

Module Config.

Record TLSConfig := {
  enabled : bool;
  cert_file : str;
  key_file : str
}.

Record AuthConfig := {
  required : bool;
  username : str;
  password : str
}.

Record SMTPConfig := {
  host : str;
  port : Z;
  domain : str;
  read_timeout_seconds : Z;
  write_timeout_seconds : Z;
  max_message_bytes : Z;
  max_recipients : Z;
  allow_insecure_auth : bool;
  tls : TLSConfig;
  auth : AuthConfig
}.

(** The defaults of the dataclasses. *)
Definition default_tls : TLSConfig :=
  {| enabled := false; cert_file := "certs/server.crt";
     key_file := "certs/server.key" |}.

Definition default_auth : AuthConfig :=
  {| required := true; username := "mailuser"; password := "mailpass" |}.

Definition default : SMTPConfig :=
  {| host := "0.0.0.0"; port := 2525; domain := "localhost";
     read_timeout_seconds := 10; write_timeout_seconds := 10;
     max_message_bytes := 10485760; max_recipients := 50;
     allow_insecure_auth := true; tls := default_tls; auth := default_auth |}.

End Config.

Module Models.

Record Email := {
  id : Z;
  sender : str;
  recipients : list str;
  subject : str;
  body : str;
  raw_message : list byte;
  size_bytes : Z;
  received_at : Z;
  status : str;
  auth_user : str;
  client_ip : str
}.

End Models.

(** ** The connection and the session state *)

(** The exceptions that travel through the session: a connection reset or
    a broken pipe; the [UnicodeDecodeError] of a strict [decode]; what
    else the reader raises ([ValueError] for a line over its limit,
    [ssl.SSLError] once a TLS handshake has failed); an error of the
    database. *)
Inductive exn :=
| ConnectionResetError
| UnicodeDecodeError
| ValueError
| SSLError
| DatabaseError.

(** What one [await asyncio.wait_for(self.reader.readline(), timeout)]
    gives: a line, [asyncio.TimeoutError], or an exception of the
    reader. *)
Inductive read_result :=
| RLine (line : list byte)
| RTimeout
| RRaise (e : exn).

(** What the [try] block of [_handle_starttls] meets: the upgraded
    transport; an exception while the SSL context is built or the
    certificate loaded, before [loop.start_tls] is called; or an exception
    of [loop.start_tls], which has then closed the transport and left the
    exception in the reader.  The last two come with the text of the
    exception. *)
Inductive tls_result :=
| TlsOk
| TlsContextError (reason : str)
| TlsHandshakeError (e : exn) (reason : str).

Inductive transport_kind := Plaintext | TlsWrapped.

(** Everything of [SMTPSession] outside its five state fields: the peer,
    the reader's script, the scripts of the TLS handshakes and of the
    database, the clock, and what was written, upgraded, closed, handed to
    [email_repo.create] and stored by it. *)
Record world := {
  peername : option str;
  reader : list read_result;
  handshakes : list tls_result;
  db_faults : list bool;
  clock : Z;
  writer : list str;
  transport : transport_kind;
  closed : bool;
  create_calls : list Models.Email;
  email_repo : list Models.Email
}.

(** The session state of [SMTPSession.__init__]. *)
Record session := {
  authenticated : bool;
  auth_user : str;
  mail_from : str;
  rcpt_to : list str;
  client_ip : str
}.

(** How a handler ends: [return b], an exception that leaves it, or the
    loop that never ends. *)
Inductive outcome :=
| Return (continue : bool)
| Raise (e : exn)
| Diverge.

Definition result : Type := outcome * session * world.

(** How [handle] ends. *)
Inductive status :=
| Finished
| Failed (e : exn)
| Hung
| OutOfFuel.

Definition set_reader (r : list read_result) (w : world) : world :=
  {| peername := peername w; reader := r; handshakes := handshakes w;
     db_faults := db_faults w; clock := clock w; writer := writer w;
     transport := transport w; closed := closed w;
     create_calls := create_calls w; email_repo := email_repo w |}.

Definition set_writer (o : list str) (w : world) : world :=
  {| peername := peername w; reader := reader w; handshakes := handshakes w;
     db_faults := db_faults w; clock := clock w; writer := o;
     transport := transport w; closed := closed w;
     create_calls := create_calls w; email_repo := email_repo w |}.

Definition set_handshakes (h : list tls_result) (w : world) : world :=
  {| peername := peername w; reader := reader w; handshakes := h;
     db_faults := db_faults w; clock := clock w; writer := writer w;
     transport := transport w; closed := closed w;
     create_calls := create_calls w; email_repo := email_repo w |}.

Definition set_transport (t : transport_kind) (w : world) : world :=
  {| peername := peername w; reader := reader w; handshakes := handshakes w;
     db_faults := db_faults w; clock := clock w; writer := writer w;
     transport := t; closed := closed w; create_calls := create_calls w;
     email_repo := email_repo w |}.

Definition set_closed (c : bool) (w : world) : world :=
  {| peername := peername w; reader := reader w; handshakes := handshakes w;
     db_faults := db_faults w; clock := clock w; writer := writer w;
     transport := transport w; closed := c; create_calls := create_calls w;
     email_repo := email_repo w |}.

(** The transport closed under the session, and the exception that did it
    left in the reader: the next [readline()] raises it. *)
Definition set_lost (e : exn) (w : world) : world :=
  {| peername := peername w; reader := RRaise e :: reader w;
     handshakes := handshakes w;
     db_faults := db_faults w; clock := clock w; writer := writer w;
     transport := transport w; closed := true;
     create_calls := create_calls w; email_repo := email_repo w |}.

Definition set_repo (f : list bool) (c r : list Models.Email) (w : world)
    : world :=
  {| peername := peername w; reader := reader w; handshakes := handshakes w;
     db_faults := f; clock := clock w; writer := writer w;
     transport := transport w; closed := closed w;
     create_calls := c; email_repo := r |}.

Definition set_auth (a : bool) (u : str) (s : session) : session :=
  {| authenticated := a; auth_user := u; mail_from := mail_from s;
     rcpt_to := rcpt_to s; client_ip := client_ip s |}.

Definition set_mail_from (m : str) (s : session) : session :=
  {| authenticated := authenticated s; auth_user := auth_user s;
     mail_from := m; rcpt_to := rcpt_to s; client_ip := client_ip s |}.

Definition set_rcpt_to (r : list str) (s : session) : session :=
  {| authenticated := authenticated s; auth_user := auth_user s;
     mail_from := mail_from s; rcpt_to := r; client_ip := client_ip s |}.

(** [self.reader.readline()] under [asyncio.wait_for]: the next entry of
    the script; at end of file, the empty [bytes]. *)
Definition readline (w : world) : read_result * world :=
  match reader w with
  | [] => (RLine [], w)
  | r :: rest => (r, set_reader rest w)
  end.

(** [_send]: the line is passed to [writer.write] (CRLF is added on the
    wire); a broken pipe or a reset met by [drain] is swallowed. *)
Definition _send (message : str) (w : world) : world :=
  set_writer (writer w ++ [message]) w.

(** The building of the SSL context followed by [loop.start_tls].  When
    the handshake fails [loop.start_tls] closes the transport before it
    raises, and the exception reaches the reader, so that the next
    [readline()] raises it whatever was buffered.  An exhausted script
    stands for a context that cannot be built. *)
Definition start_tls (w : world) : tls_result * world :=
  match handshakes w with
  | [] => (TlsContextError EmptyString, w)
  | TlsHandshakeError e reason :: rest =>
      (TlsHandshakeError e reason, set_lost e (set_handshakes rest w))
  | r :: rest => (r, set_handshakes rest w)
  end.

(** [email_repo.create]: the call is logged in [create_calls]; the row is
    inserted and [true] comes back, or the database raises ([false]); an
    exhausted fault script means no fault. *)
Definition create (email : Models.Email) (w : world) : bool * world :=
  let calls := (create_calls w ++ [email])%list in
  match db_faults w with
  | true :: rest => (false, set_repo rest calls (email_repo w) w)
  | false :: rest => (true, set_repo rest calls (email_repo w ++ [email])%list w)
  | [] => (true, set_repo [] calls (email_repo w ++ [email])%list w)
  end.

(** [_reset_transaction]. *)
Definition _reset_transaction (s : session) : session :=
  set_rcpt_to [] (set_mail_from EmptyString s).

(** The test [not s] of a [str] and of a list. *)
Definition str_empty (s : str) : bool :=
  match s with EmptyString => true | _ => false end.

Definition list_empty {A} (l : list A) : bool :=
  match l with [] => true | _ => false end.

(** The two end-of-data lines of [_handle_data]. *)
Definition dot_crlf : list byte := ["."%byte; x0d; x0a].
Definition dot_lf : list byte := ["."%byte; x0a].

(** How the read loop of [_handle_data] ends. *)
Inductive body_result :=
| BodyEnd (data : list (list byte))
| BodyTooLarge
| BodyTimeout
| BodyRaise (e : exn)
| BodyEOF.

(** The [while True] of [_handle_data], over the reader's script.  At end
    of file every [readline()] gives [b""], which is no end-of-data line
    and adds nothing to the total: unless the total is over the limit
    already (a negative limit), the loop never leaves, [BodyEOF]. *)
Fixpoint read_body (max_message_bytes : Z) (script : list read_result)
    (data : list (list byte)) (total_size : Z)
    : body_result * list read_result :=
  match script with
  | [] =>
      if total_size >? max_message_bytes then (BodyTooLarge, [])
      else (BodyEOF, [])
  | RTimeout :: rest => (BodyTimeout, rest)
  | RRaise e :: rest => (BodyRaise e, rest)
  | RLine line :: rest =>
      if Py.eqb_b line dot_crlf || Py.eqb_b line dot_lf then (BodyEnd data, rest)
      else
        let line :=
          if Py.startswith_b ["."%byte; "."%byte] line then tl line else line in
        let total_size := total_size + Py.len line in
        if total_size >? max_message_bytes then (BodyTooLarge, rest)
        else read_body max_message_bytes rest (data ++ [line]) total_size
  end.

(** ** The handlers of [SMTPSession] *)

Section Session.

(** [self.config]. *)
Variable config : Config.SMTPConfig.

(** The subject and the text body that lines 307-334 of [_handle_data]
    draw from the raw message with the [email] package; every exception
    of the parser is caught there, so it is a total function. *)
Variable parse_message : list byte -> str * str.

Definition auth_gate (s : session) : bool :=
  Config.required (Config.auth config) && negb (authenticated s).

Definition _handle_ehlo (line : str) (s : session) (w : world) : result :=
  let extensions := ["250-" ++ Config.domain config ++ " Hello"] in
  let extensions :=
    if Config.required (Config.auth config)
       || negb (str_empty (Config.username (Config.auth config)))
    then (extensions ++ ["250-AUTH PLAIN LOGIN"])%list else extensions in
  let extensions :=
    if Config.enabled (Config.tls config)
    then (extensions ++ ["250-STARTTLS"])%list else extensions in
  let extensions :=
    (extensions
       ++ [("250-SIZE " ++ Py.str_of_int (Config.max_message_bytes config))%str])%list in
  let extensions := (extensions ++ ["250 OK"])%list in
  (Return true, s, fold_left (fun w ext => _send ext w) extensions w).

(** Lines 151-174 of [_handle_auth_plain]: the [try] block, in which
    [b64decode], [decode] and the field count may each raise, and the
    reply that follows it. *)
Definition _handle_auth_plain_check (credentials : str)
    (s : session) (w : world) : result :=
  let failed := (Return true, s, _send "535 Authentication failed" w) in
  match Base64.b64decode_str credentials with
  | None => failed
  | Some raw =>
      match Py.decode raw with
      | None => failed
      | Some decoded =>
          let parts := Py.split_on Py.NUL EmptyString decoded in
          let fields :=
            if Py.len parts >=? 3
            then Some (nth 1 parts EmptyString, nth 2 parts EmptyString)
            else if Py.len parts =? 2
            then Some (nth 0 parts EmptyString, nth 1 parts EmptyString)
            else None in
          match fields with
          | None => failed
          | Some (user, pass) =>
              if Py.eqb user (Config.username (Config.auth config))
                 && Py.eqb pass (Config.password (Config.auth config))
              then (Return true, set_auth true user s,
                    _send "235 Authentication successful" w)
              else failed
          end
      end
  end.

(** The continuation line is read under a [try] that takes the time-out
    only, and decoded outside the [try] of the check: an exception of the
    reader and the [UnicodeDecodeError] of [cred_line.decode()] leave the
    handler. *)
Definition _handle_auth_plain (parts : list str)
    (s : session) (w : world) : result :=
  if Py.len parts =? 3
  then _handle_auth_plain_check (nth 2 parts EmptyString) s w
  else
    let w := _send "334 " w in
    match readline w with
    | (RLine cred_line, w) =>
        match Py.decode cred_line with
        | Some text => _handle_auth_plain_check (Py.strip text) s w
        | None => (Raise UnicodeDecodeError, s, w)
        end
    | (RTimeout, w) => (Return false, s, _send "421 Timeout" w)
    | (RRaise e, w) => (Raise e, s, w)
    end.

(** One [try] around both reads: [except Exception] takes whatever they
    raise, the time-out and the exceptions of the reader included, and
    the errors of [b64decode] and [decode]. *)
Definition _handle_auth_login (s : session) (w : world) : result :=
  let failed w := (Return true, s, _send "535 Authentication failed" w) in
  let w := _send "334 VXNlcm5hbWU6" w in
  match readline w with
  | (RLine username_line, w) =>
      match Base64.b64decode (Py.strip_b username_line) with
      | None => failed w
      | Some u =>
          match Py.decode u with
          | None => failed w
          | Some user =>
              let w := _send "334 UGFzc3dvcmQ6" w in
              match readline w with
              | (RLine password_line, w) =>
                  match Base64.b64decode (Py.strip_b password_line) with
                  | None => failed w
                  | Some p =>
                      match Py.decode p with
                      | None => failed w
                      | Some pass =>
                          if Py.eqb user (Config.username (Config.auth config))
                             && Py.eqb pass
                                  (Config.password (Config.auth config))
                          then (Return true, set_auth true user s,
                                _send "235 Authentication successful" w)
                          else failed w
                      end
                  end
              | (_, w) => failed w
              end
          end
      end
  | (_, w) => failed w
  end.

Definition _handle_auth (line : str) (s : session) (w : world) : result :=
  let parts := Py.split line in
  if Py.len parts <? 2 then (Return true, s, _send "501 Syntax error" w)
  else
    let mechanism := Py.upper (nth 1 parts EmptyString) in
    if negb (Py.eqb mechanism "PLAIN" || Py.eqb mechanism "LOGIN")
    then (Return true, s, _send "504 Unsupported authentication mechanism" w)
    else if Py.eqb mechanism "PLAIN" then _handle_auth_plain parts s w
    else _handle_auth_login s w.

(** [addr[1:-1]] when [addr] is wrapped in angle brackets. *)
Definition strip_brackets (addr : str) : str :=
  if Py.startswith "<" addr && Py.endswith_char Py.GT addr
  then Py.drop_last (Py.drop 1 addr) else addr.

Definition _handle_mail (line : str) (s : session) (w : world) : result :=
  if auth_gate s
  then (Return true, s, _send "530 Authentication required" w)
  else
    let upper_line := Py.upper line in
    match Py.find "FROM:" upper_line with
    | None => (Return true, s, _send "501 Syntax error" w)
    | Some idx =>
        let addr := Py.strip (Py.drop (idx + 5) line) in
        let addr :=
          if Py.contains " " addr then nth 0 (Py.split addr) EmptyString
          else addr in
        let addr := strip_brackets addr in
        (Return true, set_mail_from addr s, _send "250 OK" w)
    end.

Definition _handle_rcpt (line : str) (s : session) (w : world) : result :=
  if auth_gate s
  then (Return true, s, _send "530 Authentication required" w)
  else if Py.len (rcpt_to s) >=? Config.max_recipients config
  then (Return true, s, _send "452 Too many recipients" w)
  else
    let upper_line := Py.upper line in
    match Py.find "TO:" upper_line with
    | None => (Return true, s, _send "501 Syntax error" w)
    | Some idx =>
        let addr := Py.strip (Py.drop (idx + 3) line) in
        let addr := strip_brackets addr in
        (Return true, set_rcpt_to (rcpt_to s ++ [addr])%list s, _send "250 OK" w)
    end.

(** The [Email] built at lines 336-347. *)
Definition build_email (raw_message : list byte) (s : session) (w : world)
    : Models.Email :=
  let parsed := parse_message raw_message in
  {| Models.id := 0;
     Models.sender := mail_from s;
     Models.recipients := rcpt_to s;
     Models.subject := fst parsed;
     Models.body := snd parsed;
     Models.raw_message := raw_message;
     Models.size_bytes := Py.len raw_message;
     Models.received_at := clock w;
     Models.status := "received";
     Models.auth_user := auth_user s;
     Models.client_ip := client_ip s |}.

Definition _handle_data (s : session) (w : world) : result :=
  if auth_gate s
  then (Return true, s, _send "530 Authentication required" w)
  else if str_empty (mail_from s) || list_empty (rcpt_to s)
  then (Return true, s, _send "503 Bad sequence of commands" w)
  else
    let w := _send "354 Start mail input; end with <CRLF>.<CRLF>" w in
    let (r, rest) :=
      read_body (Config.max_message_bytes config) (reader w) [] 0 in
    let w := set_reader rest w in
    match r with
    | BodyTimeout => (Return false, s, _send "421 Timeout" w)
    | BodyRaise e => (Raise e, s, w)
    | BodyEOF => (Diverge, s, w)
    | BodyTooLarge =>
        (Return true, _reset_transaction s, _send "552 Message too large" w)
    | BodyEnd data =>
        let raw_message := List.concat data in
        let email := build_email raw_message s w in
        match create email w with
        | (false, w) => (Raise DatabaseError, s, w)
        | (true, w) =>
            (Return true, _reset_transaction s,
             _send "250 OK: Message accepted" w)
        end
    end.

Definition _handle_rset (s : session) (w : world) : result :=
  (Return true, _reset_transaction s, _send "250 OK" w).

(** Whatever the [try] block raises is answered 454 with the text of the
    exception; the assignments to the session state come after
    [loop.start_tls] and are reached on success only. *)
Definition _handle_starttls (s : session) (w : world) : result :=
  if negb (Config.enabled (Config.tls config))
  then (Return true, s, _send "502 STARTTLS not available" w)
  else
    let w := _send "220 Ready to start TLS" w in
    match start_tls w with
    | (TlsOk, w) =>
        let w := set_transport TlsWrapped w in
        let s := set_auth false EmptyString s in
        (Return true, _reset_transaction s, w)
    | (TlsContextError reason, w) =>
        (Return true, s, _send ("454 TLS not available: " ++ reason) w)
    | (TlsHandshakeError _ reason, w) =>
        (Return true, s, _send ("454 TLS not available: " ++ reason) w)
    end.

Definition _process_command (line : str) (s : session) (w : world)
    : result :=
  let parts := Py.split1 line in
  let cmd := match parts with p :: _ => Py.upper p | [] => EmptyString end in
  if Py.eqb cmd "EHLO" || Py.eqb cmd "HELO" then _handle_ehlo line s w
  else if Py.eqb cmd "AUTH" then _handle_auth line s w
  else if Py.eqb cmd "MAIL" then _handle_mail line s w
  else if Py.eqb cmd "RCPT" then _handle_rcpt line s w
  else if Py.eqb cmd "DATA" then _handle_data s w
  else if Py.eqb cmd "RSET" then _handle_rset s w
  else if Py.eqb cmd "QUIT" then (Return false, s, _send "221 Bye" w)
  else if Py.eqb cmd "NOOP" then (Return true, s, _send "250 OK" w)
  else if Py.eqb cmd "STARTTLS" then _handle_starttls s w
  else (Return true, s, _send "500 Unknown command" w).

(** The [while True] of [handle].  Every turn reads one entry of the
    script, and a turn that adds one (a failed TLS handshake) is followed
    by the last, so [fuel] above the script's length is never exhausted.
    A connection reset or a broken pipe ends the session quietly; any
    other exception leaves [handle]. *)
Fixpoint command_loop (fuel : nat) (s : session) (w : world)
    : status * session * world :=
  match fuel with
  | O => (OutOfFuel, s, w)
  | S fuel' =>
      match readline w with
      | (RTimeout, w) => (Finished, s, _send "421 Timeout" w)
      | (RRaise ConnectionResetError, w) => (Finished, s, w)
      | (RRaise e, w) => (Failed e, s, w)
      | (RLine line, w) =>
          if list_empty line then (Finished, s, w)
          else
            let command := Py.strip (Py.decode_replace line) in
            if str_empty command then command_loop fuel' s w
            else
              match _process_command command s w with
              | (Return true, s, w) => command_loop fuel' s w
              | (Return false, s, w) => (Finished, s, w)
              | (Raise ConnectionResetError, s, w) => (Finished, s, w)
              | (Raise e, s, w) => (Failed e, s, w)
              | (Diverge, s, w) => (Hung, s, w)
              end
      end
  end.

(** The state of a new [SMTPSession], with the peer's address. *)
Definition new_session (w : world) : session :=
  {| authenticated := false; auth_user := EmptyString;
     mail_from := EmptyString; rcpt_to := [];
     client_ip := match peername w with
                  | Some ip => ip
                  | None => "unknown"
                  end |}.

(** [handle]: greeting, command loop, and the [finally] that closes the
    writer (never reached when the session hangs). *)
Definition handle (w : world) : status * session * world :=
  let s := new_session w in
  let w := _send ("220 " ++ Config.domain config ++ " SMTP Ready") w in
  let '(st, s, w) := command_loop (S (List.length (reader w))) s w in
  match st with
  | Hung => (st, s, w)
  | _ => (st, s, set_closed true w)
  end.

End Session.

(** ** Vocabulary of the properties *)

(** A line that ends the DATA body. *)
Definition end_of_data (line : list byte) : bool :=
  Py.eqb_b line dot_crlf || Py.eqb_b line dot_lf.

(** What the read loop appends for a body line: a line that begins with
    two dots loses the first one, any other line is kept as received. *)
Definition unstuff (line : list byte) : list byte :=
  match line with
  | "."%byte :: "."%byte :: rest => "."%byte :: rest
  | _ => line
  end.

(** The byte total of a body, counted on the unstuffed lines. *)
Definition body_size (lines : list (list byte)) : Z :=
  Py.len (List.concat (map unstuff lines)).

(** The command word [_process_command] dispatches on. *)
Definition command_word (line : str) : str :=
  match Py.split1 line with p :: _ => Py.upper p | [] => EmptyString end.

(** What the store requires of a record (recipients within
    [1, max_recipients], a sender). *)
Definition email_ok (config : Config.SMTPConfig) (e : Models.Email) : Prop :=
  1 <= Py.len (Models.recipients e) <= Config.max_recipients config
  /\ Models.sender e <> EmptyString.

(** A list of records that grew from [l] to [l'] by well-formed ones. *)
Definition grown_ok (config : Config.SMTPConfig) (l l' : list Models.Email)
    : Prop :=
  exists new, l' = (l ++ new)%list /\ Forall (email_ok config) new.

(** The recipient list never outgrows the limit. *)
Definition rcpt_bounded (config : Config.SMTPConfig) (s : session) : Prop :=
  rcpt_to s = [] \/ Py.len (rcpt_to s) <= Config.max_recipients config.

(** The three guards DATA passes before it reads a body. *)
Definition data_ready (config : Config.SMTPConfig) (s : session) : Prop :=
  auth_gate config s = false
  /\ mail_from s <> EmptyString /\ rcpt_to s <> [].

(** The world after DATA read a body [raw] to its end and stored it;
    [rest] is what remains of the reader's script. *)
Definition committed (parse_message : list byte -> str * str)
    (raw : list byte) (rest : list read_result) (s : session) (w : world)
    : world :=
  let w1 := set_reader rest
              (_send "354 Start mail input; end with <CRLF>.<CRLF>" w) in
  _send "250 OK: Message accepted"
    (set_repo (tl (db_faults w))
       (create_calls w ++ [build_email parse_message raw s w1])%list
       (email_repo w ++ [build_email parse_message raw s w1])%list w1).

(** The answer to an AUTH attempt with the given user and password. *)
Definition credentials_checked (config : Config.SMTPConfig)
    (user pass : str) (s : session) (w : world) : result :=
  if Py.eqb user (Config.username (Config.auth config))
     && Py.eqb pass (Config.password (Config.auth config))
  then (Return true, set_auth true user s,
        _send "235 Authentication successful" w)
  else (Return true, s, _send "535 Authentication failed" w).

(** The answer of AUTH PLAIN to the NUL-separated fields of a decoded
    blob: two fields are user and password, of three or more the second
    and third are, a single field is refused. *)
Definition plain_fields_outcome (config : Config.SMTPConfig)
    (fields : list str) (s : session) (w : world) : result :=
  match fields with
  | [user; pass] => credentials_checked config user pass s w
  | _ :: user :: pass :: _ => credentials_checked config user pass s w
  | _ => (Return true, s, _send "535 Authentication failed" w)
  end.

(** A reader entry that is not an AUTH command line. *)
Definition not_auth_line (r : read_result) : Prop :=
  match r with
  | RLine line => command_word (Py.strip (Py.decode_replace line)) <> "AUTH"
  | _ => True
  end.

(** The turns the command loop can still take on a script: none when
    the next read raises, else at most one for each entry. *)
Definition turns_left (script : list read_result) : nat :=
  match script with
  | RRaise _ :: _ => 0
  | _ => List.length script
  end.

(** What every handler keeps, from the state [s], [w] it is called in to
    its result: the reader's script only shrinks, unless the next read
    is left to raise; the peer address stays,
    [authenticated] is kept or cleared unless the reply ends with 235, the
    recipient list stays within the limit, and either nothing was handed
    to the store or one record was, built from an open transaction of
    [s], and the store holds it unless the database raised. *)
Definition step_ok (config : Config.SMTPConfig) (s : session) (w : world)
    (r : result) : Prop :=
  let '(_, s', w') := r in
  (turns_left (reader w') <= List.length (reader w))%nat
  /\ client_ip s' = client_ip s
  /\ (authenticated s' = authenticated s \/ authenticated s' = false
      \/ exists before,
           writer w' = (before ++ ["235 Authentication successful"])%list)
  /\ (rcpt_bounded config s -> rcpt_bounded config s')
  /\ ((create_calls w' = create_calls w /\ email_repo w' = email_repo w)
      \/ exists e, create_calls w' = (create_calls w ++ [e])%list
                   /\ (email_repo w' = email_repo w
                       \/ email_repo w' = (email_repo w ++ [e])%list)
                   /\ Models.sender e = mail_from s
                   /\ Models.recipients e = rcpt_to s
                   /\ mail_from s <> EmptyString /\ rcpt_to s <> []).

(** The lines a handler wrote: what [writer] gained from [w] to [w']. *)
Definition wrote (w w' : world) (lines : list str) : Prop :=
  writer w' = (writer w ++ lines)%list.

(** ** Sample sessions *)

Module Samples.

(** A line as the client sends it, CRLF included. *)
Definition ln (s : str) : read_result :=
  RLine (Py.encode (s ++ Py.CRLF)).

Definition cfg (auth_required tls_enabled : bool) (max_bytes max_rcpt : Z)
    : Config.SMTPConfig :=
  {| Config.host := "0.0.0.0"; Config.port := 2525;
     Config.domain := "localhost";
     Config.read_timeout_seconds := 10;
     Config.write_timeout_seconds := 10;
     Config.max_message_bytes := max_bytes;
     Config.max_recipients := max_rcpt;
     Config.allow_insecure_auth := true;
     Config.tls := {| Config.enabled := tls_enabled;
                      Config.cert_file := "certs/server.crt";
                      Config.key_file := "certs/server.key" |};
     Config.auth := {| Config.required := auth_required;
                       Config.username := "alice";
                       Config.password := "s3cret" |} |}.

(** A parser that finds no subject and gives the raw text as the body. *)
Definition raw_parser (raw : list byte) : str * str :=
  (EmptyString, Py.decode_replace raw).

(** A fresh connection with the given reader and handshake scripts. *)
Definition conn (script : list read_result) (tls : list tls_result) : world :=
  {| peername := Some "10.0.0.1"; reader := script; handshakes := tls;
     db_faults := []; clock := 0; writer := []; transport := Plaintext;
     closed := false; create_calls := []; email_repo := [] |}.

(** A session that has authenticated as alice and opened a transaction. *)
Definition in_transaction : session :=
  {| authenticated := true; auth_user := "alice"; mail_from := "a@x";
     rcpt_to := ["b@y"]; client_ip := "10.0.0.1" |}.

(** The body of scenario S3, end-of-data line excluded. *)
Definition s3_body : list (list byte) :=
  [Py.encode (".hello" ++ Py.CRLF); Py.encode ("..world" ++ Py.CRLF)].

Definition s3_script : list read_result :=
  [ln ".hello"; ln "..world"; ln "."].

End Samples.

(** ** Vocabulary of the further properties *)

(** The sender's side of dot-stuffing (RFC 5321, 4.5.2): a line that
    begins with a dot is sent with one more dot in front. *)
Definition stuff (line : list byte) : list byte :=
  match line with
  | "."%byte :: _ => "."%byte :: line
  | _ => line
  end.

(** [Email.is_read] and [Email.is_new] of [models.py]. *)
Definition is_read (e : Models.Email) : bool :=
  Py.eqb (Models.status e) "read".

Definition is_new (e : Models.Email) : bool :=
  Py.eqb (Models.status e) "received".

(** A list of records that grew from [l] to [l'] by records that
    satisfy [P]. *)
Definition grown_by (P : Models.Email -> Prop) (l l' : list Models.Email)
    : Prop :=
  exists new, l' = (l ++ new)%list /\ Forall P new.

(** A [str] without white space. *)
Fixpoint no_space (a : str) : bool :=
  match a with
  | EmptyString => true
  | String c a' => negb (Py.isspace c) && no_space a'
  end.

(** A [str] of white space only. *)
Fixpoint all_space (a : str) : bool :=
  match a with
  | EmptyString => true
  | String c a' => Py.isspace c && all_space a'
  end.

(** What AUTH LOGIN draws from a continuation line,
    [base64.b64decode(line.strip()).decode()]: [None] when the line is no
    base64 or its bytes are no UTF-8. *)
Definition login_line (line : list byte) : option str :=
  match Base64.b64decode (Py.strip_b line) with
  | Some raw => Py.decode raw
  | None => None
  end.

(** The six ways a command may change the session state. *)
Inductive session_change (config : Config.SMTPConfig) (s : session)
    : session -> Prop :=
| change_none : session_change config s s
| change_login :
    session_change config s
      (set_auth true (Config.username (Config.auth config)) s)
| change_sender (addr : str) :
    auth_gate config s = false ->
    session_change config s (set_mail_from addr s)
| change_recipient (addr : str) :
    auth_gate config s = false ->
    Py.len (rcpt_to s) < Config.max_recipients config ->
    session_change config s (set_rcpt_to (rcpt_to s ++ [addr])%list s)
| change_reset : session_change config s (_reset_transaction s)
| change_upgrade :
    Config.enabled (Config.tls config) = true ->
    session_change config s (_reset_transaction (set_auth false EmptyString s)).

(** An [Email] as DATA builds it in the state [s] (its time stamp aside):
    the transaction is open and past the authentication gate, every field
    is taken from the session or from the body, and the body is within the
    size limit unless it is empty. *)
Definition handed_from (config : Config.SMTPConfig)
    (parse_message : list byte -> str * str)
    (s : session) (e : Models.Email) : Prop :=
  auth_gate config s = false
  /\ mail_from s <> EmptyString /\ rcpt_to s <> []
  /\ Models.id e = 0
  /\ Models.sender e = mail_from s
  /\ Models.recipients e = rcpt_to s
  /\ Models.subject e = fst (parse_message (Models.raw_message e))
  /\ Models.body e = snd (parse_message (Models.raw_message e))
  /\ Models.size_bytes e = Py.len (Models.raw_message e)
  /\ Models.status e = "received"
  /\ Models.auth_user e = auth_user s
  /\ Models.client_ip e = client_ip s
  /\ (Models.raw_message e = []
      \/ Py.len (Models.raw_message e) <= Config.max_message_bytes config).

(** What the store saw of one handler call: nothing, or one [create] that
    inserted the record (the handler then resets the transaction and
    returns True) or raised (the handler lets the exception out). *)
Definition store_step (config : Config.SMTPConfig)
    (parse_message : list byte -> str * str)
    (s : session) (w : world) (r : result) : Prop :=
  let '(o, s', w') := r in
  (create_calls w' = create_calls w /\ email_repo w' = email_repo w
   /\ db_faults w' = db_faults w)
  \/ exists e,
       handed_from config parse_message s e
       /\ create_calls w' = (create_calls w ++ [e])%list
       /\ db_faults w' = tl (db_faults w)
       /\ ((hd false (db_faults w) = false
            /\ email_repo w' = (email_repo w ++ [e])%list
            /\ o = Return true /\ s' = _reset_transaction s)
           \/ (hd false (db_faults w) = true
               /\ email_repo w' = email_repo w
               /\ o = Raise DatabaseError /\ s' = s)).

(** What every handler call keeps of the connection: the peer stays; at
    least one line is written and none is taken back; the handshake
    script is only consumed; the transport is never downgraded; and
    either the socket is as open as it was and the reader only consumed,
    or a TLS handshake failed, which closed the transport and left its
    exception for the next read. *)
Definition io_step (w w' : world) : Prop :=
  peername w' = peername w
  /\ (exists out, out <> [] /\ writer w' = (writer w ++ out)%list)
  /\ (exists k, handshakes w' = skipn k (handshakes w))
  /\ (transport w' = transport w \/ transport w' = TlsWrapped)
  /\ ((closed w' = closed w /\ exists k, reader w' = skipn k (reader w))
      \/ (closed w' = true
          /\ exists e reason k,
               reader w' = RRaise e :: skipn k (reader w)
               /\ In (TlsHandshakeError e reason) (handshakes w))).

(** What the way a handler ends tells: it returns False only after the
    reply 221 Bye or 421 Timeout; the exception that leaves it is an error
    of the database, the [UnicodeDecodeError] of a continuation line, or
    one that the reader raised; and it never ends only when DATA, past its
    guards, met the end of file. *)
Definition outcome_step (config : Config.SMTPConfig)
    (s : session) (w : world) (r : result) : Prop :=
  let '(o, _, w') := r in
  match o with
  | Return false =>
      exists before,
        writer w' = (before ++ ["221 Bye"])%list
        \/ writer w' = (before ++ ["421 Timeout"])%list
  | Return true => True
  | Raise e =>
      e = DatabaseError \/ e = UnicodeDecodeError
      \/ In (RRaise e) (reader w)
  | Diverge => reader w' = [] /\ data_ready config s
  end.

(** The four together, for the result [r] of a handler called in [s],
    [w]. *)
Definition handler_frame (config : Config.SMTPConfig)
    (parse_message : list byte -> str * str)
    (s : session) (w : world) (r : result) : Prop :=
  session_change config s (snd (fst r))
  /\ io_step w (snd r)
  /\ store_step config parse_message s w r
  /\ outcome_step config s w r.

(** An exception that the connection [w] has in store: an entry of the
    reader's script, or the exception of a handshake that will fail. *)
Definition raisable (w : world) (e : exn) : Prop :=
  In (RRaise e) (reader w)
  \/ exists reason, In (TlsHandshakeError e reason) (handshakes w).

(** What a run of commands keeps of the connection and of the store, from
    [w] to [w']: the records handed to [create] and those stored grow by
    records that satisfy [P]; the peer stays; the writer only grows; the
    transport is never downgraded; no exception comes in store that was
    not. *)
Definition run_step (P : Models.Email -> Prop) (w w' : world) : Prop :=
  grown_by P (create_calls w) (create_calls w')
  /\ grown_by P (email_repo w) (email_repo w')
  /\ peername w' = peername w
  /\ (exists out, writer w' = (writer w ++ out)%list)
  /\ (transport w' = transport w \/ transport w' = TlsWrapped)
  /\ (forall e, raisable w' e -> raisable w e).

(** The greeting [handle] sends first. *)
Definition greeting (config : Config.SMTPConfig) : str :=
  "220 " ++ Config.domain config ++ " SMTP Ready".

(** The two states of authentication a session is ever in: logged in
    under the configured user name, or not logged in and without a name. *)
Definition auth_consistent (config : Config.SMTPConfig) (s : session) : Prop :=
  (authenticated s = true
   /\ auth_user s = Config.username (Config.auth config))
  \/ (authenticated s = false /\ auth_user s = EmptyString).

(** A record whose size is that of its message, and within the limit
    unless the message is empty. *)
Definition email_sized (config : Config.SMTPConfig) (e : Models.Email)
    : Prop :=
  Models.size_bytes e = Py.len (Models.raw_message e)
  /\ (Models.raw_message e <> [] ->
      Models.size_bytes e <= Config.max_message_bytes config)
  /\ (0 <= Config.max_message_bytes config ->
      Models.size_bytes e <= Config.max_message_bytes config).

(** A record that carries the user the session logged in as. *)
Definition email_authenticated (config : Config.SMTPConfig)
    (e : Models.Email) : Prop :=
  (Models.auth_user e = Config.username (Config.auth config)
   \/ Models.auth_user e = EmptyString)
  /\ (Config.required (Config.auth config) = true ->
      Models.auth_user e = Config.username (Config.auth config)).

(** A record stamped by the session of the connection [w]: new, unread,
    without an id of its own, with the peer's address and the parser's
    subject and body. *)
Definition email_stamped (parse_message : list byte -> str * str)
    (w : world) (e : Models.Email) : Prop :=
  Models.id e = 0
  /\ Models.status e = "received"
  /\ is_new e = true /\ is_read e = false
  /\ Models.client_ip e = match peername w with
                          | Some ip => ip
                          | None => "unknown"
                          end
  /\ Models.subject e = fst (parse_message (Models.raw_message e))
  /\ Models.body e = snd (parse_message (Models.raw_message e)).

(** One RCPT command per address, each in angle brackets, run in turn
    from the state [s], [w]. *)
Definition rcpt_each (config : Config.SMTPConfig) (addrs : list str)
    (s : session) (w : world) : session * world :=
  fold_left
    (fun sw addr =>
       let '(_, s', w') :=
         _handle_rcpt config ("RCPT TO:<" ++ addr ++ ">") (fst sw) (snd sw) in
       (s', w'))
    addrs (s, w).

(** The command words [_process_command] knows. *)
Definition known_commands : list str :=
  ["EHLO"; "HELO"; "AUTH"; "MAIL"; "RCPT"; "DATA"; "RSET"; "QUIT"; "NOOP";
   "STARTTLS"].


(** ** [str] *)

Lemma str_eqb_refl (a : str) : Py.eqb a a = true.
Proof.
  induction a as [|c a IH]; [reflexivity|].
  cbn [Py.eqb]. now rewrite N.eqb_refl.
Qed.

Lemma str_eqb_eq (a b : str) : Py.eqb a b = true <-> a = b.
Proof.
  split; [|intros <-; apply str_eqb_refl].
  revert b. induction a as [|c a IH]; intros [|d b] H; try discriminate.
  - reflexivity.
  - cbn [Py.eqb] in H. apply andb_true_iff in H as [Hc Hs].
    apply N.eqb_eq in Hc. apply IH in Hs. now subst.
Qed.

Lemma str_eqb_neq (a b : str) : Py.eqb a b = false <-> a <> b.
Proof.
  split.
  - intros H E. apply str_eqb_eq in E. congruence.
  - intro H. destruct (Py.eqb a b) eqn:E; [|reflexivity].
    apply str_eqb_eq in E. contradiction.
Qed.



(** ** Addresses in angle brackets *)

Lemma rstrip_after_word (x : str) (c : N) (v : str) :
  Py.isspace c = false ->
  Py.rstrip ((x ++ String c EmptyString) ++ v)
  = ((x ++ String c EmptyString) ++ Py.rstrip v)%str.
Proof.
  intro Hc. induction x as [|d x IH]; cbn [append Py.rstrip].
  - destruct (Py.rstrip v); [now rewrite Hc | reflexivity].
  - cbn [append] in IH. rewrite IH.
    destruct x; reflexivity.
Qed.

Lemma append_nil_r (s : str) : (s ++ "")%str = s.
Proof. induction s as [|c s IH]; cbn; [reflexivity|now rewrite IH]. Qed.

Lemma append_assoc (a b c : str) :
  ((a ++ b) ++ c)%str = (a ++ (b ++ c))%str.
Proof. induction a as [|x a IH]; cbn; [reflexivity|now rewrite IH]. Qed.

Lemma last_char_snoc (x : str) (c : N) :
  Py.last_char (x ++ String c EmptyString) = Some c.
Proof.
  induction x as [|d x IH]; [reflexivity|].
  cbn [append Py.last_char]. rewrite IH. destruct x; reflexivity.
Qed.

Lemma drop_last_snoc (x : str) (c : N) :
  Py.drop_last (x ++ String c EmptyString) = x.
Proof.
  induction x as [|d x IH]; [reflexivity|].
  cbn [append Py.drop_last]. rewrite IH. destruct x; reflexivity.
Qed.

(** An address in angle brackets loses just the brackets. *)
Lemma strip_brackets_wrapped (a : str) :
  strip_brackets ("<" ++ a ++ ">") = a.
Proof.
  unfold strip_brackets, Py.endswith_char, Py.startswith.
  change ("<" ++ a ++ ">")%str
    with (String Py.LT a ++ String Py.GT EmptyString)%str.
  rewrite last_char_snoc. cbn.
  destruct (a ++ String Py.GT EmptyString)%str eqn:E; [now destruct a|].
  rewrite <- E. apply drop_last_snoc.
Qed.

Lemma no_space_no_blank (a : str) :
  no_space a = true -> Py.contains " " a = false.
Proof.
  unfold Py.contains. induction a as [|c a IH]; [reflexivity|].
  cbn [no_space]. intro H. apply andb_prop in H. destruct H as [Hc Ha].
  cbn [Py.find Py.startswith].
  destruct (32 =? c)%N eqn:E;
    [apply N.eqb_eq in E; subst c; discriminate|].
  cbn [andb].
  specialize (IH Ha). destruct (Py.find " " a); [discriminate|reflexivity].
Qed.

Lemma blank_found (x r : str) :
  Py.contains " " (x ++ String Py.SPACE r) = true.
Proof.
  unfold Py.contains. induction x as [|c x IH].
  - cbn. now destruct r.
  - cbn [append Py.find].
    destruct (Py.startswith " " (String c (x ++ String Py.SPACE r)));
      [reflexivity|].
    destruct (Py.find " " (x ++ String Py.SPACE r)); [reflexivity|discriminate].
Qed.

Lemma no_space_app (a b : str) :
  no_space (a ++ b) = no_space a && no_space b.
Proof.
  induction a as [|c a IH]; cbn; [reflexivity|].
  now rewrite IH, andb_assoc.
Qed.

(** The first word of a text that begins with a run without white space
    followed by a white-space character. *)
Lemma words_first (u : str) :
  forall cur sp r,
    no_space u = true -> Py.isspace sp = true ->
    (cur ++ u)%str <> EmptyString ->
    Py.words cur (u ++ String sp r) = (cur ++ u)%str :: Py.words EmptyString r.
Proof.
  induction u as [|c u IH]; intros cur sp r Hu Hsp Hne.
  - cbn [append Py.words]. rewrite Hsp. rewrite append_nil_r in *.
    destruct cur; [contradiction|reflexivity].
  - cbn [no_space] in Hu. apply andb_prop in Hu. destruct Hu as [Hc Hu].
    cbn [append Py.words].
    destruct (Py.isspace c); [discriminate|].
    rewrite (IH (cur ++ String c EmptyString)%str sp r Hu Hsp).
    + now rewrite append_assoc.
    + rewrite append_assoc. cbn. now destruct cur.
Qed.

(** What MAIL keeps of the text after FROM: when it is a bracketed address
    without white space, alone or followed by a blank and parameters. *)
Lemma bracketed_address_parsed (a params : str) :
  no_space a = true ->
  params = EmptyString \/ (exists t, params = String Py.SPACE t) ->
  let addr := Py.strip ("<" ++ a ++ ">" ++ params) in
  strip_brackets
    (if Py.contains " " addr then nth 0 (Py.split addr) EmptyString else addr)
  = a.
Proof.
  intros Ha Hp. cbv zeta.
  assert (no_space ("<" ++ a ++ ">") = true) as Hu
    by (cbn [append no_space]; rewrite no_space_app, Ha; reflexivity).
  assert (Py.strip ("<" ++ a ++ ">" ++ params)
          = (("<" ++ a ++ ">") ++ Py.rstrip params)%str) as Hstrip.
  { unfold Py.strip.
    replace ("<" ++ a ++ ">" ++ params)%str
      with ((String Py.LT a ++ String Py.GT EmptyString) ++ params)%str
      by (cbn; rewrite append_assoc; reflexivity).
    replace (Py.lstrip ((String Py.LT a ++ String Py.GT EmptyString) ++ params))
      with ((String Py.LT a ++ String Py.GT EmptyString) ++ params)%str
      by reflexivity.
    rewrite rstrip_after_word by reflexivity. reflexivity. }
  rewrite Hstrip.
  assert (Py.rstrip params = EmptyString
          \/ exists r, Py.rstrip params = String Py.SPACE r) as [-> | (r & ->)].
  { destruct Hp as [-> | (t & ->)]; [now left|].
    cbn [Py.rstrip]. destruct (Py.rstrip t); [left | right; eexists];
      reflexivity. }
  - rewrite append_nil_r.
    rewrite (no_space_no_blank _ Hu). apply strip_brackets_wrapped.
  - rewrite blank_found. unfold Py.split.
    rewrite (words_first _ EmptyString Py.SPACE _ Hu eq_refl)
      by (cbn; discriminate).
    cbn [nth]. apply strip_brackets_wrapped.
Qed.

Lemma lstrip_spaces (ws x : str) :
  all_space ws = true -> Py.lstrip (ws ++ x) = Py.lstrip x.
Proof.
  induction ws as [|c ws IH]; [reflexivity|].
  cbn [all_space append Py.lstrip]. intro H. apply andb_prop in H.
  destruct H as [Hc Hws]. rewrite Hc. now apply IH.
Qed.

Lemma upper_app (a b : str) :
  Py.upper (a ++ b) = (Py.upper a ++ Py.upper b)%str.
Proof.
  induction a as [|c a IH]; [reflexivity|].
  cbn [append Py.upper]. now rewrite IH, append_assoc.
Qed.

Lemma drop_length_app (a b : str) : Py.drop (Py.length a) (a ++ b) = b.
Proof. induction a as [|c a IH]; [reflexivity | exact IH]. Qed.

(** Where MAIL finds its address: after a command that is MAIL FROM: in
    some letter case. *)
Lemma mail_command_found (cmd rest : str) :
  Py.upper cmd = "MAIL FROM:" -> Py.length cmd = 10%nat ->
  Py.find "FROM:" (Py.upper (cmd ++ rest)) = Some 5%nat
  /\ Py.drop (5 + 5) (cmd ++ rest) = rest.
Proof.
  intros Hu Hl. rewrite upper_app, Hu. split; [reflexivity|].
  change (5 + 5)%nat with 10%nat. rewrite <- Hl. apply drop_length_app.
Qed.

(** What MAIL keeps of the text after FROM:, white space before the
    bracketed address included. *)
Lemma mail_address_parsed (ws a params : str) :
  all_space ws = true ->
  no_space a = true ->
  params = EmptyString \/ (exists t, params = String Py.SPACE t) ->
  let addr := Py.strip (ws ++ "<" ++ a ++ ">" ++ params) in
  strip_brackets
    (if Py.contains " " addr then nth 0 (Py.split addr) EmptyString else addr)
  = a.
Proof.
  intros Hws Ha Hp. cbv zeta.
  assert (Py.strip (ws ++ "<" ++ a ++ ">" ++ params)
          = Py.strip ("<" ++ a ++ ">" ++ params)) as ->
    by (unfold Py.strip; rewrite (lstrip_spaces ws _ Hws); reflexivity).
  now apply bracketed_address_parsed.
Qed.
Open Scope list_scope.

(** ** The read loop of DATA *)

Lemma byte_eqb_dot (b : byte) :
  Byte.eqb "."%byte b = true <-> b = "."%byte.
Proof.
  split; intro H.
  - symmetry. now apply Byte.byte_dec_bl.
  - subst b. reflexivity.
Qed.

(** The loop's own unstuffing step is [unstuff]. *)
Lemma unstuff_code (line : list byte) :
  (if Py.startswith_b ["."%byte; "."%byte] line then tl line else line)
  = unstuff line.
Proof.
  destruct line as [|a [|b rest]]; simpl.
  - reflexivity.
  - destruct (Byte.eqb "."%byte a) eqn:Ea; simpl; [|destruct a; try reflexivity; discriminate].
    apply byte_eqb_dot in Ea. subst a. reflexivity.
  - destruct (Byte.eqb "."%byte a) eqn:Ea; simpl.
    + apply byte_eqb_dot in Ea. subst a.
      destruct (Byte.eqb "."%byte b) eqn:Eb; simpl.
      * apply byte_eqb_dot in Eb. subst b. reflexivity.
      * destruct b; try reflexivity; discriminate.
    + destruct a; try reflexivity; discriminate.
Qed.

Lemma len_app {A} (l1 l2 : list A) : Py.len (l1 ++ l2) = Py.len l1 + Py.len l2.
Proof. unfold Py.len. rewrite length_app. lia. Qed.

Lemma len_nonneg {A} (l : list A) : 0 <= Py.len l.
Proof. unfold Py.len. lia. Qed.

Lemma body_size_cons (line : list byte) (lines : list (list byte)) :
  body_size (line :: lines) = Py.len (unstuff line) + body_size lines.
Proof. unfold body_size. simpl. apply len_app. Qed.

Lemma body_size_nonneg (lines : list (list byte)) : 0 <= body_size lines.
Proof. apply len_nonneg. Qed.

(** One turn of the loop on a body line. *)
Lemma read_body_step max line rest data total :
  end_of_data line = false ->
  read_body max (RLine line :: rest) data total =
  if total + Py.len (unstuff line) >? max then (BodyTooLarge, rest)
  else read_body max rest (data ++ [unstuff line]) (total + Py.len (unstuff line)).
Proof.
  intro H. unfold end_of_data in H. cbn [read_body]. rewrite H.
  rewrite unstuff_code. reflexivity.
Qed.

(** A body within the limit is read to its end-of-data line, each line
    unstuffed. *)
Lemma read_body_accepts max lines :
  forall term rest data total,
    Forall (fun l => end_of_data l = false) lines ->
    end_of_data term = true ->
    total + body_size lines <= max ->
    read_body max (map RLine lines ++ RLine term :: rest) data total
    = (BodyEnd (data ++ map unstuff lines), rest).
Proof.
  induction lines as [|line lines IH]; intros term rest data total Hl Ht Hs.
  - simpl. unfold end_of_data in Ht. rewrite Ht. now rewrite app_nil_r.
  - inversion Hl as [|? ? Hline Hrest]; subst.
    rewrite body_size_cons in Hs.
    pose proof (body_size_nonneg lines) as Hn.
    cbn [map app]. rewrite read_body_step by assumption.
    replace (total + Py.len (unstuff line) >? max) with false
      by (symmetry; rewrite Z.gtb_ltb; apply Z.ltb_ge; lia).
    rewrite IH by (auto; lia).
    now rewrite <- app_assoc.
Qed.

(** A body over the limit is cut off at the line that crosses it; what
    follows that line stays in the reader. *)
Lemma read_body_rejects max lines :
  forall rest data total,
    Forall (fun l => end_of_data l = false) lines ->
    total <= max ->
    max < total + body_size lines ->
    exists k,
      read_body max (map RLine lines ++ rest) data total
      = (BodyTooLarge, map RLine (skipn k lines) ++ rest).
Proof.
  induction lines as [|line lines IH]; intros rest data total Hl Ht Hs.
  - unfold body_size in Hs. simpl in Hs. unfold Py.len in Hs. simpl in Hs. lia.
  - inversion Hl as [|? ? Hline Hrest]; subst.
    rewrite body_size_cons in Hs.
    cbn [map app]. rewrite read_body_step by assumption.
    destruct (total + Py.len (unstuff line) >? max) eqn:E.
    + exists 1%nat. reflexivity.
    + rewrite Z.gtb_ltb in E. apply Z.ltb_ge in E.
      destruct (IH rest (data ++ [unstuff line]) (total + Py.len (unstuff line)))
        as [k Hk]; auto; try lia.
      exists (S k). exact Hk.
Qed.

Section Properties.

Variable config : Config.SMTPConfig.
Variable parse_message : list byte -> str * str.

Local Abbreviation max_bytes := (Config.max_message_bytes config).
Local Abbreviation non_final := (fun l : list byte => end_of_data l = false).

Lemma data_ready_guards s :
  data_ready config s ->
  auth_gate config s = false
  /\ str_empty (mail_from s) || list_empty (rcpt_to s) = false.
Proof.
  intros (Hg & Hm & Hr). split; [assumption|].
  destruct (mail_from s); [congruence|].
  destruct (rcpt_to s); [congruence|reflexivity].
Qed.

Lemma handle_data_commits s w lines term rest :
  data_ready config s ->
  Forall non_final lines ->
  end_of_data term = true ->
  body_size lines <= max_bytes ->
  reader w = map RLine lines ++ RLine term :: rest ->
  hd false (db_faults w) = false ->
  _handle_data config parse_message s w
  = (Return true, _reset_transaction s,
     committed parse_message (List.concat (map unstuff lines)) rest s w).
Proof.
  intros Hready Hl Ht Hs Hr Hf.
  destruct (data_ready_guards s Hready) as [Hg Hm].
  unfold _handle_data. rewrite Hg, Hm. cbn [_send set_writer reader].
  rewrite Hr, read_body_accepts by (auto; lia).
  cbn [app]. unfold create, committed.
  cbn [db_faults set_reader _send set_writer reader writer email_repo].
  destruct (db_faults w) as [|[|] faults]; simpl in Hf; try discriminate;
    reflexivity.
Qed.

Lemma handle_data_rejects s w lines rest :
  data_ready config s ->
  Forall non_final lines ->
  max_bytes < body_size lines ->
  0 <= max_bytes ->
  reader w = map RLine lines ++ rest ->
  exists k,
    _handle_data config parse_message s w
    = (Return true, _reset_transaction s,
       _send "552 Message too large"
         (set_reader (map RLine (skipn k lines) ++ rest)
            (_send "354 Start mail input; end with <CRLF>.<CRLF>" w))).
Proof.
  intros Hready Hl Hs Hmax Hr.
  destruct (data_ready_guards s Hready) as [Hg Hm].
  destruct (read_body_rejects max_bytes lines rest [] 0 Hl Hmax) as [k Hk];
    [lia|].
  exists k. unfold _handle_data. rewrite Hg, Hm. cbn [_send set_writer reader].
  rewrite Hr, Hk. reflexivity.
Qed.

(** C1 (as amended): in the DATA read loop a line that begins with two
    '.' bytes has exactly one leading '.' removed before it is appended,
    and any other line that is not the end-of-data line, one with a
    single leading '.' included, is appended as received; the stored
    raw_message is the concatenation of the lines so treated and
    size_bytes is its length.  For the body lines .hello CRLF, ..world
    CRLF of scenario S3 that is .hello CRLF .world CRLF, 16 bytes. *)
Theorem data_unstuffs_only_doubled_dots :
  (forall s w lines term rest,
      data_ready config s ->
      Forall non_final lines ->
      end_of_data term = true ->
      body_size lines <= max_bytes ->
      reader w = map RLine lines ++ RLine term :: rest ->
      hd false (db_faults w) = false ->
      exists e w',
        _handle_data config parse_message s w
        = (Return true, _reset_transaction s, w')
        /\ email_repo w' = email_repo w ++ [e]
        /\ Models.raw_message e = List.concat (map unstuff lines)
        /\ Models.size_bytes e = Py.len (Models.raw_message e))
  /\ (forall tail, unstuff ("."%byte :: "."%byte :: tail) = "."%byte :: tail)
  /\ (forall b tail, b <> "."%byte ->
        unstuff ("."%byte :: b :: tail) = "."%byte :: b :: tail)
  /\ (forall b tail, b <> "."%byte -> unstuff (b :: tail) = b :: tail)
  /\ List.concat (map unstuff Samples.s3_body)
     = Py.encode (".hello" ++ Py.CRLF ++ ".world" ++ Py.CRLF)%str
  /\ body_size Samples.s3_body = 16.
Proof.
  split; [|split; [|split; [|split]]].
  - intros s w lines term rest Hready Hl Ht Hs Hr Hf.
    eexists. eexists. split.
    + apply (handle_data_commits s w lines term rest); assumption.
    + cbn. repeat split; reflexivity.
  - reflexivity.
  - intros b tail Hb. simpl. destruct b; try reflexivity. congruence.
  - intros b tail Hb. simpl. destruct b; try reflexivity. congruence.
  - split; reflexivity.
Qed.


(** C5: a DATA body whose byte total, counted on the lines as appended
    (unstuffed, line ends included), is exactly max_message_bytes is
    accepted and stored; a total of max_message_bytes + 1 is answered
    552 Message too large, the transaction is reset, nothing is handed to
    the store, the connection stays open and the handler returns True, so
    that the command loop goes on reading. *)
Theorem data_size_boundary s :
  data_ready config s ->
  (forall w lines term rest,
      Forall non_final lines ->
      end_of_data term = true ->
      body_size lines = max_bytes ->
      reader w = map RLine lines ++ RLine term :: rest ->
      hd false (db_faults w) = false ->
      exists e w',
        _handle_data config parse_message s w
        = (Return true, _reset_transaction s, w')
        /\ email_repo w' = email_repo w ++ [e]
        /\ Models.size_bytes e = max_bytes
        /\ wrote w w' ["354 Start mail input; end with <CRLF>.<CRLF>";
                       "250 OK: Message accepted"])
  /\ (forall w lines rest,
        Forall non_final lines ->
        0 <= max_bytes ->
        body_size lines = max_bytes + 1 ->
        reader w = map RLine lines ++ rest ->
        exists s' w',
          _handle_data config parse_message s w = (Return true, s', w')
          /\ wrote w w' ["354 Start mail input; end with <CRLF>.<CRLF>";
                         "552 Message too large"]
          /\ mail_from s' = EmptyString /\ rcpt_to s' = []
          /\ create_calls w' = create_calls w
          /\ email_repo w' = email_repo w
          /\ closed w' = closed w).
Proof.
  intros Hready. split.
  - intros w lines term rest Hl Ht Hs Hr Hf.
    eexists. eexists. split.
    + apply (handle_data_commits s w lines term rest); auto. lia.
    + unfold wrote. cbn. rewrite <- app_assoc. repeat split; auto.
  - intros w lines rest Hl Hmax Hs Hr.
    destruct (handle_data_rejects s w lines rest) as [k Hk]; auto; try lia.
    eexists. eexists. split; [exact Hk|].
    unfold wrote. cbn. rewrite <- app_assoc. repeat split; auto.
Qed.

Lemma app_one_neq {A} (l : list A) (x : A) : l <> l ++ [x].
Proof.
  intro H. apply (f_equal (@List.length A)) in H.
  rewrite length_app in H. simpl in H. lia.
Qed.

Lemma read_body_shrinks max script :
  forall data total r rest,
    read_body max script data total = (r, rest) ->
    (List.length rest <= List.length script)%nat.
Proof.
  induction script as [|x script IH]; intros data total r rest; cbn.
  - destruct (total >? max); intro H; inversion H; cbn; lia.
  - destruct x as [line| |]; try (intro H; inversion H; subst; lia).
    destruct (Py.eqb_b line dot_crlf || Py.eqb_b line dot_lf);
      [intro H; inversion H; subst; lia|].
    match goal with
    | |- context [if ?b then _ else _] => destruct b
    end; [intro H; inversion H; subst; lia|].
    intro H. apply IH in H. lia.
Qed.

(** Whatever DATA does, the session state is kept or has its transaction
    reset, the reader only shrinks, and the store is as it was or has
    gained the record of an open transaction, after which the transaction
    is reset. *)
Lemma handle_data_frame s w o s' w' :
  _handle_data config parse_message s w = (o, s', w') ->
  (s' = s \/ s' = _reset_transaction s)
  /\ (List.length (reader w') <= List.length (reader w))%nat
  /\ ((create_calls w' = create_calls w /\ email_repo w' = email_repo w)
      \/ (exists e, create_calls w' = create_calls w ++ [e]
                    /\ (email_repo w' = email_repo w
                        \/ (email_repo w' = email_repo w ++ [e]
                            /\ s' = _reset_transaction s))
                    /\ e = build_email parse_message (Models.raw_message e) s w
                    /\ auth_gate config s = false
                    /\ mail_from s <> EmptyString /\ rcpt_to s <> [])).
Proof.
  unfold _handle_data.
  destruct (auth_gate config s) eqn:Hg;
    [intro H; inversion H; subst; cbn; auto|].
  destruct (str_empty (mail_from s) || list_empty (rcpt_to s)) eqn:Hm;
    [intro H; inversion H; subst; cbn; auto|].
  cbn [_send set_writer reader].
  destruct (read_body max_bytes (reader w) [] 0) as [r rest] eqn:Hb.
  apply read_body_shrinks in Hb.
  destruct r; try (intro H; inversion H; subst; cbn; auto; fail).
  unfold create.
  cbn [db_faults set_reader _send set_writer email_repo create_calls].
  assert (mail_from s <> EmptyString /\ rcpt_to s <> []) as [Hmf Hrt].
  { destruct (mail_from s); [discriminate|].
    destruct (rcpt_to s); [discriminate|]. split; congruence. }
  destruct (db_faults w) as [|[|] faults]; intro H; inversion H; subst; cbn;
    (split; [auto|split; [assumption|]]).
  - right. eexists. split; [reflexivity|]. split; [right; auto|].
    repeat split; auto.
  - right. eexists. split; [reflexivity|]. split; [left; auto|].
    repeat split; auto.
  - right. eexists. split; [reflexivity|]. split; [right; auto|].
    repeat split; auto.
Qed.

(** C7: after RSET, and after a DATA that stores an Email, mail_from is
    empty and rcpt_to is the empty list, while authenticated, auth_user
    and client_ip are what they were before the command. *)
Theorem rset_and_commit_reset_only_transaction s w o s' w' e :
  _handle_data config parse_message s w = (o, s', w') ->
  email_repo w' = email_repo w ++ [e] ->
  (mail_from s' = EmptyString /\ rcpt_to s' = []
   /\ authenticated s' = authenticated s
   /\ auth_user s' = auth_user s
   /\ client_ip s' = client_ip s)
  /\ (forall s0 w0,
        let '(o1, s1, w1) := _handle_rset s0 w0 in
        o1 = Return true
        /\ mail_from s1 = EmptyString /\ rcpt_to s1 = []
        /\ authenticated s1 = authenticated s0
        /\ auth_user s1 = auth_user s0
        /\ client_ip s1 = client_ip s0).
Proof.
  intros H He.
  destruct (handle_data_frame s w o s' w' H) as (_ & _ & Hrepo).
  split.
  - destruct Hrepo as [[_ Hsame] | (e' & _ & [Hsame | [_ Hs]] & _)].
    + rewrite Hsame in He. now apply app_one_neq in He.
    + rewrite Hsame in He. now apply app_one_neq in He.
    + subst s'. repeat split; auto.
  - intros s0 w0. cbn. repeat split.
Qed.

(** MAIL on a bracketed address: the command in any letter case, white
    space before the address, parameters after it. *)
Lemma handle_mail_bracketed cmd ws a params s w :
  auth_gate config s = false ->
  Py.upper cmd = "MAIL FROM:" -> Py.length cmd = 10%nat ->
  all_space ws = true ->
  no_space a = true ->
  params = EmptyString \/ (exists t, params = String Py.SPACE t) ->
  _handle_mail config (cmd ++ ws ++ "<" ++ a ++ ">" ++ params)%str s w
  = (Return true, set_mail_from a s, _send "250 OK" w).
Proof.
  intros Hg Hu Hl Hws Ha Hp. unfold _handle_mail. rewrite Hg. cbv zeta.
  destruct (mail_command_found cmd (ws ++ "<" ++ a ++ ">" ++ params)%str
              Hu Hl) as [Hf Hd].
  rewrite Hf, Hd.
  now rewrite (mail_address_parsed ws a params Hws Ha Hp).
Qed.

(** C9: a MAIL command issued while recipients are already collected
    leaves rcpt_to as it was, whatever the line: the recipients given
    under the previous MAIL stay in the transaction, and so do
    authenticated, auth_user and client_ip.  When the line is MAIL FROM:
    in some letter case, white space or none, and <a>, alone or followed
    by a blank and parameters, for an address a without white space, then
    mail_from is overwritten with a and the reply is 250 OK; when the
    line carries no FROM:, mail_from is kept and the reply is 501. *)
Theorem mail_overwrites_sender_keeps_recipients line s w :
  auth_gate config s = false ->
  rcpt_to s <> [] ->
  let '(o, s', w') := _handle_mail config line s w in
  o = Return true
  /\ rcpt_to s' = rcpt_to s /\ rcpt_to s' <> []
  /\ authenticated s' = authenticated s /\ auth_user s' = auth_user s
  /\ client_ip s' = client_ip s
  /\ (forall cmd ws a params,
        Py.upper cmd = "MAIL FROM:" -> Py.length cmd = 10%nat ->
        all_space ws = true ->
        no_space a = true ->
        params = EmptyString \/ (exists t, params = String Py.SPACE t) ->
        line = (cmd ++ ws ++ "<" ++ a ++ ">" ++ params)%str ->
        mail_from s' = a /\ wrote w w' ["250 OK"])
  /\ (Py.find "FROM:" (Py.upper line) = None ->
      mail_from s' = mail_from s /\ wrote w w' ["501 Syntax error"]).
Proof.
  intros Hg Hr.
  destruct (_handle_mail config line s w) as [[o s'] w'] eqn:E.
  assert (o = Return true /\ rcpt_to s' = rcpt_to s
          /\ authenticated s' = authenticated s
          /\ auth_user s' = auth_user s /\ client_ip s' = client_ip s)
    as (Ho & Hrc & Ha & Hu & Hc).
  { unfold _handle_mail in E. rewrite Hg in E. cbv zeta in E.
    destruct (Py.find "FROM:" (Py.upper line));
      inversion E; subst o s' w'; repeat split. }
  split; [exact Ho|]. split; [exact Hrc|].
  split; [now rewrite Hrc|]. split; [exact Ha|]. split; [exact Hu|].
  split; [exact Hc|]. split.
  - intros cmd ws a params Hcu Hcl Hws Hna Hp ->.
    rewrite (handle_mail_bracketed cmd ws a params s w Hg Hcu Hcl Hws Hna Hp)
      in E.
    inversion E; subst. split; reflexivity.
  - intros Hf. unfold _handle_mail in E. rewrite Hg, Hf in E.
    inversion E; subst. split; reflexivity.
Qed.


Lemma fold_send_writer (lines : list str) :
  forall w,
    let w' := fold_left (fun w ext => _send ext w) lines w in
    writer w' = writer w ++ lines
    /\ transport w' = transport w /\ reader w' = reader w
    /\ email_repo w' = email_repo w /\ closed w' = closed w
    /\ handshakes w' = handshakes w /\ db_faults w' = db_faults w
    /\ create_calls w' = create_calls w.
Proof.
  induction lines as [|l lines IH]; intro w; cbn.
  - rewrite app_nil_r. repeat split.
  - destruct (IH (_send l w)) as (Hw & Ht & Hr & He & Hc & Hh & Hd & Hk).
    cbn in *. rewrite Hw, <- app_assoc. repeat split; assumption.
Qed.

Lemma string_length_app (a b : str) :
  Py.length (a ++ b)%str = (Py.length a + Py.length b)%nat.
Proof. induction a as [|c a IH]; cbn; [reflexivity|now rewrite IH]. Qed.

Lemma hello_line_not_starttls (d : str) :
  ("250-" ++ d ++ " Hello")%str <> "250-STARTTLS".
Proof.
  cbn. intro H. injection H as H.
  assert (Py.length (d ++ " Hello")%str = 8%nat) as L
    by (rewrite H; reflexivity).
  rewrite string_length_app in L. cbn in L.
  destruct d as [|a [|b [|c d]]]; cbn in L; try lia.
  cbn in H. discriminate.
Qed.

(** C8 (as amended): the EHLO reply contains the line 250-STARTTLS if and
    only if TLS is enabled in the configuration, whatever the transport
    of the session is; after a successful STARTTLS upgrade a later EHLO
    advertises STARTTLS again. *)
Theorem ehlo_advertises_starttls_iff_enabled line s w :
  exists reply w',
    _handle_ehlo config line s w = (Return true, s, w')
    /\ wrote w w' reply
    /\ transport w' = transport w
    /\ (In "250-STARTTLS" reply <-> Config.enabled (Config.tls config) = true).
Proof.
  unfold _handle_ehlo, wrote.
  match goal with
  | |- context [fold_left _ ?l w] =>
      destruct (fold_send_writer l w) as (Hw & Ht & _)
  end.
  eexists. eexists. split; [reflexivity|]. split; [exact Hw|].
  split; [exact Ht|].
  pose proof (hello_line_not_starttls (Config.domain config)) as Hd.
  assert (forall n, ("250-SIZE " ++ n)%str <> "250-STARTTLS") as Hn
    by (intros n H; cbn in H; congruence).
  destruct (Config.enabled (Config.tls config));
    destruct (Config.required (Config.auth config)
              || negb (str_empty (Config.username (Config.auth config))));
    cbn [app In]; split; intro H; try reflexivity; try discriminate;
    try (now auto 10);
    repeat (destruct H as [H | H]);
    try discriminate; try contradiction;
    try (now apply Hd in H); try (now apply Hn in H).
Qed.

Lemma len_cons {A} (x : A) (l : list A) : Py.len (x :: l) = 1 + Py.len l.
Proof. unfold Py.len. cbn [List.length]. lia. Qed.

(** The answer of the [try] block of AUTH PLAIN, by the number of fields
    of the decoded blob. *)
Lemma auth_plain_check_fields credentials raw text s w :
  Base64.b64decode_str credentials = Some raw ->
  Py.decode raw = Some text ->
  _handle_auth_plain_check config credentials s w
  = plain_fields_outcome config (Py.split_on Py.NUL EmptyString text) s w.
Proof.
  intros H Ht. unfold _handle_auth_plain_check. rewrite H, Ht.
  destruct (Py.split_on Py.NUL EmptyString text)
    as [|f1 [|f2 [|f3 more]]]; try reflexivity.
  unfold plain_fields_outcome, credentials_checked.
  rewrite !len_cons.
  pose proof (len_nonneg more) as Hn.
  replace (1 + (1 + (1 + Py.len more)) >=? 3) with true
    by (symmetry; rewrite Z.geb_leb; apply Z.leb_le; lia).
  reflexivity.
Qed.

(** A blob whose bytes are not UTF-8 is refused. *)
Lemma auth_plain_check_undecodable credentials raw s w :
  Base64.b64decode_str credentials = Some raw ->
  Py.decode raw = None ->
  _handle_auth_plain_check config credentials s w
  = (Return true, s, _send "535 Authentication failed" w).
Proof.
  intros H Ht. unfold _handle_auth_plain_check. now rewrite H, Ht.
Qed.

(** C3 (as amended): for an AUTH PLAIN blob that base64-decodes to UTF-8
    text, split on NUL characters: with exactly two fields they are user
    and password; with three or more fields (four included) the second and
    third are user and password; a single field is answered 535
    Authentication failed and the session state stays as it was.  A blob
    whose bytes are not UTF-8 is answered 535 as well.  The same holds for
    a blob given on the AUTH line and for one read from the continuation
    line. *)
Theorem auth_plain_uses_fields credentials raw s w :
  Base64.b64decode_str credentials = Some raw ->
  (forall text,
      Py.decode raw = Some text ->
      let fields := Py.split_on Py.NUL EmptyString text in
      (forall a m,
          _handle_auth_plain config [a; m; credentials] s w
          = plain_fields_outcome config fields s w)
      /\ (forall parts cred_line line rest,
            Py.len parts <> 3 ->
            reader w = RLine cred_line :: rest ->
            Py.decode cred_line = Some line ->
            Py.strip line = credentials ->
            _handle_auth_plain config parts s w
            = plain_fields_outcome config fields s
                (set_reader rest (_send "334 " w))))
  /\ (Py.decode raw = None ->
      (forall a m,
          _handle_auth_plain config [a; m; credentials] s w
          = (Return true, s, _send "535 Authentication failed" w))
      /\ (forall parts cred_line line rest,
            Py.len parts <> 3 ->
            reader w = RLine cred_line :: rest ->
            Py.decode cred_line = Some line ->
            Py.strip line = credentials ->
            _handle_auth_plain config parts s w
            = (Return true, s,
               _send "535 Authentication failed"
                 (set_reader rest (_send "334 " w)))))
  /\ (forall f, plain_fields_outcome config [f] s w
                = (Return true, s, _send "535 Authentication failed" w))
  /\ (forall user pass,
        plain_fields_outcome config [user; pass] s w
        = credentials_checked config user pass s w)
  /\ (forall f user pass more,
        plain_fields_outcome config (f :: user :: pass :: more) s w
        = credentials_checked config user pass s w).
Proof.
  intros Hd.
  assert (forall a m,
             _handle_auth_plain config [a; m; credentials] s w
             = _handle_auth_plain_check config credentials s w) as Hline.
  { intros a m. unfold _handle_auth_plain.
    cbn [Py.len List.length Z.of_nat Z.eqb].
    cbn [nth Pos.of_succ_nat Pos.succ Pos.eqb]. reflexivity. }
  assert (forall parts cred_line line rest,
             Py.len parts <> 3 ->
             reader w = RLine cred_line :: rest ->
             Py.decode cred_line = Some line ->
             Py.strip line = credentials ->
             _handle_auth_plain config parts s w
             = _handle_auth_plain_check config credentials s
                 (set_reader rest (_send "334 " w))) as Hcont.
  { intros parts cred_line line rest Hp Hr Hl Hc. unfold _handle_auth_plain.
    destruct (Py.len parts =? 3) eqn:E; [apply Z.eqb_eq in E; contradiction|].
    unfold readline. cbn [_send set_writer reader]. rewrite Hr, Hl, Hc.
    reflexivity. }
  split; [|split].
  - intros text Ht fields. split.
    + intros a m. rewrite Hline. now apply auth_plain_check_fields with (raw := raw).
    + intros parts cred_line line rest Hp Hr Hl Hc.
      rewrite (Hcont parts cred_line line rest Hp Hr Hl Hc).
      now apply auth_plain_check_fields with (raw := raw).
  - intros Ht. split.
    + intros a m. rewrite Hline. now apply auth_plain_check_undecodable with (raw := raw).
    + intros parts cred_line line rest Hp Hr Hl Hc.
      rewrite (Hcont parts cred_line line rest Hp Hr Hl Hc).
      now apply auth_plain_check_undecodable with (raw := raw).
  - repeat split; intros; reflexivity.
Qed.

(** ** What every handler keeps *)

Lemma turns_left_le script :
  (turns_left script <= List.length script)%nat.
Proof. destruct script as [|[| |] rest]; cbn; lia. Qed.

Ltac step_same :=
  solve [unfold step_ok; cbn; repeat split; auto;
         try apply turns_left_le; lia].

Lemma readline_shrinks w r w' :
  readline w = (r, w') ->
  (List.length (reader w') <= List.length (reader w))%nat
  /\ email_repo w' = email_repo w /\ create_calls w' = create_calls w
  /\ writer w' = writer w
  /\ handshakes w' = handshakes w /\ db_faults w' = db_faults w.
Proof.
  unfold readline. destruct (reader w) as [|x rest] eqn:E;
    intro H; inversion H; subst; cbn; rewrite ?E; cbn; repeat split; lia.
Qed.

Lemma step_ok_ehlo line s w : step_ok config s w (_handle_ehlo config line s w).
Proof.
  unfold _handle_ehlo, step_ok.
  match goal with
  | |- context [fold_left _ ?l w] =>
      destruct (fold_send_writer l w) as (_ & _ & Hr & He & _ & _ & _ & Hk)
  end.
  rewrite Hr, He, Hk. repeat split; auto using turns_left_le.
Qed.

Lemma step_ok_auth_plain_check credentials s w :
  step_ok config s w (_handle_auth_plain_check config credentials s w).
Proof.
  unfold _handle_auth_plain_check.
  destruct (Base64.b64decode_str credentials) as [raw|]; [|step_same].
  destruct (Py.decode raw) as [decoded|]; [|step_same].
  cbv zeta.
  destruct (Py.len _ >=? 3); [|destruct (Py.len _ =? 2)];
    try match goal with
        | |- context [if ?b then _ else _] => destruct b
        end; try step_same;
    unfold step_ok; cbn; repeat split; auto using turns_left_le;
    right; right; eexists; reflexivity.
Qed.

(** A step taken in a world whose reader is a tail of the caller's. *)
Lemma step_ok_shrink s w w1 r :
  (List.length (reader w1) <= List.length (reader w))%nat ->
  email_repo w1 = email_repo w ->
  create_calls w1 = create_calls w ->
  step_ok config s w1 r -> step_ok config s w r.
Proof.
  unfold step_ok. destruct r as [[o s'] w'].
  intros Hl He Hk (H1 & H2 & H3 & H4 & H5). rewrite <- He, <- Hk.
  repeat split; auto. lia.
Qed.

Lemma step_ok_auth_plain parts s w :
  step_ok config s w (_handle_auth_plain config parts s w).
Proof.
  unfold _handle_auth_plain.
  destruct (Py.len parts =? 3); [apply step_ok_auth_plain_check|].
  cbv zeta. destruct (readline (_send "334 " w)) as [r w1] eqn:E.
  apply readline_shrinks in E. cbn in E. destruct E as (Hl & He & Hk & _).
  pose proof (turns_left_le (reader w1)) as Ht.
  destruct r.
  - destruct (Py.decode line) as [text|].
    + apply (step_ok_shrink s w w1); auto. apply step_ok_auth_plain_check.
    + unfold step_ok. cbn. rewrite He, Hk. repeat split; auto. lia.
  - unfold step_ok. cbn. rewrite He, Hk. repeat split; auto. lia.
  - unfold step_ok. cbn. rewrite He, Hk. repeat split; auto. lia.
Qed.

Lemma step_ok_auth_login s w :
  step_ok config s w (_handle_auth_login config s w).
Proof.
  unfold _handle_auth_login. cbv zeta.
  destruct (readline (_send "334 VXNlcm5hbWU6" w)) as [r w1] eqn:E.
  apply readline_shrinks in E. cbn in E. destruct E as (Hl & He & Hk & _).
  assert (forall o s', client_ip s' = client_ip s -> rcpt_to s' = rcpt_to s ->
            forall w2, (List.length (reader w2) <= List.length (reader w1))%nat ->
                       email_repo w2 = email_repo w1 ->
                       create_calls w2 = create_calls w1 ->
                       (authenticated s' = authenticated s
                        \/ exists before,
                             writer w2
                             = before ++ ["235 Authentication successful"]) ->
                       step_ok config s w (o, s', w2)) as K.
  { intros o s' Hc Hrc w2 Hl2 He2 Hk2 Ha. unfold step_ok, rcpt_bounded.
    rewrite Hrc, He2, He, Hk2, Hk.
    pose proof (turns_left_le (reader w2)).
    repeat split; auto; [lia|].
    destruct Ha as [Ha | Ha]; auto. }
  destruct r; try (apply K; cbn; auto; fail).
  destruct (Base64.b64decode (Py.strip_b line)) as [u|];
    [|apply K; cbn; auto].
  destruct (Py.decode u) as [user|]; [|apply K; cbn; auto].
  destruct (readline (_send "334 UGFzc3dvcmQ6" w1)) as [r2 w2] eqn:E2.
  apply readline_shrinks in E2. cbn in E2.
  destruct E2 as (Hl2 & He2 & Hk2 & _).
  destruct r2; try (apply K; cbn; auto; fail).
  destruct (Base64.b64decode (Py.strip_b line0)) as [p|];
    [|apply K; cbn; auto].
  destruct (Py.decode p) as [pass|]; [|apply K; cbn; auto].
  match goal with
  | |- context [if ?b then _ else _] => destruct b
  end; apply K; cbn; auto.
  right. eexists. reflexivity.
Qed.

Lemma step_ok_auth line s w : step_ok config s w (_handle_auth config line s w).
Proof.
  unfold _handle_auth. cbv zeta.
  destruct (Py.len (Py.split line) <? 2); [step_same|].
  destruct (negb _); [step_same|].
  destruct (Py.eqb _ "PLAIN");
    [apply step_ok_auth_plain | apply step_ok_auth_login].
Qed.

Lemma step_ok_mail line s w : step_ok config s w (_handle_mail config line s w).
Proof.
  unfold _handle_mail. destruct (auth_gate config s); [step_same|].
  cbv zeta. destruct (Py.find "FROM:" (Py.upper line)); step_same.
Qed.

Lemma step_ok_rcpt line s w : step_ok config s w (_handle_rcpt config line s w).
Proof.
  unfold _handle_rcpt. destruct (auth_gate config s); [step_same|].
  destruct (Py.len (rcpt_to s) >=? Config.max_recipients config) eqn:E;
    [step_same|].
  cbv zeta. destruct (Py.find "TO:" (Py.upper line)); [|step_same].
  unfold step_ok.
  cbn [reader email_repo _send set_writer client_ip set_rcpt_to rcpt_to].
  repeat split; auto using turns_left_le.
  intros _. right. cbn [rcpt_to set_rcpt_to]. rewrite len_app, len_cons.
  rewrite Z.geb_leb in E. apply Z.leb_gt in E. unfold Py.len at 2. cbn. lia.
Qed.

Lemma rcpt_bounded_reset s :
  rcpt_bounded config (_reset_transaction s).
Proof. left. reflexivity. Qed.

Lemma step_ok_data s w :
  step_ok config s w (_handle_data config parse_message s w).
Proof.
  destruct (_handle_data config parse_message s w) as [[o s'] w'] eqn:E.
  destruct (handle_data_frame s w o s' w' E) as (Hs & Hl & Hrepo).
  pose proof (turns_left_le (reader w')) as Ht.
  unfold step_ok. split; [lia|split; [|split; [|split]]].
  - destruct Hs; subst s'; reflexivity.
  - left. destruct Hs; subst s'; reflexivity.
  - destruct Hs; subst s'; auto. intros _. apply rcpt_bounded_reset.
  - destruct Hrepo as [Hsame | (e & Hk & He & Hb & _ & Hm & Hr)];
      [left; assumption|].
    right. exists e. split; [exact Hk|].
    split; [destruct He as [He | [He _]]; auto|].
    split; [rewrite Hb; reflexivity|]. split; [rewrite Hb; reflexivity|].
    split; assumption.
Qed.

Lemma step_ok_rset s w : step_ok config s w (_handle_rset s w).
Proof.
  unfold _handle_rset, step_ok. cbn.
  repeat split; auto using turns_left_le.
  intros _. left. reflexivity.
Qed.

Lemma step_ok_starttls s w : step_ok config s w (_handle_starttls config s w).
Proof.
  unfold _handle_starttls.
  destruct (negb _); [step_same|].
  unfold start_tls. cbn.
  destruct (handshakes w) as [|[|r|e r] hs]; unfold step_ok; cbn;
    repeat split; auto using turns_left_le; try lia;
    intros _; left; reflexivity.
Qed.

Lemma step_ok_process_command line s w :
  step_ok config s w (_process_command config parse_message line s w).
Proof.
  unfold _process_command. cbv zeta.
  repeat match goal with
         | |- context [if ?b then _ else _] => destruct b
         end;
    auto using step_ok_ehlo, step_ok_auth, step_ok_mail, step_ok_rcpt,
      step_ok_data, step_ok_rset, step_ok_starttls; step_same.
Qed.

(** ** The command loop *)

Lemma readline_cases w r w1 :
  readline w = (r, w1) ->
  (reader w = [] /\ r = RLine [] /\ w1 = w)
  \/ (reader w = r :: reader w1 /\ w1 = set_reader (reader w1) w).
Proof.
  unfold readline. destruct (reader w) as [|x rest] eqn:E;
    intro H; inversion H; subst; [left | right]; auto.
Qed.

(** One more turn of [command_loop] after a handler returned True. *)
Lemma command_loop_next fuel s w line rest s' w' :
  reader w = RLine line :: rest ->
  line <> [] ->
  Py.strip (Py.decode_replace line) <> EmptyString ->
  _process_command config parse_message (Py.strip (Py.decode_replace line)) s
    (set_reader rest w) = (Return true, s', w') ->
  command_loop config parse_message (S fuel) s w
  = command_loop config parse_message fuel s' w'.
Proof.
  intros Hr Hl Hc Hp. cbn [command_loop]. unfold readline. rewrite Hr.
  destruct line; [congruence|]. cbn [list_empty].
  destruct (Py.strip (Py.decode_replace (b :: line))) eqn:E; [congruence|].
  cbn [str_empty]. rewrite Hp. reflexivity.
Qed.

Lemma email_ok_of_transaction s e :
  rcpt_bounded config s ->
  Models.sender e = mail_from s ->
  Models.recipients e = rcpt_to s ->
  mail_from s <> EmptyString -> rcpt_to s <> [] ->
  email_ok config e.
Proof.
  intros Hb Hs Hr Hm Hn. unfold email_ok. rewrite Hs, Hr.
  split; [|assumption].
  destruct Hb as [Hb | Hb]; [contradiction|].
  split; [|assumption].
  destruct (rcpt_to s); [contradiction|]. rewrite len_cons.
  pose proof (len_nonneg l). lia.
Qed.

Lemma grown_ok_refl l : grown_ok config l l.
Proof. exists []. now rewrite app_nil_r. Qed.

Lemma grown_ok_trans l1 l2 l3 :
  grown_ok config l1 l2 -> grown_ok config l2 l3 -> grown_ok config l1 l3.
Proof.
  intros (n1 & H1 & F1) (n2 & H2 & F2). exists (n1 ++ n2).
  rewrite H2, H1, app_assoc. split; [reflexivity|].
  apply Forall_app. split; assumption.
Qed.

Lemma grown_ok_one l e : email_ok config e -> grown_ok config l (l ++ [e]).
Proof.
  intro H. exists [e]. split; [reflexivity|].
  constructor; [exact H | constructor].
Qed.

(** A step grows the log of [create] calls and the store by well-formed
    records only. *)
Lemma step_ok_grown s w o s' w' :
  rcpt_bounded config s ->
  step_ok config s w (o, s', w') ->
  grown_ok config (create_calls w) (create_calls w')
  /\ grown_ok config (email_repo w) (email_repo w').
Proof.
  intros Hb (_ & _ & _ & _ & [[Hk He] | (e & Hk & He & Hs & Hr & Hm & Hn)]).
  - rewrite Hk, He. split; apply grown_ok_refl.
  - assert (email_ok config e) as Hok
      by (now apply (email_ok_of_transaction s)).
    rewrite Hk. split; [now apply grown_ok_one|].
    destruct He as [He | He]; rewrite He;
      [apply grown_ok_refl | now apply grown_ok_one].
Qed.

(** The loop never runs out of fuel that exceeds the reader's script, and
    over a whole run the recipient list stays bounded and every record
    handed to the store, and so every record stored, is well formed. *)
Lemma command_loop_ok fuel :
  forall s w,
    rcpt_bounded config s ->
    let '(st, s', w') := command_loop config parse_message fuel s w in
    ((turns_left (reader w) < fuel)%nat -> st <> OutOfFuel)
    /\ rcpt_bounded config s'
    /\ client_ip s' = client_ip s
    /\ grown_ok config (create_calls w) (create_calls w')
    /\ grown_ok config (email_repo w) (email_repo w').
Proof.
  induction fuel as [|fuel IH]; intros s w Hb.
  - cbn. repeat split; auto using grown_ok_refl. lia.
  - cbn [command_loop].
    destruct (readline w) as [r w1] eqn:E.
    pose proof (readline_shrinks w r w1 E) as (_ & He1 & Hk1 & _).
    assert (forall st, st <> OutOfFuel ->
              ((turns_left (reader w) < S fuel)%nat -> st <> OutOfFuel)
              /\ rcpt_bounded config s /\ client_ip s = client_ip s
              /\ grown_ok config (create_calls w) (create_calls w1)
              /\ grown_ok config (email_repo w) (email_repo w1)) as Stop.
    { intros st Hst. rewrite He1, Hk1.
      repeat split; auto using grown_ok_refl. }
    destruct r as [line| |e];
      [|apply Stop; discriminate|destruct e; apply Stop; discriminate].
    destruct line as [|b line]; [apply Stop; discriminate|].
    cbn [list_empty].
    destruct (readline_cases w _ w1 E) as [(_ & Hnil & _) | (Hr & _)];
      [discriminate|].
    destruct (str_empty (Py.strip (Py.decode_replace (b :: line)))).
    + specialize (IH s w1 Hb).
      destruct (command_loop config parse_message fuel s w1) as [[st s'] w'].
      destruct IH as (Hf & Hb' & Hc & Hgk & Hge).
      rewrite He1 in Hge. rewrite Hk1 in Hgk. repeat split; auto.
      intro Hl. apply Hf. rewrite Hr in Hl. cbn in Hl.
      pose proof (turns_left_le (reader w1)). lia.
    + pose proof (step_ok_process_command
                    (Py.strip (Py.decode_replace (b :: line))) s w1) as Hstep.
      destruct (_process_command config parse_message
                  (Py.strip (Py.decode_replace (b :: line))) s w1) as [[o s2] w2].
      destruct (step_ok_grown s w1 o s2 w2 Hb Hstep) as [Hgk2 Hge2].
      rewrite He1 in Hge2. rewrite Hk1 in Hgk2.
      destruct Hstep as (Hl2 & Hc2 & _ & Hb2 & _).
      destruct o as [[|]|[| | | |]|];
        try (repeat split; auto; discriminate).
      specialize (IH s2 w2 (Hb2 Hb)).
      destruct (command_loop config parse_message fuel s2 w2) as [[st s'] w'].
      destruct IH as (Hf & Hb' & Hc & Hgk & Hge).
      repeat split; auto.
      * intro Hl. apply Hf. rewrite Hr in Hl. cbn in Hl. lia.
      * congruence.
      * now apply (grown_ok_trans _ (create_calls w2)).
      * now apply (grown_ok_trans _ (email_repo w2)).
Qed.

(** C6: every Email handed to the store over a whole session has between
    1 and max_recipients recipients and a non-empty sender.  The run of
    [handle] ends without exhausting its fuel; the records it hands to
    [email_repo.create], and so those it stores, are well formed.  In
    particular MAIL FROM:<> leaves mail_from empty, DATA with an empty
    mail_from or an empty rcpt_to is refused (with 503 once the
    authentication gate is passed) and hands nothing to the store, and
    RCPT at the limit is answered 452 and appends nothing. *)
Theorem stored_emails_have_sender_and_recipients w line s1 w1 :
  (let '(st, _, w') := handle config parse_message w in
   st <> OutOfFuel
   /\ grown_ok config (create_calls w) (create_calls w')
   /\ grown_ok config (email_repo w) (email_repo w'))
  /\ (auth_gate config s1 = false ->
      _handle_mail config "MAIL FROM:<>" s1 w1
      = (Return true, set_mail_from EmptyString s1, _send "250 OK" w1))
  /\ (mail_from s1 = EmptyString \/ rcpt_to s1 = [] ->
      (auth_gate config s1 = false ->
       _handle_data config parse_message s1 w1
       = (Return true, s1, _send "503 Bad sequence of commands" w1))
      /\ create_calls (snd (_handle_data config parse_message s1 w1))
         = create_calls w1)
  /\ (auth_gate config s1 = false ->
      Config.max_recipients config <= Py.len (rcpt_to s1) ->
      _handle_rcpt config line s1 w1
      = (Return true, s1, _send "452 Too many recipients" w1)).
Proof.
  split; [|split; [|split]].
  - unfold handle. cbv zeta.
    pose proof (command_loop_ok
                  (S (List.length
                        (reader (_send ("220 " ++ Config.domain config
                                        ++ " SMTP Ready")%str w))))
                  (new_session w)
                  (_send ("220 " ++ Config.domain config ++ " SMTP Ready")%str
                     w)) as H.
    destruct (command_loop _ _ _ _ _) as [[st s'] w'].
    destruct H as (Hf & _ & _ & Hgk & Hge); [left; reflexivity|].
    assert (st <> OutOfFuel) as Hst.
    { apply Hf.
      match goal with
      | |- (turns_left ?l < _)%nat => pose proof (turns_left_le l)
      end. lia. }
    cbn in Hgk, Hge.
    destruct st; [| | |contradiction]; repeat split; auto; discriminate.
  - intro Hg. unfold _handle_mail. rewrite Hg. reflexivity.
  - intros Hempty.
    assert (str_empty (mail_from s1) || list_empty (rcpt_to s1) = true) as He.
    { destruct Hempty as [H | H]; rewrite H; cbn; [reflexivity|].
      apply orb_true_r. }
    split.
    + intro Hg. unfold _handle_data. rewrite Hg, He. reflexivity.
    + unfold _handle_data. destruct (auth_gate config s1); [reflexivity|].
      rewrite He. reflexivity.
  - intros Hg Hl. unfold _handle_rcpt. rewrite Hg.
    replace (Py.len (rcpt_to s1) >=? Config.max_recipients config) with true
      by (symmetry; rewrite Z.geb_leb; apply Z.leb_le; lia).
    reflexivity.
Qed.

(** ** After STARTTLS *)

Lemma auth_gate_closed s :
  Config.required (Config.auth config) = true ->
  authenticated s = false ->
  auth_gate config s = true.
Proof. intros Hr Ha. unfold auth_gate. now rewrite Hr, Ha. Qed.

(** With authentication required, a command other than AUTH leaves an
    unauthenticated session unauthenticated, leaves no AUTH line to be
    read that was not there, stores nothing, and opens no transaction. *)
Lemma unauthenticated_command line s w :
  Config.required (Config.auth config) = true ->
  authenticated s = false ->
  mail_from s = EmptyString -> rcpt_to s = [] ->
  command_word line <> "AUTH" ->
  exists o s' w',
    _process_command config parse_message line s w = (o, s', w')
    /\ authenticated s' = false
    /\ mail_from s' = EmptyString /\ rcpt_to s' = []
    /\ (Forall not_auth_line (reader w) -> Forall not_auth_line (reader w'))
    /\ create_calls w' = create_calls w /\ email_repo w' = email_repo w.
Proof.
  intros Hr Ha Hm Hrc Hw.
  pose proof (auth_gate_closed s Hr Ha) as Hg.
  unfold _process_command. fold (command_word line).
  destruct (Py.eqb (command_word line) "EHLO"
            || Py.eqb (command_word line) "HELO").
  { unfold _handle_ehlo.
    match goal with
    | |- context [fold_left _ ?l w] =>
        destruct (fold_send_writer l w)
          as (_ & _ & Hrd & He & _ & _ & _ & Hk)
    end.
    eexists. eexists. eexists. split; [reflexivity|]. repeat split; auto.
    now rewrite Hrd. }
  destruct (Py.eqb (command_word line) "AUTH") eqn:E;
    [apply str_eqb_eq in E; contradiction|].
  destruct (Py.eqb (command_word line) "MAIL").
  { unfold _handle_mail. rewrite Hg.
    eexists. eexists. eexists. split; [reflexivity|]. repeat split; auto. }
  destruct (Py.eqb (command_word line) "RCPT").
  { unfold _handle_rcpt. rewrite Hg.
    eexists. eexists. eexists. split; [reflexivity|]. repeat split; auto. }
  destruct (Py.eqb (command_word line) "DATA").
  { unfold _handle_data. rewrite Hg.
    eexists. eexists. eexists. split; [reflexivity|]. repeat split; auto. }
  destruct (Py.eqb (command_word line) "RSET").
  { eexists. eexists. eexists. split; [reflexivity|]. repeat split; auto. }
  destruct (Py.eqb (command_word line) "QUIT").
  { eexists. eexists. eexists. split; [reflexivity|]. repeat split; auto. }
  destruct (Py.eqb (command_word line) "NOOP").
  { eexists. eexists. eexists. split; [reflexivity|]. repeat split; auto. }
  destruct (Py.eqb (command_word line) "STARTTLS").
  { unfold _handle_starttls, start_tls.
    destruct (negb (Config.enabled (Config.tls config)));
      [eexists; eexists; eexists; split; [reflexivity|]; repeat split; auto|].
    cbn. destruct (handshakes w) as [|[|r|e r] hs];
      eexists; eexists; eexists; (split; [reflexivity|]); repeat split; auto.
    cbn. intro Hall. constructor; [exact Logic.I | exact Hall]. }
  eexists. eexists. eexists. split; [reflexivity|]. repeat split; auto.
Qed.

(** Over any run of commands without AUTH, an unauthenticated session of
    a server that requires authentication stays unauthenticated, opens no
    transaction and stores nothing. *)
Lemma unauthenticated_loop fuel :
  forall s w,
    Config.required (Config.auth config) = true ->
    authenticated s = false ->
    mail_from s = EmptyString -> rcpt_to s = [] ->
    Forall not_auth_line (reader w) ->
    let '(_, s', w') := command_loop config parse_message fuel s w in
    authenticated s' = false
    /\ mail_from s' = EmptyString /\ rcpt_to s' = []
    /\ create_calls w' = create_calls w
    /\ email_repo w' = email_repo w.
Proof.
  induction fuel as [|fuel IH]; intros s w Hr Ha Hm Hrc Hall.
  - cbn. auto.
  - cbn [command_loop]. unfold readline.
    destruct (reader w) as [|r rest] eqn:E; [cbn; auto|].
    inversion Hall as [|? ? Hline Hrest]; subst.
    destruct r as [line| |e]; [|cbn; auto|destruct e; cbn; auto].
    destruct (list_empty line); [cbn; auto|].
    destruct (str_empty (Py.strip (Py.decode_replace line))).
    + specialize (IH s (set_reader rest w) Hr Ha Hm Hrc Hrest).
      destruct (command_loop _ _ _ _ _) as [[st s'] w']. exact IH.
    + destruct (unauthenticated_command (Py.strip (Py.decode_replace line)) s
                  (set_reader rest w) Hr Ha Hm Hrc Hline)
        as (o & s2 & w2 & Hp & Ha2 & Hm2 & Hrc2 & Hrd2 & Hk2 & He2).
      rewrite Hp.
      destruct o as [[|]|[| | | |]|]; try (cbn in *; auto; fail).
      assert (Forall not_auth_line (reader w2)) as Hall2
        by (apply Hrd2; exact Hrest).
      specialize (IH s2 w2 Hr Ha2 Hm2 Hrc2 Hall2).
      destruct (command_loop _ _ _ _ _) as [[st s'] w'].
      destruct IH as (? & ? & ? & Hk' & He'). repeat split; auto.
      * rewrite Hk', Hk2. reflexivity.
      * rewrite He', He2. reflexivity.
Qed.

(** C4 (as amended): after a successful STARTTLS upgrade the session has
    authenticated = false, auth_user empty, mail_from empty and rcpt_to
    empty, and, when auth.required is true, no run of commands without
    AUTH that follows opens a transaction or hands a message to the store.
    When auth.required is true, MAIL, RCPT and DATA are each answered 530
    Authentication required in every unauthenticated state, so also right
    after the upgrade; a command makes an unauthenticated session
    authenticated only with the reply 235 Authentication successful: a
    new AUTH is needed, a new EHLO is not.  When auth.required is false,
    MAIL is accepted without either. *)
Theorem starttls_success_requires_new_auth :
  (forall s w later,
      Config.enabled (Config.tls config) = true ->
      handshakes w = TlsOk :: later ->
      exists s' w',
        _handle_starttls config s w = (Return true, s', w')
        /\ transport w' = TlsWrapped
        /\ authenticated s' = false /\ auth_user s' = EmptyString
        /\ mail_from s' = EmptyString /\ rcpt_to s' = []
        /\ (Config.required (Config.auth config) = true ->
            forall fuel w1,
              Forall not_auth_line (reader w1) ->
              let '(_, s2, w2) :=
                command_loop config parse_message fuel s' w1 in
              authenticated s2 = false
              /\ mail_from s2 = EmptyString /\ rcpt_to s2 = []
              /\ create_calls w2 = create_calls w1
              /\ email_repo w2 = email_repo w1))
  /\ (Config.required (Config.auth config) = true ->
      forall s1 line w1,
        authenticated s1 = false ->
        _handle_mail config line s1 w1
        = (Return true, s1, _send "530 Authentication required" w1)
        /\ _handle_rcpt config line s1 w1
           = (Return true, s1, _send "530 Authentication required" w1)
        /\ _handle_data config parse_message s1 w1
           = (Return true, s1, _send "530 Authentication required" w1))
  /\ (forall s1 line w1,
        authenticated s1 = false ->
        let '(_, s2, w2) :=
          _process_command config parse_message line s1 w1 in
        authenticated s2 = true ->
        exists before,
          writer w2 = before ++ ["235 Authentication successful"])
  /\ (Config.required (Config.auth config) = false ->
      forall s1 w1,
        _handle_mail config "MAIL FROM:<a@x>" s1 w1
        = (Return true, set_mail_from "a@x" s1, _send "250 OK" w1)).
Proof.
  split; [|split; [|split]].
  - intros s w later He Hh.
    unfold _handle_starttls, start_tls. rewrite He. cbn.
    rewrite Hh. eexists. eexists. split; [reflexivity|].
    cbn. do 5 (split; [reflexivity|]).
    intros Hreq fuel w1 Hall. apply (unauthenticated_loop fuel); auto.
  - intros Hreq s1 line w1 Ha.
    unfold _handle_mail, _handle_rcpt, _handle_data.
    rewrite (auth_gate_closed s1 Hreq Ha). repeat split.
  - intros s1 line w1 Ha.
    pose proof (step_ok_process_command line s1 w1) as Hstep.
    destruct (_process_command config parse_message line s1 w1)
      as [[o s2] w2].
    destruct Hstep as (_ & _ & [Hk | [Hk | Hk]] & _); intro Ht;
      [congruence | congruence | exact Hk].
  - intros Hreq s1 w1. unfold _handle_mail, auth_gate. rewrite Hreq.
    reflexivity.
Qed.

(** The other three reads answer a timeout with 421 and end the session:
    the command loop, the continuation line of AUTH PLAIN, and the body
    lines of DATA. *)
Lemma timeout_closes_outside_auth_login fuel s w rest parts lines :
  reader w = RTimeout :: rest ->
  command_loop config parse_message (S fuel) s w
  = (Finished, s, _send "421 Timeout" (set_reader rest w))
  /\ (Py.len parts <> 3 ->
      _handle_auth_plain config parts s w
      = (Return false, s,
         _send "421 Timeout" (set_reader rest (_send "334 " w))))
  /\ (forall w1,
        data_ready config s ->
        Forall non_final lines ->
        body_size lines <= max_bytes ->
        reader w1 = map RLine lines ++ RTimeout :: rest ->
        _handle_data config parse_message s w1
        = (Return false, s,
           _send "421 Timeout"
             (set_reader rest
                (_send "354 Start mail input; end with <CRLF>.<CRLF>" w1)))).
Proof.
  intro Hr. split; [|split].
  - cbn [command_loop]. unfold readline. rewrite Hr. reflexivity.
  - intro Hp. unfold _handle_auth_plain.
    destruct (Py.len parts =? 3) eqn:E; [apply Z.eqb_eq in E; contradiction|].
    unfold readline. cbn [_send set_writer reader]. rewrite Hr. reflexivity.
  - intros w1 Hready Hl Hs Hr1.
    destruct (data_ready_guards s Hready) as [Hg Hm].
    unfold _handle_data. rewrite Hg, Hm. cbn [_send set_writer reader].
    rewrite Hr1.
    assert (forall ls data total,
               Forall non_final ls -> total + body_size ls <= max_bytes ->
               read_body max_bytes (map RLine ls ++ RTimeout :: rest) data total
               = (BodyTimeout, rest)) as K.
    { induction ls as [|l ls IH]; intros data total Hf Ht; [reflexivity|].
      inversion Hf; subst. rewrite body_size_cons in Ht.
      pose proof (body_size_nonneg ls).
      cbn [map app]. rewrite read_body_step by assumption.
      replace (total + Py.len (unstuff l) >? max_bytes) with false
        by (symmetry; rewrite Z.gtb_ltb; apply Z.ltb_ge; lia).
      apply IH; auto. lia. }
    rewrite K by (auto; lia). reflexivity.
Qed.

(** In AUTH LOGIN a timeout of either read is taken by the handler's
    [except Exception]: the answer is 535 and the handler returns True. *)
Lemma auth_login_swallows_timeout s w rest user_line raw user rest2 :
  (reader w = RTimeout :: rest ->
   _handle_auth_login config s w
   = (Return true, s,
      _send "535 Authentication failed"
        (set_reader rest (_send "334 VXNlcm5hbWU6" w))))
  /\ (reader w = RLine user_line :: RTimeout :: rest2 ->
      Base64.b64decode (Py.strip_b user_line) = Some raw ->
      Py.decode raw = Some user ->
      _handle_auth_login config s w
      = (Return true, s,
         _send "535 Authentication failed"
           (set_reader rest2
              (_send "334 UGFzc3dvcmQ6"
                 (set_reader (RTimeout :: rest2)
                    (_send "334 VXNlcm5hbWU6" w)))))).
Proof.
  split.
  - intro Hr. unfold _handle_auth_login, readline.
    cbn [_send set_writer reader]. rewrite Hr. reflexivity.
  - intros Hr Hd Hu. unfold _handle_auth_login, readline.
    cbn [_send set_writer reader set_reader]. rewrite Hr, Hd, Hu.
    reflexivity.
Qed.
End Properties.

(** ** The properties on sample sessions *)

(** C2 (code defect, evaluated): a timeout on the first continuation line
    of AUTH LOGIN is answered 535 Authentication failed, not 421 Timeout,
    and the command loop goes on: the NOOP and the QUIT that follow are
    served.  The same timeout on the continuation line of AUTH PLAIN is
    answered 421 and ends the session. *)
Theorem auth_login_timeout_is_answered_535 :
  (let '(st, _, w) :=
     handle (Samples.cfg true false 1024 50) Samples.raw_parser
       (Samples.conn [Samples.ln "AUTH LOGIN"; RTimeout;
                      Samples.ln "NOOP"; Samples.ln "QUIT"] []) in
   st = Finished
   /\ writer w = ["220 localhost SMTP Ready"; "334 VXNlcm5hbWU6";
                  "535 Authentication failed"; "250 OK"; "221 Bye"]
   /\ reader w = [])
  /\ (let '(st, _, w) :=
        handle (Samples.cfg true false 1024 50) Samples.raw_parser
          (Samples.conn [Samples.ln "AUTH PLAIN"; RTimeout;
                         Samples.ln "NOOP"; Samples.ln "QUIT"] []) in
      st = Finished
      /\ writer w = ["220 localhost SMTP Ready"; "334 "; "421 Timeout"]
      /\ reader w = [Samples.ln "NOOP"; Samples.ln "QUIT"]).
Proof. vm_compute. repeat split. Qed.

(** Counterexample to C1 as stated: on the body of scenario S3 the line
    .hello keeps its single leading dot, so the stored raw_message is
    .hello CRLF .world CRLF, 16 bytes, and not hello CRLF .world CRLF of
    15 bytes. *)
Lemma s3_single_dot_is_kept :
  let '(_, _, w) :=
    _handle_data (Samples.cfg true false 1024 50) Samples.raw_parser
      Samples.in_transaction (Samples.conn Samples.s3_script []) in
  exists e,
    email_repo w = [e]
    /\ Models.raw_message e
       = Py.encode (".hello" ++ Py.CRLF ++ ".world" ++ Py.CRLF)%str
    /\ Models.raw_message e
       <> Py.encode ("hello" ++ Py.CRLF ++ ".world" ++ Py.CRLF)%str
    /\ Models.size_bytes e = 16
    /\ Models.size_bytes e <> 15.
Proof.
  vm_compute. eexists. split; [reflexivity|].
  repeat split; discriminate.
Qed.

(** The body of scenario S3, stored from an open transaction. *)
Lemma data_unstuffs_only_doubled_dots_witness :
  data_ready (Samples.cfg true false 1024 50) Samples.in_transaction
  /\ body_size Samples.s3_body <= 1024
  /\ exists e w',
      _handle_data (Samples.cfg true false 1024 50) Samples.raw_parser
        Samples.in_transaction (Samples.conn Samples.s3_script [])
      = (Return true, _reset_transaction Samples.in_transaction, w')
      /\ email_repo w' = [e]
      /\ Models.raw_message e = List.concat (map unstuff Samples.s3_body)
      /\ Models.size_bytes e = Py.len (Models.raw_message e).
Proof.
  assert (data_ready (Samples.cfg true false 1024 50) Samples.in_transaction)
    as Hready by (repeat split; discriminate).
  assert (body_size Samples.s3_body <= 1024) as Hsize
    by (vm_compute; discriminate).
  split; [exact Hready|]. split; [exact Hsize|].
  apply (proj1 (data_unstuffs_only_doubled_dots
                  (Samples.cfg true false 1024 50) Samples.raw_parser)
           Samples.in_transaction (Samples.conn Samples.s3_script [])
           Samples.s3_body dot_crlf [] Hready
           ltac:(repeat constructor) eq_refl Hsize eq_refl eq_refl).
Defined.

(** Counterexample to C3 as stated: a blob of four fields,
    x NUL alice NUL s3cret NUL extra, is not refused; its second and
    third fields are taken and the session is authenticated with 235. *)
Lemma auth_plain_accepts_four_fields :
  match Base64.b64decode_str "eABhbGljZQBzM2NyZXQAZXh0cmE=" with
  | Some raw => option_map (Py.split_on Py.NUL EmptyString) (Py.decode raw)
  | None => None
  end = Some ["x"; "alice"; "s3cret"; "extra"]
  /\ _handle_auth_plain (Samples.cfg true false 1024 50)
       ["AUTH"; "PLAIN"; "eABhbGljZQBzM2NyZXQAZXh0cmE="]
       (new_session (Samples.conn [] [])) (Samples.conn [] [])
     = (Return true,
        set_auth true "alice" (new_session (Samples.conn [] [])),
        _send "235 Authentication successful" (Samples.conn [] []))
  /\ authenticated
       (snd (fst (_handle_auth_plain (Samples.cfg true false 1024 50)
                    ["AUTH"; "PLAIN"; "eABhbGljZQBzM2NyZXQAZXh0cmE="]
                    (new_session (Samples.conn [] []))
                    (Samples.conn [] []))))
     = true.
Proof. vm_compute. repeat split. Qed.

(** The blob of scenario S1 (NUL alice NUL s3cret), on the AUTH line and on
    the continuation line; and a blob whose first byte is 0xFF, which is
    no UTF-8 and is answered 535. *)
Lemma auth_plain_uses_fields_witness :
  (Base64.b64decode_str "AGFsaWNlAHMzY3JldA=="
   = Some (Py.encode (String Py.NUL "alice" ++ String Py.NUL "s3cret")%str)
   /\ _handle_auth_plain (Samples.cfg true false 1024 50)
        ["AUTH"; "PLAIN"; "AGFsaWNlAHMzY3JldA=="]
        (new_session (Samples.conn [] []))
        (Samples.conn [Samples.ln "AGFsaWNlAHMzY3JldA=="] [])
      = credentials_checked (Samples.cfg true false 1024 50) "alice" "s3cret"
          (new_session (Samples.conn [] []))
          (Samples.conn [Samples.ln "AGFsaWNlAHMzY3JldA=="] [])
   /\ _handle_auth_plain (Samples.cfg true false 1024 50) ["AUTH"; "PLAIN"]
        (new_session (Samples.conn [] []))
        (Samples.conn [Samples.ln "AGFsaWNlAHMzY3JldA=="] [])
      = credentials_checked (Samples.cfg true false 1024 50) "alice" "s3cret"
          (new_session (Samples.conn [] []))
          (set_reader []
             (_send "334 "
                (Samples.conn [Samples.ln "AGFsaWNlAHMzY3JldA=="] []))))
  /\ (Base64.b64decode_str "/wBhbGljZQBzM2NyZXQ="
      = Some (xff :: Py.encode (String Py.NUL "alice" ++ String Py.NUL "s3cret")%str)
      /\ Py.decode
           (xff :: Py.encode (String Py.NUL "alice" ++ String Py.NUL "s3cret")%str)
         = None
      /\ _handle_auth_plain (Samples.cfg true false 1024 50)
           ["AUTH"; "PLAIN"; "/wBhbGljZQBzM2NyZXQ="]
           (new_session (Samples.conn [] [])) (Samples.conn [] [])
         = (Return true, new_session (Samples.conn [] []),
            _send "535 Authentication failed" (Samples.conn [] []))).
Proof.
  split.
  - assert (Base64.b64decode_str "AGFsaWNlAHMzY3JldA=="
            = Some (Py.encode
                      (String Py.NUL "alice" ++ String Py.NUL "s3cret")%str))
      as Hd by reflexivity.
    split; [exact Hd|].
    pose proof (auth_plain_uses_fields (Samples.cfg true false 1024 50)
                  "AGFsaWNlAHMzY3JldA==" _
                  (new_session (Samples.conn [] []))
                  (Samples.conn [Samples.ln "AGFsaWNlAHMzY3JldA=="] [])
                  Hd) as (H & _).
    destruct (H (String Py.NUL "alice" ++ String Py.NUL "s3cret")%str
                eq_refl) as (H1 & H2).
    split; [exact (H1 "AUTH" "PLAIN")|].
    exact (H2 ["AUTH"; "PLAIN"]
             (Py.encode ("AGFsaWNlAHMzY3JldA==" ++ Py.CRLF)%str)
             ("AGFsaWNlAHMzY3JldA==" ++ Py.CRLF)%str []
             ltac:(discriminate) eq_refl eq_refl eq_refl).
  - assert (Base64.b64decode_str "/wBhbGljZQBzM2NyZXQ="
            = Some (xff :: Py.encode
                             (String Py.NUL "alice"
                              ++ String Py.NUL "s3cret")%str))
      as Hd by reflexivity.
    split; [exact Hd|]. split; [reflexivity|].
    pose proof (auth_plain_uses_fields (Samples.cfg true false 1024 50)
                  "/wBhbGljZQBzM2NyZXQ=" _
                  (new_session (Samples.conn [] [])) (Samples.conn [] [])
                  Hd) as (_ & H & _).
    exact (proj1 (H eq_refl) "AUTH" "PLAIN").
Defined.

(** Counterexample to C4 as stated: after a successful STARTTLS, MAIL, RCPT
    and DATA succeed without a new EHLO.  With auth.required false they
    succeed at once, with no AUTH either; with auth.required true they
    succeed after a new AUTH alone.  Both sessions store their message. *)
Lemma starttls_then_mail_without_new_ehlo :
  (let '(st, _, w) :=
     handle (Samples.cfg false true 1024 50) Samples.raw_parser
       (Samples.conn [Samples.ln "STARTTLS"; Samples.ln "MAIL FROM:<a@x>";
                      Samples.ln "RCPT TO:<b@y>"; Samples.ln "DATA";
                      Samples.ln "hi"; Samples.ln "."; Samples.ln "QUIT"]
          [TlsOk]) in
   st = Finished
   /\ transport w = TlsWrapped
   /\ writer w = ["220 localhost SMTP Ready"; "220 Ready to start TLS";
                  "250 OK"; "250 OK";
                  "354 Start mail input; end with <CRLF>.<CRLF>";
                  "250 OK: Message accepted"; "221 Bye"]
   /\ map Models.sender (email_repo w) = ["a@x"])
  /\ (let '(st, _, w) :=
        handle (Samples.cfg true true 1024 50) Samples.raw_parser
          (Samples.conn [Samples.ln "STARTTLS";
                         Samples.ln "MAIL FROM:<a@x>";
                         Samples.ln "AUTH PLAIN AGFsaWNlAHMzY3JldA==";
                         Samples.ln "MAIL FROM:<a@x>";
                         Samples.ln "RCPT TO:<b@y>"; Samples.ln "DATA";
                         Samples.ln "hi"; Samples.ln "."; Samples.ln "QUIT"]
             [TlsOk]) in
      st = Finished
      /\ transport w = TlsWrapped
      /\ writer w = ["220 localhost SMTP Ready"; "220 Ready to start TLS";
                     "530 Authentication required";
                     "235 Authentication successful"; "250 OK"; "250 OK";
                     "354 Start mail input; end with <CRLF>.<CRLF>";
                     "250 OK: Message accepted"; "221 Bye"]
      /\ map Models.sender (email_repo w) = ["a@x"]).
Proof. vm_compute. repeat split. Qed.

(** An authenticated session in a transaction, upgraded: its MAIL is then
    answered 530. *)
Lemma starttls_success_requires_new_auth_witness :
  Config.enabled (Config.tls (Samples.cfg true true 1024 50)) = true
  /\ exists s' w',
      _handle_starttls (Samples.cfg true true 1024 50) Samples.in_transaction
        (Samples.conn [] [TlsOk]) = (Return true, s', w')
      /\ transport w' = TlsWrapped
      /\ authenticated s' = false /\ auth_user s' = EmptyString
      /\ mail_from s' = EmptyString /\ rcpt_to s' = []
      /\ _handle_mail (Samples.cfg true true 1024 50) "MAIL FROM:<x>" s' w'
         = (Return true, s', _send "530 Authentication required" w').
Proof.
  split; [reflexivity|].
  destruct (starttls_success_requires_new_auth
              (Samples.cfg true true 1024 50) Samples.raw_parser)
    as (Hup & Hgate & _).
  destruct (Hup Samples.in_transaction (Samples.conn [] [TlsOk]) []
              eq_refl eq_refl)
    as (s' & w' & H & Ht & Ha & Hu & Hm & Hr & _).
  exists s', w'. repeat split; try assumption.
  apply (proj1 (Hgate eq_refl s' "MAIL FROM:<x>" w' Ha)).
Defined.

(** With max_message_bytes = 16: the 16 bytes of S3 are stored, 17 bytes
    are answered 552. *)
Lemma data_size_boundary_witness :
  body_size Samples.s3_body = 16
  /\ body_size [Py.encode ("0123456789abc" ++ Py.CRLF)%str;
                Py.encode Py.CRLF] = 16 + 1
  /\ (exists e w',
         _handle_data (Samples.cfg true false 16 50) Samples.raw_parser
           Samples.in_transaction (Samples.conn Samples.s3_script [])
         = (Return true, _reset_transaction Samples.in_transaction, w')
         /\ email_repo w' = [e]
         /\ Models.size_bytes e = 16)
  /\ (exists s' w',
         _handle_data (Samples.cfg true false 16 50) Samples.raw_parser
           Samples.in_transaction
           (Samples.conn [Samples.ln "0123456789abc"; Samples.ln "";
                          Samples.ln "QUIT"] [])
         = (Return true, s', w')
         /\ mail_from s' = EmptyString /\ rcpt_to s' = []
         /\ email_repo w' = []).
Proof.
  split; [reflexivity|]. split; [reflexivity|].
  destruct (data_size_boundary
              (Samples.cfg true false 16 50) Samples.raw_parser
              Samples.in_transaction ltac:(repeat split; discriminate))
    as (Hfit & Hover).
  split.
  - destruct (Hfit (Samples.conn Samples.s3_script []) Samples.s3_body
                dot_crlf [] ltac:(repeat constructor) eq_refl eq_refl
                eq_refl eq_refl)
      as (e & w' & H1 & H2 & H3 & _).
    exists e, w'. repeat split; assumption.
  - destruct (Hover (Samples.conn [Samples.ln "0123456789abc"; Samples.ln "";
                                   Samples.ln "QUIT"] [])
                [Py.encode ("0123456789abc" ++ Py.CRLF)%str;
                 Py.encode Py.CRLF]
                [Samples.ln "QUIT"] ltac:(repeat constructor)
                ltac:(vm_compute; discriminate) eq_refl eq_refl)
      as (s' & w2 & K1 & _ & K2 & K3 & _ & K4 & _).
    exists s', w2. repeat split; assumption.
Defined.

(** A session with MAIL FROM:<>, a refused DATA, and a RCPT too many under
    max_recipients = 2. *)
Lemma stored_emails_have_sender_and_recipients_witness :
  (let '(st, _, w') :=
     handle (Samples.cfg false false 1024 2) Samples.raw_parser
       (Samples.conn [Samples.ln "MAIL FROM:<>"; Samples.ln "RCPT TO:<a>";
                      Samples.ln "DATA"; Samples.ln "MAIL FROM:<s@x>";
                      Samples.ln "RCPT TO:<b>"; Samples.ln "RCPT TO:<c>";
                      Samples.ln "DATA"; Samples.ln "hi"; Samples.ln ".";
                      Samples.ln "QUIT"] []) in
   st <> OutOfFuel
   /\ grown_ok (Samples.cfg false false 1024 2) [] (create_calls w')
   /\ grown_ok (Samples.cfg false false 1024 2) [] (email_repo w'))
  /\ _handle_mail (Samples.cfg false false 1024 2) "MAIL FROM:<>"
       Samples.in_transaction (Samples.conn [] [])
     = (Return true, set_mail_from EmptyString Samples.in_transaction,
        _send "250 OK" (Samples.conn [] []))
  /\ _handle_data (Samples.cfg false false 1024 2) Samples.raw_parser
       (set_mail_from EmptyString Samples.in_transaction) (Samples.conn [] [])
     = (Return true, set_mail_from EmptyString Samples.in_transaction,
        _send "503 Bad sequence of commands" (Samples.conn [] []))
  /\ _handle_rcpt (Samples.cfg false false 1024 2) "RCPT TO:<c>"
       (set_rcpt_to ["a"; "b"] Samples.in_transaction) (Samples.conn [] [])
     = (Return true, set_rcpt_to ["a"; "b"] Samples.in_transaction,
        _send "452 Too many recipients" (Samples.conn [] [])).
Proof.
  pose proof (stored_emails_have_sender_and_recipients
                (Samples.cfg false false 1024 2) Samples.raw_parser
                (Samples.conn [Samples.ln "MAIL FROM:<>";
                               Samples.ln "RCPT TO:<a>"; Samples.ln "DATA";
                               Samples.ln "MAIL FROM:<s@x>";
                               Samples.ln "RCPT TO:<b>";
                               Samples.ln "RCPT TO:<c>"; Samples.ln "DATA";
                               Samples.ln "hi"; Samples.ln ".";
                               Samples.ln "QUIT"] [])
                "RCPT TO:<c>" Samples.in_transaction (Samples.conn [] []))
    as (H1 & H2 & _).
  split; [exact H1|]. split; [exact (H2 eq_refl)|].
  split.
  - apply (proj1 (proj1 (proj2 (proj2
             (stored_emails_have_sender_and_recipients
                (Samples.cfg false false 1024 2) Samples.raw_parser
                (Samples.conn [] []) "RCPT TO:<c>"
                (set_mail_from EmptyString Samples.in_transaction)
                (Samples.conn [] [])))) (or_introl eq_refl)) eq_refl).
  - apply (proj2 (proj2 (proj2
             (stored_emails_have_sender_and_recipients
                (Samples.cfg false false 1024 2) Samples.raw_parser
                (Samples.conn [] []) "RCPT TO:<c>"
                (set_rcpt_to ["a"; "b"] Samples.in_transaction)
                (Samples.conn [] [])))) eq_refl).
    vm_compute. discriminate.
Defined.

(** The S3 session again: the stored message resets the transaction and
    keeps who is logged in. *)
Lemma rset_and_commit_reset_only_transaction_witness :
  exists o s' w' e,
    _handle_data (Samples.cfg true false 1024 50) Samples.raw_parser
      Samples.in_transaction (Samples.conn Samples.s3_script [])
    = (o, s', w')
    /\ email_repo w' = [] ++ [e]
    /\ mail_from s' = EmptyString /\ rcpt_to s' = []
    /\ authenticated s' = true
    /\ auth_user s' = "alice"
    /\ client_ip s' = "10.0.0.1".
Proof.
  eexists. eexists. eexists. eexists.
  split; [reflexivity|]. split; [reflexivity|].
  apply (proj1 (rset_and_commit_reset_only_transaction
                  (Samples.cfg true false 1024 50) Samples.raw_parser
                  Samples.in_transaction (Samples.conn Samples.s3_script [])
                  _ _ _ _ eq_refl eq_refl)).
Defined.

(** Counterexample to C8 as stated: with TLS enabled, the EHLO that
    follows a successful STARTTLS is served over the TLS-wrapped transport
    and still advertises 250-STARTTLS. *)
Lemma ehlo_after_starttls_advertises_starttls :
  let '(st, _, w) :=
    handle (Samples.cfg true true 1024 50) Samples.raw_parser
      (Samples.conn [Samples.ln "STARTTLS"; Samples.ln "EHLO client";
                     Samples.ln "QUIT"] [TlsOk]) in
  st = Finished
  /\ transport w = TlsWrapped
  /\ writer w = ["220 localhost SMTP Ready"; "220 Ready to start TLS";
                 "250-localhost Hello"; "250-AUTH PLAIN LOGIN";
                 "250-STARTTLS"; "250-SIZE 1024"; "250 OK"; "221 Bye"].
Proof. vm_compute. repeat split. Qed.

(** A second MAIL, in lower case, with a blank before the address and a
    SIZE parameter after it, in a transaction that has a sender and a
    recipient. *)
Lemma mail_overwrites_sender_keeps_recipients_witness :
  mail_from Samples.in_transaction = "a@x"
  /\ rcpt_to Samples.in_transaction = ["b@y"]
  /\ let '(o, s', w') :=
       _handle_mail (Samples.cfg true false 1024 50)
         "mail from: <c@z> SIZE=42"
         Samples.in_transaction (Samples.conn [] []) in
     o = Return true
     /\ mail_from s' = "c@z"
     /\ rcpt_to s' = ["b@y"]
     /\ authenticated s' = true /\ auth_user s' = "alice"
     /\ writer w' = ["250 OK"].
Proof.
  split; [reflexivity|]. split; [reflexivity|].
  pose proof (mail_overwrites_sender_keeps_recipients
                (Samples.cfg true false 1024 50)
                "mail from: <c@z> SIZE=42"
                Samples.in_transaction (Samples.conn [] [])
                eq_refl ltac:(discriminate)) as H.
  destruct (_handle_mail (Samples.cfg true false 1024 50)
              "mail from: <c@z> SIZE=42"
              Samples.in_transaction (Samples.conn [] [])) as [[o s'] w'].
  destruct H as (Ho & Hr & _ & Ha & Hu & _ & Hm & _).
  destruct (Hm "mail from:" " " "c@z" " SIZE=42"
              eq_refl eq_refl eq_refl eq_refl
              (or_intror (ex_intro _ "SIZE=42" eq_refl)) eq_refl)
    as [Hmf Hw].
  split; [exact Ho|]. split; [exact Hmf|]. split; [exact Hr|].
  split; [exact Ha|]. split; [exact Hu | exact Hw].
Defined.



(** ** Further properties of the session *)

Section Further.

Variable config : Config.SMTPConfig.
Variable parse_message : list byte -> str * str.

Local Abbreviation max_bytes := (Config.max_message_bytes config).
Local Abbreviation non_final := (fun l : list byte => end_of_data l = false).

(** *** The body loop *)

Lemma stuff_not_final (line : list byte) : end_of_data (stuff line) = false.
Proof.
  destruct line as [|b tail]; [reflexivity|].
  destruct b; reflexivity.
Qed.

Lemma unstuff_stuff (line : list byte) : unstuff (stuff line) = line.
Proof.
  destruct line as [|b tail]; [reflexivity|].
  destruct b; reflexivity.
Qed.

Lemma map_unstuff_stuff (lines : list (list byte)) :
  map unstuff (map stuff lines) = lines.
Proof.
  induction lines as [|l lines IH]; cbn; [reflexivity|].
  now rewrite unstuff_stuff, IH.
Qed.

(** The loop leaves a tail of the script. *)
Lemma read_body_tail max script :
  forall data total r rest,
    read_body max script data total = (r, rest) ->
    exists k, rest = skipn k script.
Proof.
  induction script as [|x script IH]; intros data total r rest; cbn.
  - destruct (total >? max); intro H; inversion H; now exists 0%nat.
  - destruct x as [line| |];
      try (intro H; inversion H; subst; now exists 1%nat).
    destruct (Py.eqb_b line dot_crlf || Py.eqb_b line dot_lf);
      [intro H; inversion H; subst; now exists 1%nat|].
    match goal with
    | |- context [if ?b then _ else _] => destruct b
    end; [intro H; inversion H; subst; now exists 1%nat|].
    intro H. apply IH in H. destruct H as [k Hk]. now exists (S k).
Qed.

(** A body read to its end is empty or within the limit, and [total] is
    its size all along. *)
Lemma read_body_end_size max script :
  forall data total d rest,
    read_body max script data total = (BodyEnd d, rest) ->
    total = Py.len (List.concat data) ->
    data = [] \/ total <= max ->
    d = [] \/ Py.len (List.concat d) <= max.
Proof.
  induction script as [|x script IH]; intros data total d rest.
  - cbn. destruct (total >? max); discriminate.
  - destruct x as [line| |]; try discriminate.
    destruct (end_of_data line) eqn:El.
    + cbn [read_body]. unfold end_of_data in El. rewrite El.
      intros H Ht Hd. inversion H; subst. destruct Hd; auto.
    + rewrite read_body_step by assumption.
      destruct (total + Py.len (unstuff line) >? max) eqn:E; [discriminate|].
      intros H Ht Hd. apply (IH _ _ _ _ H).
      * rewrite concat_app, len_app. cbn. rewrite app_nil_r. now rewrite Ht.
      * right. rewrite Z.gtb_ltb in E. now apply Z.ltb_ge in E.
Qed.

(** An exception that ends the loop was in the script. *)
Lemma read_body_raise max script :
  forall data total e rest,
    read_body max script data total = (BodyRaise e, rest) ->
    In (RRaise e) script.
Proof.
  induction script as [|x script IH]; intros data total e rest; cbn.
  - destruct (total >? max); discriminate.
  - destruct x as [line| |e0]; try discriminate.
    + destruct (Py.eqb_b line dot_crlf || Py.eqb_b line dot_lf);
        [discriminate|].
      match goal with
      | |- context [if ?b then _ else _] => destruct b
      end; [discriminate|].
      intro H. right. now apply (IH _ _ _ _ H).
    + intro H. inversion H; subst. now left.
Qed.

(** *** What a handler call keeps *)

Lemma fold_send_eq (lines : list str) :
  forall w,
    fold_left (fun w ext => _send ext w) lines w
    = set_writer (writer w ++ lines) w.
Proof.
  induction lines as [|l lines IH]; intro w.
  - destruct w. cbn. now rewrite app_nil_r.
  - cbn [fold_left]. rewrite IH. unfold _send, set_writer. cbn.
    now rewrite <- app_assoc.
Qed.

Ltac io_goal :=
  match goal with
  | |- _ /\ _ => split
  | |- exists out, out <> [] /\ writer _ = _ =>
      cbn; rewrite <- ?app_assoc; eexists; (split; [|reflexivity]);
      cbn; discriminate
  | H : reader _ = _ |- exists k, reader _ = skipn k _ =>
      cbn; rewrite H;
      first [now exists 0%nat | now exists 1%nat | now exists 2%nat]
  | |- exists k, reader _ = skipn k _ => now exists 0%nat
  | H : handshakes _ = _ |- exists k, handshakes _ = skipn k _ =>
      cbn; rewrite H; first [now exists 0%nat | now exists 1%nat]
  | |- exists k, handshakes _ = skipn k _ => now exists 0%nat
  | |- (closed _ = closed _ /\ _) \/ _ => left
  | |- _ = _ \/ _ = _ => first [left; reflexivity | right; reflexivity]
  | |- _ = _ => reflexivity
  end.

Ltac io_solve := unfold io_step; repeat io_goal.

Ltac quiet_store :=
  unfold store_step; left; repeat split; reflexivity.

Ltac outcome_solve :=
  unfold outcome_step; cbn;
  first [exact Logic.I
        | eexists; first [left; reflexivity | right; reflexivity]
        | left; reflexivity
        | right; left; reflexivity
        | right; right;
          match goal with
          | H : reader _ = _ |- _ => rewrite H
          end; left; reflexivity].

(** A handler that ended in the explicit result [(o, s', w')]. *)
Ltac frame_with tac :=
  unfold handler_frame; cbn [fst snd];
  split; [solve [tac]
         | split; [solve [io_solve]
                  | split; [solve [quiet_store] | solve [outcome_solve]]]].

Lemma frame_ehlo line s w :
  handler_frame config parse_message s w (_handle_ehlo config line s w).
Proof.
  unfold _handle_ehlo. rewrite fold_send_eq.
  unfold handler_frame. cbn [fst snd].
  split; [constructor|split; [|split; [quiet_store|exact Logic.I]]].
  unfold io_step. cbn.
  split; [reflexivity|]. split.
  - eexists. split; [|reflexivity].
    destruct (Config.required (Config.auth config) || _);
      destruct (Config.enabled (Config.tls config)); discriminate.
  - split; [now exists 0%nat|]. split; [now left|].
    left. split; [reflexivity | now exists 0%nat].
Qed.

Lemma eqb_pair_true (user pass u0 p0 : str) :
  Py.eqb user u0 && Py.eqb pass p0 = true -> user = u0.
Proof.
  intro H. apply andb_prop in H. destruct H as [H _].
  now apply str_eqb_eq.
Qed.

Lemma frame_auth_plain_check credentials s w :
  handler_frame config parse_message s w
    (_handle_auth_plain_check config credentials s w).
Proof.
  unfold _handle_auth_plain_check.
  destruct (Base64.b64decode_str credentials) as [raw|];
    [|frame_with constructor].
  destruct (Py.decode raw) as [decoded|]; [|frame_with constructor].
  cbv zeta.
  destruct (Py.len _ >=? 3); [|destruct (Py.len _ =? 2)];
    try match goal with
        | |- context [if ?b then _ else _] => destruct b eqn:E
        end;
    try (frame_with constructor);
    apply eqb_pair_true in E; rewrite E; frame_with constructor.
Qed.

Lemma frame_after_send s w m r :
  handler_frame config parse_message s (_send m w) r ->
  handler_frame config parse_message s w r.
Proof.
  destruct r as [[o s'] w'].
  unfold handler_frame, io_step, store_step, outcome_step.
  cbn.
  intros (Hs & (Hp & (out & Ho & Hw) & Hh & Ht & Hrd) & Hst & Hout).
  split; [exact Hs|]. split; [|split; [exact Hst | exact Hout]].
  split; [exact Hp|]. split.
  - exists (m :: out). split; [discriminate|].
    rewrite Hw, <- app_assoc. reflexivity.
  - split; [exact Hh|]. split; [exact Ht | exact Hrd].
Qed.

Lemma frame_after_read s w m r0 rest r :
  reader w = r0 :: rest ->
  handler_frame config parse_message s (set_reader rest (_send m w)) r ->
  handler_frame config parse_message s w r.
Proof.
  intro E. destruct r as [[o s'] w'].
  unfold handler_frame, io_step, store_step, outcome_step.
  cbn.
  intros (Hs & (Hp & (out & Ho & Hw) & Hh & Ht & Hrd) & Hst & Hout).
  split; [exact Hs|]. split; [|split; [exact Hst|]].
  - split; [exact Hp|]. split.
    + exists (m :: out). split; [discriminate|].
      rewrite Hw, <- app_assoc. reflexivity.
    + split; [exact Hh|]. split; [exact Ht|].
      rewrite E.
      destruct Hrd as [[Hc (k & Hk)] | [Hc (e & reason & k & Hk & Hin)]].
      * left. split; [exact Hc|]. now exists (S k).
      * right. split; [exact Hc|]. now exists e, reason, (S k).
  - destruct o as [[|]|e|]; auto.
    rewrite E. destruct Hout as [H | [H | H]]; auto.
    right. right. now right.
Qed.

Lemma frame_auth_plain parts s w :
  handler_frame config parse_message s w (_handle_auth_plain config parts s w).
Proof.
  unfold _handle_auth_plain.
  destruct (Py.len parts =? 3); [apply frame_auth_plain_check|].
  unfold readline. cbn [_send set_writer reader].
  destruct (reader w) as [|[line| |e] rest] eqn:E.
  - change (Py.decode []) with (Some EmptyString).
    apply (frame_after_send s w "334 "). apply frame_auth_plain_check.
  - destruct (Py.decode line) as [text|].
    + apply (frame_after_read s w "334 " _ rest _ E).
      apply frame_auth_plain_check.
    + frame_with constructor.
  - frame_with constructor.
  - frame_with constructor.
Qed.

(** The end of AUTH LOGIN once both lines are decoded. *)
Lemma frame_login_checked user pass s w w2 :
  (forall s', session_change config s s' ->
     forall m,
       handler_frame config parse_message s w (Return true, s', _send m w2)) ->
  handler_frame config parse_message s w
    (if Py.eqb user (Config.username (Config.auth config))
        && Py.eqb pass (Config.password (Config.auth config))
     then (Return true, set_auth true user s,
           _send "235 Authentication successful" w2)
     else (Return true, s, _send "535 Authentication failed" w2)).
Proof.
  intro K.
  destruct (Py.eqb user (Config.username (Config.auth config))
            && Py.eqb pass (Config.password (Config.auth config))) eqn:Eb.
  - apply eqb_pair_true in Eb. rewrite Eb. apply K. constructor.
  - apply K. constructor.
Qed.

Lemma frame_auth_login s w :
  handler_frame config parse_message s w (_handle_auth_login config s w).
Proof.
  unfold _handle_auth_login, readline. cbn [_send set_writer reader].
  destruct (reader w) as [|[line| |e] rest] eqn:E;
    try (frame_with constructor).
  - destruct (Base64.b64decode (Py.strip_b [])) as [u|];
      [|frame_with constructor].
    destruct (Py.decode u) as [user|]; [|frame_with constructor].
    cbn [_send set_writer reader set_reader]. rewrite E.
    destruct (Base64.b64decode (Py.strip_b [])) as [p|];
      [|frame_with constructor].
    destruct (Py.decode p) as [pass|]; [|frame_with constructor].
    apply frame_login_checked. intros s' Hc m.
    frame_with ltac:(exact Hc).
  - destruct (Base64.b64decode (Py.strip_b line)) as [u|];
      [|frame_with constructor].
    destruct (Py.decode u) as [user|]; [|frame_with constructor].
    cbn [_send set_writer reader set_reader].
    destruct rest as [|[line2| |e2] rest2];
      try (frame_with constructor).
    + destruct (Base64.b64decode (Py.strip_b [])) as [p|];
        [|frame_with constructor].
      destruct (Py.decode p) as [pass|]; [|frame_with constructor].
      apply frame_login_checked. intros s' Hc m.
      frame_with ltac:(exact Hc).
    + destruct (Base64.b64decode (Py.strip_b line2)) as [p|];
        [|frame_with constructor].
      destruct (Py.decode p) as [pass|]; [|frame_with constructor].
      apply frame_login_checked. intros s' Hc m.
      frame_with ltac:(exact Hc).
Qed.

Lemma frame_auth line s w :
  handler_frame config parse_message s w (_handle_auth config line s w).
Proof.
  unfold _handle_auth. cbv zeta.
  destruct (Py.len (Py.split line) <? 2); [frame_with constructor|].
  destruct (negb _); [frame_with constructor|].
  destruct (Py.eqb _ "PLAIN");
    [apply frame_auth_plain | apply frame_auth_login].
Qed.

Lemma frame_mail line s w :
  handler_frame config parse_message s w (_handle_mail config line s w).
Proof.
  unfold _handle_mail. destruct (auth_gate config s) eqn:Hg;
    [frame_with constructor|].
  cbv zeta. destruct (Py.find "FROM:" (Py.upper line));
    [|frame_with constructor].
  frame_with ltac:(now apply change_sender).
Qed.

Lemma frame_rcpt line s w :
  handler_frame config parse_message s w (_handle_rcpt config line s w).
Proof.
  unfold _handle_rcpt. destruct (auth_gate config s) eqn:Hg;
    [frame_with constructor|].
  destruct (Py.len (rcpt_to s) >=? Config.max_recipients config) eqn:E;
    [frame_with constructor|].
  cbv zeta. destruct (Py.find "TO:" (Py.upper line));
    [|frame_with constructor].
  rewrite Z.geb_leb in E. apply Z.leb_gt in E.
  frame_with ltac:(now apply change_recipient).
Qed.

Lemma frame_rset s w :
  handler_frame config parse_message s w (_handle_rset s w).
Proof. unfold _handle_rset. frame_with constructor. Qed.

Lemma frame_starttls s w :
  handler_frame config parse_message s w (_handle_starttls config s w).
Proof.
  unfold _handle_starttls.
  destruct (Config.enabled (Config.tls config)) eqn:He; cbn [negb];
    [|frame_with constructor].
  unfold start_tls. cbn [_send set_writer handshakes].
  destruct (handshakes w) as [|[|reason|e reason] later] eqn:E;
    try (frame_with constructor).
  - frame_with ltac:(now apply change_upgrade).
  - unfold handler_frame. cbn [fst snd].
    split; [constructor|]. split; [|split; [quiet_store | exact Logic.I]].
    unfold io_step. cbn. split; [reflexivity|]. split.
    + eexists. split; [|rewrite <- app_assoc; reflexivity]. discriminate.
    + split; [rewrite E; now exists 1%nat|]. split; [now left|].
      right. split; [reflexivity|]. exists e, reason, 0%nat.
      split; [reflexivity|]. rewrite E. now left.
Qed.

Lemma io_step_intro w w' out k :
  peername w' = peername w -> closed w' = closed w ->
  out <> [] -> writer w' = writer w ++ out ->
  reader w' = skipn k (reader w) ->
  handshakes w' = handshakes w -> transport w' = transport w ->
  io_step w w'.
Proof.
  intros Hp Hc Ho Hw Hr Hh Ht. unfold io_step.
  split; [exact Hp|]. split; [now exists out|].
  split; [rewrite Hh; now exists 0%nat|]. split; [now left|].
  left. split; [exact Hc | now exists k].
Qed.

Lemma frame_data s w :
  handler_frame config parse_message s w
    (_handle_data config parse_message s w).
Proof.
  unfold _handle_data.
  destruct (auth_gate config s) eqn:Hg; [frame_with constructor|].
  destruct (str_empty (mail_from s) || list_empty (rcpt_to s)) eqn:Hm;
    [frame_with constructor|].
  assert (mail_from s <> EmptyString /\ rcpt_to s <> []) as [Hmf Hrt].
  { destruct (mail_from s); [discriminate|].
    destruct (rcpt_to s); [discriminate|]. split; congruence. }
  cbn [_send set_writer reader].
  destruct (read_body max_bytes (reader w) [] 0) as [r rest] eqn:Hb.
  destruct (read_body_tail _ _ _ _ _ _ Hb) as [k Hk].
  assert (forall o s' m,
             session_change config s s' ->
             outcome_step config s w
               (o, s',
                _send m
                  (set_reader rest
                     (_send "354 Start mail input; end with <CRLF>.<CRLF>"
                        w))) ->
             handler_frame config parse_message s w
               (o, s',
                _send m
                  (set_reader rest
                     (_send "354 Start mail input; end with <CRLF>.<CRLF>"
                        w)))) as Said.
  { intros o s' m Hs Ho. unfold handler_frame. cbn [fst snd].
    split; [exact Hs|split; [|split; [quiet_store|exact Ho]]].
    apply (io_step_intro _ _
             ["354 Start mail input; end with <CRLF>.<CRLF>"; m] k);
      cbn; auto; [discriminate|now rewrite <- app_assoc]. }
  destruct r as [d| | |e|].
  - pose proof (read_body_end_size _ _ _ _ _ _ Hb eq_refl (or_introl eq_refl))
      as Hsize.
    unfold create. cbn [db_faults set_reader _send set_writer].
    assert (handed_from config parse_message s
              (build_email parse_message (List.concat d) s
                 (set_reader rest
                    (_send "354 Start mail input; end with <CRLF>.<CRLF>"
                       w)))) as Hh.
    { unfold handed_from. cbn. repeat split; auto.
      destruct Hsize as [Hd | Hd]; [left; now rewrite Hd | now right]. }
    destruct (db_faults w) as [|[|] faults] eqn:Ef;
      unfold handler_frame; cbn [fst snd];
      (split; [|split; [|split; [|outcome_solve]]]).
    + constructor.
    + apply (io_step_intro _ _
               ["354 Start mail input; end with <CRLF>.<CRLF>";
                "250 OK: Message accepted"] k);
        cbn; auto; [discriminate|now rewrite <- app_assoc].
    + right. eexists. split; [exact Hh|]. cbn. rewrite Ef. cbn.
      repeat split. left. repeat split.
    + constructor.
    + apply (io_step_intro _ _
               ["354 Start mail input; end with <CRLF>.<CRLF>"] k);
        cbn; auto; discriminate.
    + right. eexists. split; [exact Hh|]. cbn. rewrite Ef. cbn.
      repeat split. right. repeat split.
    + constructor.
    + apply (io_step_intro _ _
               ["354 Start mail input; end with <CRLF>.<CRLF>";
                "250 OK: Message accepted"] k);
        cbn; auto; [discriminate|now rewrite <- app_assoc].
    + right. eexists. split; [exact Hh|]. cbn. rewrite Ef. cbn.
      repeat split. left. repeat split.
  - apply Said; [constructor | exact Logic.I].
  - apply Said; [constructor | outcome_solve].
  - unfold handler_frame. cbn [fst snd].
    split; [constructor|split; [|split; [quiet_store|]]].
    + apply (io_step_intro _ _
               ["354 Start mail input; end with <CRLF>.<CRLF>"] k);
        cbn; auto; discriminate.
    + unfold outcome_step. right. right.
      apply (read_body_raise _ _ _ _ _ _ Hb).
  - assert (rest = []) as Hrest.
    { clear - Hb. revert Hb. generalize (@nil (list byte)) 0.
      induction (reader w) as [|x script IH]; intros data total; cbn.
      - destruct (total >? max_bytes); intro H; now inversion H.
      - destruct x as [line| |e]; try discriminate.
        destruct (Py.eqb_b line dot_crlf || Py.eqb_b line dot_lf);
          [discriminate|].
        match goal with
        | |- context [if ?b then _ else _] => destruct b
        end; [discriminate|]. apply IH. }
    unfold handler_frame. cbn [fst snd].
    split; [constructor|split; [|split; [quiet_store|]]].
    + apply (io_step_intro _ _
               ["354 Start mail input; end with <CRLF>.<CRLF>"] k);
        cbn; auto; discriminate.
    + unfold outcome_step, data_ready. cbn. auto.
Qed.

Lemma frame_process_command line s w :
  handler_frame config parse_message s w
    (_process_command config parse_message line s w).
Proof.
  unfold _process_command. cbv zeta.
  repeat match goal with
         | |- context [if ?b then _ else _] => destruct b
         end;
    auto using frame_ehlo, frame_auth, frame_mail, frame_rcpt, frame_data,
      frame_rset, frame_starttls;
    frame_with constructor.
Qed.

(** *** What a whole run keeps *)

Lemma grown_by_refl P l : grown_by P l l.
Proof. exists []. now rewrite app_nil_r. Qed.

Lemma grown_by_trans P l1 l2 l3 :
  grown_by P l1 l2 -> grown_by P l2 l3 -> grown_by P l1 l3.
Proof.
  intros (n1 & H1 & F1) (n2 & H2 & F2). exists (n1 ++ n2).
  rewrite H2, H1, app_assoc. split; [reflexivity|].
  apply Forall_app. split; assumption.
Qed.

Lemma grown_by_one (P : Models.Email -> Prop) l e :
  P e -> grown_by P l (l ++ [e]).
Proof.
  intro H. exists [e]. split; [reflexivity|].
  constructor; [exact H | constructor].
Qed.

Lemma in_skipn {A} (x : A) k l : In x (skipn k l) -> In x l.
Proof.
  revert l. induction k as [|k IH]; intros [|y l]; cbn; auto.
Qed.

Lemma run_step_refl P w : run_step P w w.
Proof.
  unfold run_step. repeat split; auto using grown_by_refl.
  exists []. now rewrite app_nil_r.
Qed.

Lemma run_step_trans P w1 w2 w3 :
  run_step P w1 w2 -> run_step P w2 w3 -> run_step P w1 w3.
Proof.
  intros (Hk1 & He1 & Hp1 & (o1 & Hw1) & Ht1 & Hx1)
         (Hk2 & He2 & Hp2 & (o2 & Hw2) & Ht2 & Hx2).
  unfold run_step.
  split; [now apply (grown_by_trans P _ (create_calls w2))|].
  split; [now apply (grown_by_trans P _ (email_repo w2))|].
  split; [congruence|]. split; [|split].
  - exists (o1 ++ o2). rewrite Hw2, Hw1, app_assoc. reflexivity.
  - destruct Ht2 as [Ht2 | Ht2]; [rewrite Ht2; exact Ht1 | now right].
  - intros e H. apply Hx1, Hx2, H.
Qed.

Lemma run_step_readline P w r w1 :
  readline w = (r, w1) -> run_step P w w1.
Proof.
  unfold readline. destruct (reader w) as [|x rest] eqn:E;
    intro H; inversion H; subst; [apply run_step_refl|].
  unfold run_step, raisable. cbn. rewrite E.
  repeat split; auto using grown_by_refl.
  - exists []. now rewrite app_nil_r.
  - intros e [Hin | Hin]; [left; now right | now right].
Qed.

Lemma run_step_send P w m : run_step P w (_send m w).
Proof.
  unfold run_step. cbn. repeat split; auto using grown_by_refl.
  now exists [m].
Qed.

(** A handler call is a step of the run when the records built in its
    state satisfy [P]. *)
Lemma run_step_of_frame (P : Models.Email -> Prop) s w o s' w' :
  (forall e, handed_from config parse_message s e -> P e) ->
  handler_frame config parse_message s w (o, s', w') ->
  run_step P w w'.
Proof.
  intros HP (_ & (Hp & (out & _ & Hw) & (kh & Hh) & Ht & Hrd) & Hst & _).
  unfold run_step. cbn [fst snd] in *.
  assert (grown_by P (create_calls w) (create_calls w')
          /\ grown_by P (email_repo w) (email_repo w')) as [Gk Ge].
  { destruct Hst as [(Hk & He & _) | (e & Hh0 & Hk & _ & Hcase)].
    - rewrite Hk, He. split; apply grown_by_refl.
    - rewrite Hk. split; [apply grown_by_one; auto|].
      destruct Hcase as [(_ & He & _) | (_ & He & _)]; rewrite He;
        [apply grown_by_one; auto | apply grown_by_refl]. }
  split; [exact Gk|]. split; [exact Ge|]. split; [exact Hp|].
  split; [now exists out|]. split; [exact Ht|].
  intros e [Hin | (reason & Hin)].
  - destruct Hrd as [[_ (k & Hk)] | [_ (e0 & reason & k & Hk & Hin0)]];
      rewrite Hk in Hin.
    + left. now apply (in_skipn _ k).
    + destruct Hin as [Heq | Hin].
      * inversion Heq; subst. right. now exists reason.
      * left. now apply (in_skipn _ k).
  - right. exists reason. rewrite Hh in Hin. now apply (in_skipn _ kh).
Qed.

(** Whatever is kept by every change of the session state and makes the
    records built in such a state satisfy [P], is kept over the whole
    command loop, with the connection's frame.  A run that hangs has
    exhausted the reader; one that fails does so with an error of the
    database, with the [UnicodeDecodeError] of a continuation line, or
    with an exception the connection had in store, and never with a
    connection reset. *)
Lemma command_loop_frame (Inv : session -> Prop) (P : Models.Email -> Prop) :
  (forall s s', Inv s -> session_change config s s' -> Inv s') ->
  (forall s e, Inv s -> handed_from config parse_message s e -> P e) ->
  forall fuel s w,
    Inv s ->
    let '(st, s', w') := command_loop config parse_message fuel s w in
    Inv s' /\ run_step P w w'
    /\ match st with
       | Hung => reader w' = []
       | Failed e =>
           e <> ConnectionResetError
           /\ (e = DatabaseError \/ e = UnicodeDecodeError \/ raisable w e)
       | _ => True
       end.
Proof.
  intros HI HP. induction fuel as [|fuel IH]; intros s w Hs.
  - cbn. auto using run_step_refl.
  - cbn [command_loop].
    destruct (readline w) as [r w1] eqn:E.
    pose proof (run_step_readline P w r w1 E) as Hread.
    assert (forall st (w' : world),
               match st with
               | Hung => reader w' = []
               | Failed e =>
                   e <> ConnectionResetError
                   /\ (e = DatabaseError \/ e = UnicodeDecodeError
                       \/ raisable w1 e)
               | _ => True
               end ->
               run_step P w w1 ->
               match st with
               | Hung => reader w' = []
               | Failed e =>
                   e <> ConnectionResetError
                   /\ (e = DatabaseError \/ e = UnicodeDecodeError
                       \/ raisable w e)
               | _ => True
               end) as Lift.
    { intros st w' Hst (_ & _ & _ & _ & _ & Hx).
      destruct st as [|e| |]; auto.
      destruct Hst as (Hne & [H | [H | H]]); auto. }
    destruct r as [line| |e].
    + destruct (list_empty line); [auto|].
      destruct (str_empty (Py.strip (Py.decode_replace line))).
      * specialize (IH s w1 Hs).
        destruct (command_loop config parse_message fuel s w1)
          as [[st s'] w'].
        destruct IH as (Hs' & Hrun & Hst).
        split; [exact Hs'|split; [|now apply (Lift st w')]].
        now apply (run_step_trans P w w1 w').
      * pose proof (frame_process_command
                      (Py.strip (Py.decode_replace line)) s w1) as Hframe.
        destruct (_process_command config parse_message
                    (Py.strip (Py.decode_replace line)) s w1)
          as [[o s2] w2].
        assert (run_step P w1 w2) as Hrun12.
        { apply (run_step_of_frame P s w1 o s2 w2); [|exact Hframe].
          intros e He. now apply (HP s). }
        assert (run_step P w w2) as Hrun2
          by (now apply (run_step_trans P w w1 w2)).
        destruct Hframe as (Hchange & _ & Hstore & Hout).
        cbn [fst snd] in Hchange.
        assert (Inv s2) as Hs2 by (now apply (HI s)).
        destruct o as [[|]|e|].
        -- specialize (IH s2 w2 Hs2).
           destruct (command_loop config parse_message fuel s2 w2)
             as [[st s'] w'].
           destruct IH as (Hs' & Hrun & Hst).
           split; [exact Hs'|split].
           ++ now apply (run_step_trans P w w2 w').
           ++ apply (Lift st w'); [|exact Hread].
              destruct Hrun12 as (_ & _ & _ & _ & _ & Hx).
              destruct st as [|e| |]; auto.
              destruct Hst as (Hne & [H | [H | H]]); auto.
        -- split; [exact Hs2|split; [exact Hrun2 | exact Logic.I]].
        -- assert (e = DatabaseError \/ e = UnicodeDecodeError
                   \/ raisable w e) as He.
           { destruct Hread as (_ & _ & _ & _ & _ & Hx).
             unfold outcome_step in Hout.
             destruct Hout as [H | [H | H]]; auto.
             right. right. apply Hx. now left. }
           destruct e; (split; [exact Hs2|split; [exact Hrun2|]]);
             first [exact Logic.I | split; [discriminate | exact He]].
        -- split; [exact Hs2|split; [exact Hrun2|]]. apply Hout.
    + split; [exact Hs|split; [|exact Logic.I]].
      apply (run_step_trans P w w1); [exact Hread | apply run_step_send].
    + assert (raisable w e) as He.
      { left. unfold readline in E.
        destruct (reader w) as [|x rest]; inversion E; subst. now left. }
      destruct e; (split; [exact Hs|split; [exact Hread|]]);
        first [exact Logic.I | split; [discriminate | auto]].
Qed.

(** The same over [handle], from the state of a new session. *)
Lemma handle_frame (Inv : session -> Prop) (P : Models.Email -> Prop) w :
  (forall s s', Inv s -> session_change config s s' -> Inv s') ->
  (forall s e, Inv s -> handed_from config parse_message s e -> P e) ->
  Inv (new_session w) ->
  let '(st, s', w') := handle config parse_message w in
  Inv s'
  /\ grown_by P (create_calls w) (create_calls w')
  /\ grown_by P (email_repo w) (email_repo w')
  /\ (exists out, writer w' = writer w ++ greeting config :: out)
  /\ peername w' = peername w
  /\ match st with
     | Hung => reader w' = []
     | Failed e =>
         closed w' = true
         /\ e <> ConnectionResetError
         /\ (e = DatabaseError \/ e = UnicodeDecodeError \/ raisable w e)
     | _ => closed w' = true
     end.
Proof.
  intros HI HP H0. unfold handle. cbv zeta. fold (greeting config).
  pose proof (command_loop_frame Inv P HI HP
                (S (List.length (reader (_send (greeting config) w))))
                (new_session w) (_send (greeting config) w) H0)
    as H.
  destruct (command_loop _ _ _ _ _) as [[st s'] w'].
  destruct H as (Hs & (Gk & Ge & Hp & (out & Hw) & _) & Hst).
  cbn in Gk, Ge, Hp, Hw.
  assert (exists out0, writer w' = writer w ++ greeting config :: out0) as Hw'
    by (exists out; rewrite Hw, <- app_assoc; reflexivity).
  destruct st as [|e| |]; cbn; repeat split; auto; apply Hst.
Qed.

(** X1: every Email a session hands to the store, and so every Email it
    stores, has size_bytes equal to the length of raw_message, and that
    size is within max_message_bytes unless the message is empty (an empty
    body is never measured against the limit, which matters only for a
    negative limit). *)
Theorem handed_emails_are_sized w :
  let '(_, _, w') := handle config parse_message w in
  grown_by (email_sized config) (create_calls w) (create_calls w')
  /\ grown_by (email_sized config) (email_repo w) (email_repo w').
Proof.
  pose proof (handle_frame (fun _ => True) (email_sized config) w) as H.
  destruct (handle config parse_message w) as [[st s'] w'].
  destruct H as (_ & Gk & Ge & _); auto.
  intros s e _ (_ & _ & _ & _ & _ & _ & _ & _ & Hsz & _ & _ & _ & Hlim).
  unfold email_sized. rewrite Hsz. split; [reflexivity|]. split.
  - intro Hne. destruct Hlim; [contradiction|assumption].
  - intro H0. destruct Hlim as [Hnil | Hle]; [|assumption].
    rewrite Hnil. exact H0.
Qed.

Lemma auth_consistent_change s s' :
  auth_consistent config s -> session_change config s s' ->
  auth_consistent config s'.
Proof.
  intros Ha Hc. destruct Hc; auto; unfold auth_consistent; cbn; auto.
Qed.

(** X2: a session is at any time either not authenticated, with an empty
    auth_user, or authenticated under the configured user name; so every
    Email handed to the store carries the configured user name or none,
    and the configured one when auth.required is true. *)
Theorem handed_emails_carry_the_login w :
  let '(_, s', w') := handle config parse_message w in
  auth_consistent config s'
  /\ grown_by (email_authenticated config) (create_calls w) (create_calls w')
  /\ grown_by (email_authenticated config) (email_repo w) (email_repo w').
Proof.
  pose proof (handle_frame (auth_consistent config)
                (email_authenticated config) w) as H.
  destruct (handle config parse_message w) as [[st s'] w'].
  destruct H as (Hs & Gk & Ge & _); auto.
  - apply auth_consistent_change.
  - intros s e Ha (Hg & _ & _ & _ & _ & _ & _ & _ & _ & _ & Hu & _).
    unfold email_authenticated. rewrite Hu. split.
    + destruct Ha as [[_ Ha] | [_ Ha]]; auto.
    + intro Hreq. unfold auth_gate in Hg. rewrite Hreq in Hg. cbn in Hg.
      destruct Ha as [[_ Ha] | [Ha _]]; [exact Ha|].
      rewrite Ha in Hg. discriminate.
  - right. split; reflexivity.
Qed.

(** X3: client_ip never changes after accept, and every Email handed to
    the store has id 0, status "received" (is_new holds, is_read does
    not), the peer's address (or "unknown") as client_ip, and the subject
    and body the parser draws from its raw_message. *)
Theorem handed_emails_are_stamped w :
  let '(_, s', w') := handle config parse_message w in
  client_ip s' = client_ip (new_session w)
  /\ grown_by (email_stamped parse_message w)
       (create_calls w) (create_calls w')
  /\ grown_by (email_stamped parse_message w) (email_repo w) (email_repo w').
Proof.
  pose proof (handle_frame
                (fun s => client_ip s = client_ip (new_session w))
                (email_stamped parse_message w) w) as H.
  destruct (handle config parse_message w) as [[st s'] w'].
  destruct H as (Hs & Gk & Ge & _); auto.
  - intros s s0 Hs Hc. destruct Hc; exact Hs.
  - intros s e Hs
      (_ & _ & _ & Hid & _ & _ & Hsub & Hbody & _ & Hst & _ & Hip & _).
    unfold email_stamped, is_new, is_read. rewrite Hst, Hip, Hs.
    repeat split; auto.
Qed.

(** X4: under a max_recipients of zero or less no recipient is ever
    accepted, and a session hands nothing to the store. *)
Theorem no_recipient_limit_no_mail w :
  Config.max_recipients config <= 0 ->
  let '(_, s', w') := handle config parse_message w in
  rcpt_to s' = []
  /\ create_calls w' = create_calls w
  /\ email_repo w' = email_repo w.
Proof.
  intro Hmax.
  pose proof (handle_frame (fun s => rcpt_to s = []) (fun _ => False) w)
    as H.
  destruct (handle config parse_message w) as [[st s'] w'].
  destruct H as (Hs & (nk & Gk & Fk) & (ne & Ge & Fe) & _); auto.
  - intros s s0 Hs Hc. destruct Hc as [| |addr _|addr _ Hlt| |_]; auto.
    rewrite Hs in Hlt. unfold Py.len in Hlt. cbn in Hlt. lia.
  - intros s e Hs (_ & _ & Hr & _). contradiction.
  - destruct nk; [|inversion Fk; contradiction].
    destruct ne; [|inversion Fe; contradiction].
    rewrite app_nil_r in Gk, Ge. auto.
Qed.


(** X6: a command changes the session state in one of six ways only:
    not at all, log in under the configured user name, set the sender, add
    one recipient below the limit, reset the transaction, or reset
    everything on a TLS upgrade; client_ip is never changed. *)
Theorem command_changes_session_in_six_ways line s w :
  let '(_, s', _) := _process_command config parse_message line s w in
  session_change config s s' /\ client_ip s' = client_ip s.
Proof.
  pose proof (frame_process_command line s w) as H.
  destruct (_process_command config parse_message line s w) as [[o s'] w'].
  destruct H as (Hc & _). cbn [fst snd] in Hc.
  split; [exact Hc|]. destruct Hc; reflexivity.
Qed.



(** *** The body of DATA *)

Lemma read_body_crossing max lines :
  forall big rest data total,
    Forall non_final lines ->
    end_of_data big = false ->
    total + body_size lines <= max ->
    max < total + body_size lines + Py.len (unstuff big) ->
    read_body max (map RLine lines ++ RLine big :: rest) data total
    = (BodyTooLarge, rest).
Proof.
  induction lines as [|line lines IH]; intros big rest data total Hl Hb Hs Hx.
  - cbn [map app]. rewrite read_body_step by assumption.
    unfold body_size in Hx. cbn in Hx.
    replace (total + Py.len (unstuff big) >? max) with true
      by (symmetry; rewrite Z.gtb_ltb; apply Z.ltb_lt; unfold Py.len in *; cbn in *; lia).
    reflexivity.
  - inversion Hl as [|? ? Hline Hrest]; subst.
    rewrite body_size_cons in Hs, Hx.
    pose proof (body_size_nonneg lines) as Hn.
    pose proof (len_nonneg (unstuff big)) as Hn2.
    cbn [map app]. rewrite read_body_step by assumption.
    replace (total + Py.len (unstuff line) >? max) with false
      by (symmetry; rewrite Z.gtb_ltb; apply Z.ltb_ge; lia).
    apply IH; auto; lia.
Qed.

Lemma read_body_eof max lines :
  forall data total,
    Forall non_final lines ->
    total + body_size lines <= max ->
    read_body max (map RLine lines) data total = (BodyEOF, []).
Proof.
  induction lines as [|line lines IH]; intros data total Hl Hs.
  - cbn. unfold body_size in Hs. cbn in Hs.
    replace (total >? max) with false
      by (symmetry; rewrite Z.gtb_ltb; apply Z.ltb_ge;
          unfold Py.len in *; cbn in *; lia).
    reflexivity.
  - inversion Hl as [|? ? Hline Hrest]; subst.
    rewrite body_size_cons in Hs.
    pose proof (body_size_nonneg lines) as Hn.
    cbn [map]. rewrite read_body_step by assumption.
    replace (total + Py.len (unstuff line) >? max) with false
      by (symmetry; rewrite Z.gtb_ltb; apply Z.ltb_ge; lia).
    apply IH; auto; lia.
Qed.

(** X9: dot-unstuffing undoes dot-stuffing: for any message lines within
    the limit, sent with a dot added in front of every line that begins
    with a dot and ended by an end-of-data line, the stored raw_message is
    the message as it was, and what follows the end-of-data line stays in
    the reader. *)
Theorem dot_stuffing_round_trip s w lines term rest :
  data_ready config s ->
  end_of_data term = true ->
  Py.len (List.concat lines) <= max_bytes ->
  reader w = map (fun l => RLine (stuff l)) lines ++ RLine term :: rest ->
  hd false (db_faults w) = false ->
  exists e w',
    _handle_data config parse_message s w
    = (Return true, _reset_transaction s, w')
    /\ email_repo w' = email_repo w ++ [e]
    /\ Models.raw_message e = List.concat lines
    /\ reader w' = rest.
Proof.
  intros Hready Ht Hs Hr Hf.
  eexists. eexists. split.
  - apply (handle_data_commits config parse_message s w (map stuff lines)
             term rest); auto.
    + apply Forall_forall. intros l Hl. apply in_map_iff in Hl.
      destruct Hl as (l0 & <- & _). apply stuff_not_final.
    + unfold body_size. now rewrite map_unstuff_stuff.
    + now rewrite map_map.
  - rewrite map_unstuff_stuff. cbn. repeat split.
Qed.

(** X10: on 552 the rest of the body is not drained: the reader is left
    right after the line that crossed the limit, so the lines of the body
    that follow are read as commands. *)
Theorem oversize_leaves_the_body_unread s w lines big rest :
  data_ready config s ->
  Forall non_final lines ->
  end_of_data big = false ->
  body_size lines <= max_bytes ->
  max_bytes < body_size lines + Py.len (unstuff big) ->
  reader w = map RLine lines ++ RLine big :: rest ->
  _handle_data config parse_message s w
  = (Return true, _reset_transaction s,
     _send "552 Message too large"
       (set_reader rest
          (_send "354 Start mail input; end with <CRLF>.<CRLF>" w))).
Proof.
  intros Hready Hl Hb Hs Hx Hr.
  destruct (data_ready_guards config s Hready) as [Hg Hm].
  unfold _handle_data. rewrite Hg, Hm. cbn [_send set_writer reader].
  rewrite Hr, (read_body_crossing max_bytes lines big rest [] 0) by (auto; lia).
  reflexivity.
Qed.

(** X11: when the connection reaches end of file inside a DATA body that
    is within the limit, the read loop never ends: nothing is written
    after 354, nothing is handed to the store and the handler does not
    return. *)
Theorem data_hangs_at_end_of_file s w lines :
  data_ready config s ->
  Forall non_final lines ->
  body_size lines <= max_bytes ->
  reader w = map RLine lines ->
  _handle_data config parse_message s w
  = (Diverge, s,
     set_reader [] (_send "354 Start mail input; end with <CRLF>.<CRLF>" w)).
Proof.
  intros Hready Hl Hs Hr.
  destruct (data_ready_guards config s Hready) as [Hg Hm].
  unfold _handle_data. rewrite Hg, Hm. cbn [_send set_writer reader].
  rewrite Hr, (read_body_eof max_bytes lines [] 0) by (auto; lia).
  reflexivity.
Qed.

(** An address with a blank inside its brackets: MAIL keeps what comes
    before the blank, opening bracket included. *)
Lemma mail_address_cut (ws a1 a2 : str) :
  all_space ws = true ->
  no_space a1 = true ->
  Py.last_char a1 <> Some Py.GT ->
  let addr := Py.strip (ws ++ "<" ++ a1 ++ " " ++ a2 ++ ">") in
  strip_brackets
    (if Py.contains " " addr then nth 0 (Py.split addr) EmptyString else addr)
  = ("<" ++ a1)%str.
Proof.
  intros Hws Ha Hl. cbv zeta.
  assert (no_space ("<" ++ a1) = true) as Hu
    by (cbn [append no_space]; rewrite Ha; reflexivity).
  assert (Py.strip (ws ++ "<" ++ a1 ++ " " ++ a2 ++ ">")
          = (("<" ++ a1) ++ String Py.SPACE (a2 ++ ">"))%str) as ->.
  { unfold Py.strip. rewrite (lstrip_spaces ws _ Hws).
    replace (Py.lstrip ("<" ++ a1 ++ " " ++ a2 ++ ">"))
      with ("<" ++ a1 ++ " " ++ a2 ++ ">")%str by reflexivity.
    replace ("<" ++ a1 ++ " " ++ a2 ++ ">")%str
      with ((("<" ++ a1 ++ " " ++ a2) ++ String Py.GT EmptyString)
            ++ EmptyString)%str
      by (rewrite append_nil_r; cbn [append];
          now rewrite !append_assoc).
    rewrite rstrip_after_word by reflexivity.
    cbn [Py.rstrip]. rewrite append_nil_r. cbn [append].
    now rewrite !append_assoc. }
  rewrite blank_found. unfold Py.split.
  rewrite (words_first _ EmptyString Py.SPACE _ Hu eq_refl)
    by (cbn; discriminate).
  cbn [nth append]. unfold strip_brackets, Py.endswith_char.
  replace (Py.last_char (String 60 a1)) with
    (match a1 with EmptyString => Some Py.LT | _ => Py.last_char a1 end)
    by (destruct a1; reflexivity).
  destruct a1 as [|c a1]; [reflexivity|].
  destruct (Py.last_char (String c a1)) as [d|] eqn:E;
    [|now rewrite andb_false_r].
  destruct (d =? Py.GT)%N eqn:Ed; [|now rewrite andb_false_r].
  apply N.eqb_eq in Ed. subst d. contradiction.
Qed.

(** X12: MAIL FROM: in any letter case, followed by white space or none
    and by <a>, alone or with a blank and parameters such as SIZE=n after
    it, stores exactly a as mail_from, for every address a without white
    space (the empty one included), answers 250 OK, and changes nothing
    else of the session.  With a blank inside the brackets, as in
    <a1 a2>, what is stored is <a1: the text up to the blank, opening
    bracket included. *)
Theorem mail_stores_the_bracketed_address cmd ws s w :
  auth_gate config s = false ->
  Py.upper cmd = "MAIL FROM:" -> Py.length cmd = 10%nat ->
  all_space ws = true ->
  (forall a params,
      no_space a = true ->
      params = EmptyString \/ (exists t, params = String Py.SPACE t) ->
      let '(o, s', w') :=
        _handle_mail config (cmd ++ ws ++ "<" ++ a ++ ">" ++ params)%str
          s w in
      o = Return true
      /\ mail_from s' = a
      /\ rcpt_to s' = rcpt_to s
      /\ authenticated s' = authenticated s /\ auth_user s' = auth_user s
      /\ client_ip s' = client_ip s
      /\ wrote w w' ["250 OK"])
  /\ (forall a1 a2,
        no_space a1 = true ->
        Py.last_char a1 <> Some Py.GT ->
        let '(o, s', w') :=
          _handle_mail config (cmd ++ ws ++ "<" ++ a1 ++ " " ++ a2 ++ ">")%str
            s w in
        o = Return true
        /\ mail_from s' = ("<" ++ a1)%str
        /\ wrote w w' ["250 OK"]).
Proof.
  intros Hg Hu Hl Hws. split.
  - intros a params Ha Hp.
    rewrite (handle_mail_bracketed config cmd ws a params s w Hg Hu Hl Hws
               Ha Hp).
    repeat split.
  - intros a1 a2 Ha Hgt. unfold _handle_mail. rewrite Hg. cbv zeta.
    destruct (mail_command_found cmd (ws ++ "<" ++ a1 ++ " " ++ a2 ++ ">")%str
                Hu Hl) as [Hf Hd].
    rewrite Hf, Hd.
    rewrite (mail_address_cut ws a1 a2 Hws Ha Hgt).
    repeat split.
Qed.

Lemma rcpt_address_parsed (a : str) :
  strip_brackets (Py.strip ("<" ++ a ++ ">")) = a.
Proof.
  unfold Py.strip.
  replace (Py.lstrip ("<" ++ a ++ ">")) with ("<" ++ a ++ ">")%str
    by reflexivity.
  replace ("<" ++ a ++ ">")%str
    with ((String Py.LT a ++ String Py.GT EmptyString) ++ EmptyString)%str
    by (rewrite append_nil_r; reflexivity).
  rewrite rstrip_after_word by reflexivity.
  cbn [Py.rstrip]. rewrite append_nil_r. apply strip_brackets_wrapped.
Qed.

Lemma handle_rcpt_appends a s w :
  auth_gate config s = false ->
  Py.len (rcpt_to s) < Config.max_recipients config ->
  _handle_rcpt config ("RCPT TO:<" ++ a ++ ">") s w
  = (Return true, set_rcpt_to (rcpt_to s ++ [a]) s, _send "250 OK" w).
Proof.
  intros Hg Hl. unfold _handle_rcpt. rewrite Hg.
  replace (Py.len (rcpt_to s) >=? Config.max_recipients config) with false
    by (symmetry; rewrite Z.geb_leb; apply Z.leb_gt; lia).
  cbv zeta.
  replace (Py.find "TO:" (Py.upper ("RCPT TO:<" ++ a ++ ">")))
    with (Some 5%nat) by reflexivity.
  change (Py.drop (5 + 3) ("RCPT TO:<" ++ a ++ ">"))
    with ("<" ++ a ++ ">")%str.
  now rewrite rcpt_address_parsed.
Qed.

(** X13: [_handle_rcpt], given the lines RCPT TO:<a> one after the other,
    with or without a MAIL before them, collects their addresses, of any
    content, in order at the end of rcpt_to and answers each 250 OK, as
    long as the list stays within max_recipients. *)
Theorem rcpt_collects_in_order addrs :
  forall s w,
    auth_gate config s = false ->
    Py.len (rcpt_to s) + Py.len addrs <= Config.max_recipients config ->
    rcpt_each config addrs s w
    = (set_rcpt_to (rcpt_to s ++ addrs) s,
       set_writer (writer w ++ map (fun _ => "250 OK") addrs) w).
Proof.
  unfold rcpt_each.
  induction addrs as [|a addrs IH]; intros s w Hg Hl.
  - cbn. rewrite !app_nil_r. destruct s, w. reflexivity.
  - rewrite len_cons in Hl. pose proof (len_nonneg addrs) as Hn.
    cbn [fold_left fst snd]. rewrite handle_rcpt_appends by (auto; lia).
    rewrite IH.
    + cbn. rewrite <- !app_assoc. reflexivity.
    + exact Hg.
    + cbn [rcpt_to set_rcpt_to]. rewrite len_app, len_cons.
      replace (Py.len (@nil str)) with 0 by reflexivity. lia.
Qed.

(** *** AUTH *)

Lemma auth_plain_check_cases (Q : result -> Prop) credentials s w :
  (forall o w', Q (o, s, w')) ->
  (forall w',
      Q (Return true, set_auth true (Config.username (Config.auth config)) s,
         w')) ->
  Q (_handle_auth_plain_check config credentials s w).
Proof.
  intros Hkeep Hlogin. unfold _handle_auth_plain_check.
  destruct (Base64.b64decode_str credentials) as [raw|]; [|apply Hkeep].
  destruct (Py.decode raw) as [decoded|]; [|apply Hkeep].
  cbv zeta.
  destruct (Py.len _ >=? 3); [|destruct (Py.len _ =? 2)];
    try match goal with
        | |- context [if ?b then _ else _] => destruct b eqn:E
        end;
    try apply Hkeep;
    apply eqb_pair_true in E; rewrite E; apply Hlogin.
Qed.

(** Whatever AUTH does, the session is as before or logged in under the
    configured user name. *)
Lemma auth_cases (Q : result -> Prop) line s w :
  (forall o w', Q (o, s, w')) ->
  (forall w',
      Q (Return true, set_auth true (Config.username (Config.auth config)) s,
         w')) ->
  Q (_handle_auth config line s w).
Proof.
  intros Hkeep Hlogin. unfold _handle_auth. cbv zeta.
  destruct (Py.len (Py.split line) <? 2); [apply Hkeep|].
  destruct (negb _); [apply Hkeep|].
  destruct (Py.eqb _ "PLAIN").
  - unfold _handle_auth_plain.
    destruct (Py.len (Py.split line) =? 3);
      [now apply auth_plain_check_cases|].
    destruct (readline (_send "334 " w)) as [[cred| |e] w1];
      [|apply Hkeep | apply Hkeep].
    destruct (Py.decode cred) as [text|]; [|apply Hkeep].
    now apply auth_plain_check_cases.
  - unfold _handle_auth_login. cbv zeta.
    destruct (readline (_send "334 VXNlcm5hbWU6" w)) as [[uline| |e] w1];
      try apply Hkeep.
    destruct (Base64.b64decode (Py.strip_b uline)) as [u|]; [|apply Hkeep].
    destruct (Py.decode u) as [user|]; [|apply Hkeep].
    destruct (readline (_send "334 UGFzc3dvcmQ6" w1)) as [[pline| |e] w2];
      try apply Hkeep.
    destruct (Base64.b64decode (Py.strip_b pline)) as [p|]; [|apply Hkeep].
    destruct (Py.decode p) as [pass|]; [|apply Hkeep].
    match goal with
    | |- context [if ?b then _ else _] => destruct b eqn:E
    end; [|apply Hkeep].
    apply eqb_pair_true in E. rewrite E. apply Hlogin.
Qed.

(** X14: AUTH leaves the session as it was or logs it in under the
    configured user name: it never logs out and never touches mail_from
    or rcpt_to.  AUTH without a mechanism is answered 501, a mechanism
    other than PLAIN or LOGIN 504, both without a read. *)
Theorem auth_only_logs_in line s w :
  (let '(_, s', _) := _handle_auth config line s w in
   (s' = s \/ s' = set_auth true (Config.username (Config.auth config)) s)
   /\ mail_from s' = mail_from s /\ rcpt_to s' = rcpt_to s
   /\ (authenticated s = true -> authenticated s' = true))
  /\ (Py.len (Py.split line) < 2 ->
      _handle_auth config line s w
      = (Return true, s, _send "501 Syntax error" w))
  /\ (2 <= Py.len (Py.split line) ->
      Py.upper (nth 1 (Py.split line) EmptyString) <> "PLAIN" ->
      Py.upper (nth 1 (Py.split line) EmptyString) <> "LOGIN" ->
      _handle_auth config line s w
      = (Return true, s,
         _send "504 Unsupported authentication mechanism" w)).
Proof.
  split; [|split].
  - apply (auth_cases
             (fun r =>
                let '(_, s', _) := r in
                (s' = s
                 \/ s' = set_auth true (Config.username (Config.auth config)) s)
                /\ mail_from s' = mail_from s /\ rcpt_to s' = rcpt_to s
                /\ (authenticated s = true -> authenticated s' = true)));
      intros; cbn; auto.
  - intro Hl. unfold _handle_auth. cbv zeta.
    replace (Py.len (Py.split line) <? 2) with true
      by (symmetry; apply Z.ltb_lt; exact Hl).
    reflexivity.
  - intros Hl Hp Hlg. unfold _handle_auth. cbv zeta.
    replace (Py.len (Py.split line) <? 2) with false
      by (symmetry; apply Z.ltb_ge; exact Hl).
    apply str_eqb_neq in Hp, Hlg. rewrite Hp, Hlg. reflexivity.
Qed.

(** X15: AUTH LOGIN checks the two continuation lines, stripped, decoded
    from base64 and then from UTF-8, as user and password.  A user line
    that is no base64, or whose bytes are no UTF-8, is answered 535 at
    once: the password is neither prompted for nor read, so the next line
    stays in the reader.  A password line that cannot be decoded is
    answered 535 as well.  In both cases the session state is kept and
    True returned. *)
Theorem auth_login_reads_both_lines s w :
  (forall uline pline rest user pass,
      reader w = RLine uline :: RLine pline :: rest ->
      login_line uline = Some user ->
      login_line pline = Some pass ->
      _handle_auth_login config s w
      = credentials_checked config user pass s
          (set_reader rest
             (_send "334 UGFzc3dvcmQ6"
                (set_reader (RLine pline :: rest)
                   (_send "334 VXNlcm5hbWU6" w)))))
  /\ (forall uline rest,
        reader w = RLine uline :: rest ->
        login_line uline = None ->
        _handle_auth_login config s w
        = (Return true, s,
           _send "535 Authentication failed"
             (set_reader rest (_send "334 VXNlcm5hbWU6" w))))
  /\ (forall uline pline rest user,
        reader w = RLine uline :: RLine pline :: rest ->
        login_line uline = Some user ->
        login_line pline = None ->
        _handle_auth_login config s w
        = (Return true, s,
           _send "535 Authentication failed"
             (set_reader rest
                (_send "334 UGFzc3dvcmQ6"
                   (set_reader (RLine pline :: rest)
                      (_send "334 VXNlcm5hbWU6" w)))))).
Proof.
  unfold login_line. split; [|split].
  - intros uline pline rest user pass Hr Hu Hp.
    unfold _handle_auth_login, readline, credentials_checked.
    cbn [_send set_writer reader set_reader]. rewrite Hr.
    destruct (Base64.b64decode (Py.strip_b uline)) as [u|]; [|discriminate].
    rewrite Hu. cbn [_send set_writer reader set_reader].
    destruct (Base64.b64decode (Py.strip_b pline)) as [p|]; [|discriminate].
    rewrite Hp. reflexivity.
  - intros uline rest Hr Hu.
    unfold _handle_auth_login, readline.
    cbn [_send set_writer reader set_reader]. rewrite Hr.
    destruct (Base64.b64decode (Py.strip_b uline)) as [u|]; [|reflexivity].
    rewrite Hu. reflexivity.
  - intros uline pline rest user Hr Hu Hp.
    unfold _handle_auth_login, readline.
    cbn [_send set_writer reader set_reader]. rewrite Hr.
    destruct (Base64.b64decode (Py.strip_b uline)) as [u|]; [|discriminate].
    rewrite Hu. cbn [_send set_writer reader set_reader].
    destruct (Base64.b64decode (Py.strip_b pline)) as [p|]; [|reflexivity].
    rewrite Hp. reflexivity.
Qed.

(** *** The dispatcher and the loop *)

Lemma lstrip_word (word rest : str) :
  no_space word = true -> word <> EmptyString ->
  Py.lstrip (word ++ rest) = (word ++ rest)%str.
Proof.
  destruct word as [|c word]; [congruence|].
  cbn. intros H _. apply andb_prop in H. destruct H as [Hc _].
  apply negb_true_iff in Hc. now rewrite Hc.
Qed.

Lemma break_space_word (word rest : str) :
  no_space word = true ->
  rest = EmptyString
  \/ (exists c t, rest = String c t /\ Py.isspace c = true) ->
  Py.break_space (word ++ rest) = (word, rest).
Proof.
  intros Hw Hr. induction word as [|c word IH].
  - cbn. destruct Hr as [-> | (c & t & -> & Hc)]; [reflexivity|].
    cbn. now rewrite Hc.
  - cbn in Hw. apply andb_prop in Hw. destruct Hw as [Hc Hw].
    apply negb_true_iff in Hc. cbn. rewrite Hc, (IH Hw). reflexivity.
Qed.

(** The command word of a line is its first run of characters that are
    no white space, in upper case. *)
Lemma command_word_first (ws word rest : str) :
  all_space ws = true -> no_space word = true -> word <> EmptyString ->
  rest = EmptyString
  \/ (exists c t, rest = String c t /\ Py.isspace c = true) ->
  command_word (ws ++ word ++ rest) = Py.upper word.
Proof.
  intros Hws Hw Hne Hr. unfold command_word, Py.split1.
  rewrite (lstrip_spaces ws _ Hws), (lstrip_word word rest Hw Hne).
  destruct (word ++ rest)%str as [|c0 t0] eqn:E.
  - destruct word; [congruence | discriminate].
  - rewrite <- E, (break_space_word word rest Hw Hr).
    destruct (Py.lstrip rest); reflexivity.
Qed.

Lemma command_word_blank (line : str) :
  all_space line = true -> command_word line = EmptyString.
Proof.
  intro H. unfold command_word, Py.split1.
  replace line with (line ++ "")%str by apply append_nil_r.
  rewrite (lstrip_spaces line _ H). reflexivity.
Qed.

Lemma dispatch_word line s w :
  _process_command config parse_message line s w
  = let cmd := command_word line in
    if Py.eqb cmd "EHLO" || Py.eqb cmd "HELO"
    then _handle_ehlo config line s w
    else if Py.eqb cmd "AUTH" then _handle_auth config line s w
    else if Py.eqb cmd "MAIL" then _handle_mail config line s w
    else if Py.eqb cmd "RCPT" then _handle_rcpt config line s w
    else if Py.eqb cmd "DATA" then _handle_data config parse_message s w
    else if Py.eqb cmd "RSET" then _handle_rset s w
    else if Py.eqb cmd "QUIT" then (Return false, s, _send "221 Bye" w)
    else if Py.eqb cmd "NOOP" then (Return true, s, _send "250 OK" w)
    else if Py.eqb cmd "STARTTLS" then _handle_starttls config s w
    else (Return true, s, _send "500 Unknown command" w).
Proof. reflexivity. Qed.

(** X16: a command is recognised by the first run of characters of its
    line that are no white space, taken in upper case, whatever white
    space stands before it and whatever follows it after white space:
    NOOP is answered 250 OK and QUIT 221 Bye without a change of state,
    RSET resets the transaction, and a word that is none of the ten
    commands is answered 500 Unknown command without a change of state,
    as is a line of white space only. *)
Theorem commands_are_known_by_their_first_word ws word rest s w :
  all_space ws = true -> no_space word = true -> word <> EmptyString ->
  rest = EmptyString
  \/ (exists c t, rest = String c t /\ Py.isspace c = true) ->
  let run line := _process_command config parse_message line s w in
  (Py.upper word = "NOOP" ->
   run (ws ++ word ++ rest)%str = (Return true, s, _send "250 OK" w))
  /\ (Py.upper word = "QUIT" ->
      run (ws ++ word ++ rest)%str = (Return false, s, _send "221 Bye" w))
  /\ (Py.upper word = "RSET" ->
      run (ws ++ word ++ rest)%str
      = (Return true, _reset_transaction s, _send "250 OK" w))
  /\ (~ In (Py.upper word) known_commands ->
      run (ws ++ word ++ rest)%str
      = (Return true, s, _send "500 Unknown command" w))
  /\ run ws = (Return true, s, _send "500 Unknown command" w).
Proof.
  intros Hws Hw Hne Hr. cbv beta zeta.
  rewrite !dispatch_word. cbv zeta.
  rewrite (command_word_first ws word rest Hws Hw Hne Hr),
    (command_word_blank ws Hws).
  repeat split; try (intros ->; reflexivity).
  intro Hn.
  assert (forall k, In k known_commands ->
                    Py.eqb (Py.upper word) k = false) as Hk.
  { intros k Hin. apply str_eqb_neq. intros <-. contradiction. }
  unfold known_commands in Hk. cbn [In] in Hk.
  rewrite !Hk by auto 12. reflexivity.
Qed.

Lemma hello_line_last (d : str) :
  Py.last_char ("250-" ++ d ++ " Hello") = Some 111%N.
Proof.
  replace ("250-" ++ d ++ " Hello")%str
    with (("250-" ++ d ++ " Hell") ++ String 111%N EmptyString)%str
    by (cbn; rewrite !append_assoc; reflexivity).
  apply last_char_snoc.
Qed.

Lemma size_line_not_auth (n : str) :
  ("250-SIZE " ++ n)%str <> "250-AUTH PLAIN LOGIN".
Proof. cbn. congruence. Qed.

(** X17: EHLO and HELO are answered alike, with the same multi-line
    reply from 250-<domain> Hello to 250 OK that carries 250-SIZE
    <max_message_bytes>, and 250-AUTH PLAIN LOGIN exactly when
    auth.required is true or a user name is configured; neither changes
    the session state, an open transaction included. *)
Theorem ehlo_and_helo_are_answered_alike line1 line2 s w :
  command_word line1 = "EHLO" ->
  command_word line2 = "HELO" ->
  _process_command config parse_message line1 s w
  = _process_command config parse_message line2 s w
  /\ exists reply,
      _process_command config parse_message line1 s w
      = (Return true, s, set_writer (writer w ++ reply) w)
      /\ hd EmptyString reply
         = ("250-" ++ Config.domain config ++ " Hello")%str
      /\ last reply EmptyString = "250 OK"
      /\ In ("250-SIZE " ++ Py.str_of_int max_bytes)%str reply
      /\ (In "250-AUTH PLAIN LOGIN" reply
          <-> Config.required (Config.auth config) = true
              \/ Config.username (Config.auth config) <> EmptyString).
Proof.
  intros H1 H2. rewrite !dispatch_word. cbv zeta. rewrite H1, H2.
  change (Py.eqb "EHLO" "EHLO") with true.
  change (Py.eqb "HELO" "EHLO") with false.
  change (Py.eqb "HELO" "HELO") with true. cbn [orb].
  split; [reflexivity|].
  unfold _handle_ehlo. rewrite fold_send_eq.
  eexists. split; [reflexivity|].
  pose proof (hello_line_last (Config.domain config)) as Hlast.
  assert (("250-" ++ Config.domain config ++ " Hello")%str
          <> "250-AUTH PLAIN LOGIN") as Hd
    by (intro Heq; rewrite Heq in Hlast; discriminate).
  pose proof (size_line_not_auth (Py.str_of_int max_bytes)) as Hn.
  destruct (Config.required (Config.auth config));
    destruct (Config.username (Config.auth config));
    destruct (Config.enabled (Config.tls config));
    cbn [str_empty negb orb app hd last In];
    (split; [reflexivity|split; [reflexivity|split; [auto 10|]]]);
    (split; [intro H | intro H; auto 10]);
    auto;
    try (right; discriminate);
    repeat (destruct H as [H | H]); try discriminate; try contradiction;
    try (now apply Hd in H); try (now apply Hn in H).
Qed.


(** X18: a session of a server that requires authentication, in which the
    client sends no AUTH command, ends unauthenticated, without an open
    transaction, and hands nothing to the store, whatever else it
    sends. *)
Theorem no_auth_no_mail_when_required w :
  Config.required (Config.auth config) = true ->
  Forall not_auth_line (reader w) ->
  let '(_, s', w') := handle config parse_message w in
  authenticated s' = false
  /\ mail_from s' = EmptyString /\ rcpt_to s' = []
  /\ create_calls w' = create_calls w
  /\ email_repo w' = email_repo w.
Proof.
  intros Hreq Hall. unfold handle. cbv zeta.
  pose proof (unauthenticated_loop config parse_message
                (S (List.length
                      (reader (_send ("220 " ++ Config.domain config
                                      ++ " SMTP Ready")%str w))))
                (new_session w)
                (_send ("220 " ++ Config.domain config ++ " SMTP Ready")%str
                   w) Hreq eq_refl eq_refl eq_refl Hall) as H.
  destruct (command_loop _ _ _ _ _) as [[st s'] w'].
  destruct H as (Ha & Hm & Hr & Hk & He). cbn in Hk, He.
  destruct st; cbn; auto.
Qed.

(** X19: a read that times out is answered 421 Timeout and ends the
    session, in the command loop, on the continuation line of AUTH PLAIN
    and on a body line of DATA; in DATA the lines read so far are dropped,
    nothing is handed to the store and the transaction is not reset. *)
Theorem timeout_is_answered_421_and_ends fuel s w rest :
  reader w = RTimeout :: rest ->
  command_loop config parse_message (S fuel) s w
  = (Finished, s, _send "421 Timeout" (set_reader rest w))
  /\ (forall parts,
        Py.len parts <> 3 ->
        _handle_auth_plain config parts s w
        = (Return false, s,
           _send "421 Timeout" (set_reader rest (_send "334 " w))))
  /\ (forall w1 lines,
        data_ready config s ->
        Forall non_final lines ->
        body_size lines <= max_bytes ->
        reader w1 = map RLine lines ++ RTimeout :: rest ->
        _handle_data config parse_message s w1
        = (Return false, s,
           _send "421 Timeout"
             (set_reader rest
                (_send "354 Start mail input; end with <CRLF>.<CRLF>" w1)))).
Proof.
  intro Hr. split; [|split].
  - apply (timeout_closes_outside_auth_login config parse_message
             fuel s w rest [] [] Hr).
  - intros parts.
    apply (timeout_closes_outside_auth_login config parse_message
             fuel s w rest parts [] Hr).
  - intros w1 lines.
    apply (timeout_closes_outside_auth_login config parse_message
             fuel s w rest [] lines Hr).
Qed.


Lemma rcpt_bounded_change s s' :
  rcpt_bounded config s -> session_change config s s' ->
  rcpt_bounded config s'.
Proof.
  intros Hb Hc. destruct Hc as [| |addr _|addr _ Hlt| |_]; auto;
    try (left; reflexivity).
  right. cbn [rcpt_to set_rcpt_to]. rewrite len_app, len_cons.
  replace (Py.len (@nil str)) with 0 by reflexivity. lia.
Qed.

(** X21: at the end of every session the recipient list is empty or no
    longer than max_recipients, and so, for a limit that is not negative,
    within the limit. *)
Theorem recipients_stay_within_the_limit w :
  let '(_, s', _) := handle config parse_message w in
  rcpt_bounded config s'
  /\ Py.len (rcpt_to s') <= Z.max 0 (Config.max_recipients config).
Proof.
  assert (forall s s', rcpt_bounded config s ->
                       session_change config s s' ->
                       rcpt_bounded config s') as Hstep
    by exact rcpt_bounded_change.
  assert (rcpt_bounded config (new_session w)) as Hnew
    by (left; reflexivity).
  pose proof (handle_frame (rcpt_bounded config) (fun _ => True) w Hstep
                (fun _ _ _ _ => Logic.I) Hnew) as H.
  destruct (handle config parse_message w) as [[st s'] w'].
  destruct H as (Hb & _).
  split; [exact Hb|]. destruct Hb as [Hb | Hb]; [rewrite Hb; cbn|]; lia.
Qed.
End Further.

(** ** The further properties on sample sessions *)

(** With max_recipients = 0: RCPT is answered 452, DATA 503, and nothing
    reaches the store. *)
Lemma no_recipient_limit_no_mail_witness :
  let '(_, s', w') :=
    handle (Samples.cfg false false 1024 0) Samples.raw_parser
      (Samples.conn [Samples.ln "MAIL FROM:<a@x>"; Samples.ln "RCPT TO:<b@y>";
                     Samples.ln "DATA"; Samples.ln "QUIT"] []) in
  rcpt_to s' = []
  /\ create_calls w' = []
  /\ email_repo w' = [].
Proof.
  exact (no_recipient_limit_no_mail
           (Samples.cfg false false 1024 0) Samples.raw_parser
           (Samples.conn [Samples.ln "MAIL FROM:<a@x>";
                          Samples.ln "RCPT TO:<b@y>";
                          Samples.ln "DATA"; Samples.ln "QUIT"] [])
           ltac:(vm_compute; discriminate)).
Defined.

(** A message of three lines, two of which begin with dots, sent stuffed
    and followed by QUIT. *)
Lemma dot_stuffing_round_trip_witness :
  exists e w',
    _handle_data (Samples.cfg true false 1024 50) Samples.raw_parser
      Samples.in_transaction
      (Samples.conn [Samples.ln "..hello"; Samples.ln "...world";
                     Samples.ln "plain"; Samples.ln "."; Samples.ln "QUIT"] [])
    = (Return true, _reset_transaction Samples.in_transaction, w')
    /\ email_repo w' = [e]
    /\ Models.raw_message e
       = Py.encode (".hello" ++ Py.CRLF ++ "..world" ++ Py.CRLF
                    ++ "plain" ++ Py.CRLF)%str
    /\ reader w' = [Samples.ln "QUIT"].
Proof.
  exact (dot_stuffing_round_trip
           (Samples.cfg true false 1024 50) Samples.raw_parser
           Samples.in_transaction
           (Samples.conn [Samples.ln "..hello"; Samples.ln "...world";
                          Samples.ln "plain"; Samples.ln ".";
                          Samples.ln "QUIT"] [])
           [Py.encode (".hello" ++ Py.CRLF)%str;
            Py.encode ("..world" ++ Py.CRLF)%str;
            Py.encode ("plain" ++ Py.CRLF)%str]
           (Py.encode ("." ++ Py.CRLF)%str) [Samples.ln "QUIT"]
           ltac:(repeat split; discriminate) eq_refl
           ltac:(vm_compute; discriminate) eq_refl eq_refl).
Defined.

(** With max_message_bytes = 16: a line of 15 bytes, then a line that
    crosses the limit; the rest of the body and QUIT stay in the reader. *)
Lemma oversize_leaves_the_body_unread_witness :
  _handle_data (Samples.cfg true false 16 50) Samples.raw_parser
    Samples.in_transaction
    (Samples.conn [Samples.ln "0123456789abc"; Samples.ln "..x";
                   Samples.ln "more"; Samples.ln "."; Samples.ln "QUIT"] [])
  = (Return true, _reset_transaction Samples.in_transaction,
     _send "552 Message too large"
       (set_reader [Samples.ln "more"; Samples.ln "."; Samples.ln "QUIT"]
          (_send "354 Start mail input; end with <CRLF>.<CRLF>"
             (Samples.conn [Samples.ln "0123456789abc"; Samples.ln "..x";
                            Samples.ln "more"; Samples.ln ".";
                            Samples.ln "QUIT"] [])))).
Proof.
  exact (oversize_leaves_the_body_unread
           (Samples.cfg true false 16 50) Samples.raw_parser
           Samples.in_transaction
           (Samples.conn [Samples.ln "0123456789abc"; Samples.ln "..x";
                          Samples.ln "more"; Samples.ln ".";
                          Samples.ln "QUIT"] [])
           [Py.encode ("0123456789abc" ++ Py.CRLF)%str]
           (Py.encode ("..x" ++ Py.CRLF)%str)
           [Samples.ln "more"; Samples.ln "."; Samples.ln "QUIT"]
           ltac:(repeat split; discriminate)
           ltac:(repeat constructor) eq_refl
           ltac:(vm_compute; discriminate) ltac:(vm_compute; reflexivity)
           eq_refl).
Defined.

(** A body of one line, then end of file. *)
Lemma data_hangs_at_end_of_file_witness :
  _handle_data (Samples.cfg true false 1024 50) Samples.raw_parser
    Samples.in_transaction (Samples.conn [Samples.ln "hi"] [])
  = (Diverge, Samples.in_transaction,
     set_reader []
       (_send "354 Start mail input; end with <CRLF>.<CRLF>"
          (Samples.conn [Samples.ln "hi"] []))).
Proof.
  exact (data_hangs_at_end_of_file
           (Samples.cfg true false 1024 50) Samples.raw_parser
           Samples.in_transaction (Samples.conn [Samples.ln "hi"] [])
           [Py.encode ("hi" ++ Py.CRLF)%str]
           ltac:(repeat split; discriminate)
           ltac:(repeat constructor)
           ltac:(vm_compute; discriminate) eq_refl).
Defined.

(** mail from: <a@x> SIZE=100 in lower case with a blank before the
    bracket, and mail from: <a b>. *)
Lemma mail_stores_the_bracketed_address_witness :
  (let '(o, s', w') :=
     _handle_mail (Samples.cfg false false 1024 50)
       ("mail from:" ++ " " ++ "<" ++ "a@x" ++ ">" ++ " SIZE=100")%str
       Samples.in_transaction (Samples.conn [] []) in
   o = Return true
   /\ mail_from s' = "a@x"
   /\ rcpt_to s' = ["b@y"]
   /\ authenticated s' = true /\ auth_user s' = "alice"
   /\ client_ip s' = "10.0.0.1"
   /\ wrote (Samples.conn [] []) w' ["250 OK"])
  /\ (let '(o, s', w') :=
        _handle_mail (Samples.cfg false false 1024 50)
          ("mail from:" ++ " " ++ "<" ++ "a" ++ " " ++ "b" ++ ">")%str
          Samples.in_transaction (Samples.conn [] []) in
      o = Return true
      /\ mail_from s' = "<a"
      /\ wrote (Samples.conn [] []) w' ["250 OK"]).
Proof.
  destruct (mail_stores_the_bracketed_address
              (Samples.cfg false false 1024 50) "mail from:" " "
              Samples.in_transaction (Samples.conn [] [])
              eq_refl ltac:(vm_compute; reflexivity) eq_refl eq_refl)
    as [H1 H2].
  split.
  - exact (H1 "a@x"%str " SIZE=100"%str eq_refl
             (or_intror (ex_intro _ "SIZE=100"%str eq_refl))).
  - exact (H2 "a"%str "b"%str eq_refl ltac:(vm_compute; discriminate)).
Defined.

(** Two recipients, one of them with a blank, under max_recipients = 2 and
    with no MAIL before them. *)
Lemma rcpt_collects_in_order_witness :
  rcpt_each (Samples.cfg false false 1024 2) ["a@x"; "b c"]
    (new_session (Samples.conn [] [])) (Samples.conn [] [])
  = (set_rcpt_to ["a@x"; "b c"] (new_session (Samples.conn [] [])),
     set_writer ["250 OK"; "250 OK"] (Samples.conn [] [])).
Proof.
  exact (rcpt_collects_in_order
           (Samples.cfg false false 1024 2) ["a@x"; "b c"]
           (new_session (Samples.conn [] [])) (Samples.conn [] [])
           eq_refl ltac:(vm_compute; discriminate)).
Defined.

(** AUTH alone and AUTH CRAM-MD5. *)
Lemma auth_only_logs_in_witness :
  _handle_auth (Samples.cfg true false 1024 50) "AUTH"
    Samples.in_transaction (Samples.conn [] [])
  = (Return true, Samples.in_transaction,
     _send "501 Syntax error" (Samples.conn [] []))
  /\ _handle_auth (Samples.cfg true false 1024 50) "AUTH CRAM-MD5"
       Samples.in_transaction (Samples.conn [] [])
     = (Return true, Samples.in_transaction,
        _send "504 Unsupported authentication mechanism" (Samples.conn [] [])).
Proof.
  split.
  - apply (proj1 (proj2 (auth_only_logs_in
                           (Samples.cfg true false 1024 50) "AUTH"
                           Samples.in_transaction (Samples.conn [] [])))).
    vm_compute. reflexivity.
  - apply (proj2 (proj2 (auth_only_logs_in
                           (Samples.cfg true false 1024 50) "AUTH CRAM-MD5"
                           Samples.in_transaction (Samples.conn [] [])))).
    + vm_compute. discriminate.
    + vm_compute. discriminate.
    + vm_compute. discriminate.
Defined.

(** AUTH LOGIN with alice and s3cret; with a user line whose bytes are
    no UTF-8 (/w== is the byte 255), followed by a line that then stays
    unread; and with a password line that is no base64. *)
Lemma auth_login_reads_both_lines_witness :
  _handle_auth_login (Samples.cfg true false 1024 50)
    (new_session (Samples.conn [] []))
    (Samples.conn [Samples.ln "YWxpY2U="; Samples.ln "czNjcmV0"] [])
  = credentials_checked (Samples.cfg true false 1024 50) "alice" "s3cret"
      (new_session (Samples.conn [] []))
      (set_reader []
         (_send "334 UGFzc3dvcmQ6"
            (set_reader [Samples.ln "czNjcmV0"]
               (_send "334 VXNlcm5hbWU6"
                  (Samples.conn [Samples.ln "YWxpY2U=";
                                 Samples.ln "czNjcmV0"] [])))))
  /\ _handle_auth_login (Samples.cfg true false 1024 50)
       (new_session (Samples.conn [] []))
       (Samples.conn [Samples.ln "/w=="; Samples.ln "czNjcmV0"] [])
     = (Return true, new_session (Samples.conn [] []),
        _send "535 Authentication failed"
          (set_reader [Samples.ln "czNjcmV0"]
             (_send "334 VXNlcm5hbWU6"
                (Samples.conn [Samples.ln "/w==";
                               Samples.ln "czNjcmV0"] []))))
  /\ _handle_auth_login (Samples.cfg true false 1024 50)
       (new_session (Samples.conn [] []))
       (Samples.conn [Samples.ln "YWxpY2U="; Samples.ln "czNjcmV"] [])
     = (Return true, new_session (Samples.conn [] []),
        _send "535 Authentication failed"
          (set_reader []
             (_send "334 UGFzc3dvcmQ6"
                (set_reader [Samples.ln "czNjcmV"]
                   (_send "334 VXNlcm5hbWU6"
                      (Samples.conn [Samples.ln "YWxpY2U=";
                                     Samples.ln "czNjcmV"] [])))))).
Proof.
  split; [|split].
  - exact (proj1 (auth_login_reads_both_lines
                    (Samples.cfg true false 1024 50)
                    (new_session (Samples.conn [] []))
                    (Samples.conn [Samples.ln "YWxpY2U=";
                                   Samples.ln "czNjcmV0"] []))
             _ _ [] "alice"%str "s3cret"%str
             eq_refl ltac:(vm_compute; reflexivity)
             ltac:(vm_compute; reflexivity)).
  - exact (proj1 (proj2 (auth_login_reads_both_lines
                           (Samples.cfg true false 1024 50)
                           (new_session (Samples.conn [] []))
                           (Samples.conn [Samples.ln "/w==";
                                          Samples.ln "czNjcmV0"] [])))
             _ [Samples.ln "czNjcmV0"] eq_refl
             ltac:(vm_compute; reflexivity)).
  - exact (proj2 (proj2 (auth_login_reads_both_lines
                           (Samples.cfg true false 1024 50)
                           (new_session (Samples.conn [] []))
                           (Samples.conn [Samples.ln "YWxpY2U=";
                                          Samples.ln "czNjcmV"] [])))
             _ _ [] "alice"%str eq_refl ltac:(vm_compute; reflexivity)
             ltac:(vm_compute; reflexivity)).
Defined.

(** noop followed by a no-break space and text, quit with a dotless
    i (which [str.upper] maps to I), rset in lower case with text after
    it, VRFY, and a line of one blank. *)
Lemma commands_are_known_by_their_first_word_witness :
  _process_command (Samples.cfg true false 1024 50) Samples.raw_parser
    ("" ++ "noop" ++ String 160 "now")%str
    Samples.in_transaction (Samples.conn [] [])
  = (Return true, Samples.in_transaction, _send "250 OK" (Samples.conn [] []))
  /\ _process_command (Samples.cfg true false 1024 50) Samples.raw_parser
       (" " ++ String 113 (String 117 (String 305 (String 116 "")))
        ++ " now")%str
       Samples.in_transaction (Samples.conn [] [])
     = (Return false, Samples.in_transaction,
        _send "221 Bye" (Samples.conn [] []))
  /\ _process_command (Samples.cfg true false 1024 50) Samples.raw_parser
       ("" ++ "rset" ++ " all")%str
       Samples.in_transaction (Samples.conn [] [])
     = (Return true, _reset_transaction Samples.in_transaction,
        _send "250 OK" (Samples.conn [] []))
  /\ _process_command (Samples.cfg true false 1024 50) Samples.raw_parser
       ("" ++ "VRFY" ++ " alice")%str
       Samples.in_transaction (Samples.conn [] [])
     = (Return true, Samples.in_transaction,
        _send "500 Unknown command" (Samples.conn [] []))
  /\ _process_command (Samples.cfg true false 1024 50) Samples.raw_parser
       " " Samples.in_transaction (Samples.conn [] [])
     = (Return true, Samples.in_transaction,
        _send "500 Unknown command" (Samples.conn [] [])).
Proof.
  split; [|split; [|split; [|split]]].
  - exact (proj1 (commands_are_known_by_their_first_word
                    (Samples.cfg true false 1024 50) Samples.raw_parser
                    "" "noop" (String 160 "now")
                    Samples.in_transaction (Samples.conn [] [])
                    eq_refl eq_refl ltac:(discriminate)
                    (or_intror (ex_intro _ 160%N
                                  (ex_intro _ "now"%str
                                     (conj eq_refl eq_refl)))))
             ltac:(vm_compute; reflexivity)).
  - exact (proj1 (proj2 (commands_are_known_by_their_first_word
                    (Samples.cfg true false 1024 50) Samples.raw_parser
                    " " (String 113 (String 117 (String 305 (String 116 ""))))
                    " now"
                    Samples.in_transaction (Samples.conn [] [])
                    eq_refl eq_refl ltac:(discriminate)
                    (or_intror (ex_intro _ 32%N
                                  (ex_intro _ "now"%str
                                     (conj eq_refl eq_refl))))))
             ltac:(vm_compute; reflexivity)).
  - exact (proj1 (proj2 (proj2 (commands_are_known_by_their_first_word
                    (Samples.cfg true false 1024 50) Samples.raw_parser
                    "" "rset" " all"
                    Samples.in_transaction (Samples.conn [] [])
                    eq_refl eq_refl ltac:(discriminate)
                    (or_intror (ex_intro _ 32%N
                                  (ex_intro _ "all"%str
                                     (conj eq_refl eq_refl)))))))
             ltac:(vm_compute; reflexivity)).
  - apply (proj1 (proj2 (proj2 (proj2
             (commands_are_known_by_their_first_word
                (Samples.cfg true false 1024 50) Samples.raw_parser
                "" "VRFY" " alice"
                Samples.in_transaction (Samples.conn [] [])
                eq_refl eq_refl ltac:(discriminate)
                (or_intror (ex_intro _ 32%N
                              (ex_intro _ "alice"%str
                                 (conj eq_refl eq_refl))))))))).
    vm_compute. intros H.
    repeat (destruct H as [H | H]; [discriminate H|]). exact H.
  - exact (proj2 (proj2 (proj2 (proj2
             (commands_are_known_by_their_first_word
                (Samples.cfg true false 1024 50) Samples.raw_parser
                " " "x" ""
                Samples.in_transaction (Samples.conn [] [])
                eq_refl eq_refl ltac:(discriminate)
                (or_introl eq_refl)))))).
Defined.

(** ehlo and HELO inside an open transaction. *)
Lemma ehlo_and_helo_are_answered_alike_witness :
  _process_command (Samples.cfg true false 1024 50) Samples.raw_parser
    "ehlo client.example" Samples.in_transaction (Samples.conn [] [])
  = _process_command (Samples.cfg true false 1024 50) Samples.raw_parser
      "HELO other" Samples.in_transaction (Samples.conn [] [])
  /\ exists reply,
      _process_command (Samples.cfg true false 1024 50) Samples.raw_parser
        "ehlo client.example" Samples.in_transaction (Samples.conn [] [])
      = (Return true, Samples.in_transaction,
         set_writer reply (Samples.conn [] []))
      /\ hd EmptyString reply = "250-localhost Hello"
      /\ last reply EmptyString = "250 OK"
      /\ In "250-SIZE 1024" reply
      /\ (In "250-AUTH PLAIN LOGIN" reply
          <-> true = true \/ "alice" <> EmptyString).
Proof.
  exact (ehlo_and_helo_are_answered_alike
           (Samples.cfg true false 1024 50) Samples.raw_parser
           "ehlo client.example" "HELO other"
           Samples.in_transaction (Samples.conn [] []) eq_refl eq_refl).
Defined.

(** A client that tries MAIL, RCPT and DATA without AUTH on a server that
    requires it. *)
Lemma no_auth_no_mail_when_required_witness :
  let '(_, s', w') :=
    handle (Samples.cfg true false 1024 50) Samples.raw_parser
      (Samples.conn [Samples.ln "EHLO x"; Samples.ln "MAIL FROM:<a@x>";
                     Samples.ln "RCPT TO:<b@y>"; Samples.ln "DATA";
                     Samples.ln "QUIT"] []) in
  authenticated s' = false
  /\ mail_from s' = EmptyString /\ rcpt_to s' = []
  /\ create_calls w' = []
  /\ email_repo w' = [].
Proof.
  exact (no_auth_no_mail_when_required
           (Samples.cfg true false 1024 50) Samples.raw_parser
           (Samples.conn [Samples.ln "EHLO x"; Samples.ln "MAIL FROM:<a@x>";
                          Samples.ln "RCPT TO:<b@y>"; Samples.ln "DATA";
                          Samples.ln "QUIT"] [])
           eq_refl
           ltac:(repeat constructor; vm_compute; discriminate)).
Defined.

(** A timeout in the command loop, after AUTH PLAIN without a blob, and
    after the first line of a body. *)
Lemma timeout_is_answered_421_and_ends_witness :
  command_loop (Samples.cfg true false 1024 50) Samples.raw_parser 1
    Samples.in_transaction (Samples.conn [RTimeout; Samples.ln "QUIT"] [])
  = (Finished, Samples.in_transaction,
     _send "421 Timeout"
       (set_reader [Samples.ln "QUIT"]
          (Samples.conn [RTimeout; Samples.ln "QUIT"] [])))
  /\ _handle_auth_plain (Samples.cfg true false 1024 50) ["AUTH"; "PLAIN"]
       Samples.in_transaction (Samples.conn [RTimeout; Samples.ln "QUIT"] [])
     = (Return false, Samples.in_transaction,
        _send "421 Timeout"
          (set_reader [Samples.ln "QUIT"]
             (_send "334 " (Samples.conn [RTimeout; Samples.ln "QUIT"] []))))
  /\ _handle_data (Samples.cfg true false 1024 50) Samples.raw_parser
       Samples.in_transaction
       (Samples.conn [Samples.ln "hi"; RTimeout; Samples.ln "QUIT"] [])
     = (Return false, Samples.in_transaction,
        _send "421 Timeout"
          (set_reader [Samples.ln "QUIT"]
             (_send "354 Start mail input; end with <CRLF>.<CRLF>"
                (Samples.conn [Samples.ln "hi"; RTimeout;
                               Samples.ln "QUIT"] [])))).
Proof.
  destruct (timeout_is_answered_421_and_ends
              (Samples.cfg true false 1024 50) Samples.raw_parser 0
              Samples.in_transaction
              (Samples.conn [RTimeout; Samples.ln "QUIT"] [])
              [Samples.ln "QUIT"] eq_refl) as (H1 & H2 & H3).
  split; [exact H1|]. split.
  - exact (H2 ["AUTH"; "PLAIN"] ltac:(vm_compute; discriminate)).
  - exact (H3 (Samples.conn [Samples.ln "hi"; RTimeout; Samples.ln "QUIT"] [])
             [Py.encode ("hi" ++ Py.CRLF)%str]
             ltac:(repeat split; discriminate)
             ltac:(repeat constructor)
             ltac:(vm_compute; discriminate) eq_refl).
Defined.

